(** * Delmarva load profiles: a model of [delmarva_load_profiles.py]

    The development follows the Python module top down: text and date
    helpers, the part of pandas the module uses (frames, column updates,
    joins, sorts), the outside world (archive server, file system, object
    store, console) as explicit state, then the class [Delmarva] with its
    methods, and finally the properties of those methods. *)

From Stdlib Require Import PrimFloat SpecFloat FloatOps Uint63 ZArith Ascii String List Lia.
From Stdlib Require Import Sorting.Sorted.
From stdpp Require Import base option list strings pretty gmap.

Open Scope string_scope.
Open Scope list_scope.
Open Scope Z_scope.

(** ** Python text helpers

    Text is a string of 8-bit characters (the archive serves plain ASCII
    tables); [len] counts characters. *)

Module py.

(** [str.isspace] restricted to one character, in the Latin-1 range. *)
Definition isspace (c : ascii) : bool :=
  let n := Z.of_nat (nat_of_ascii c) in
  ((9 <=? n) && (n <=? 13)) || ((28 <=? n) && (n <=? 32))
  || (n =? 133) || (n =? 160).

Definition len (s : string) : Z := Z.of_nat (String.length s).

(** [s.replace(c, '')] for a one-character [c]. *)
Fixpoint remove_char (c : ascii) (s : string) : string :=
  match s with
  | EmptyString => EmptyString
  | String a s' =>
      if Ascii.eqb a c then remove_char c s' else String a (remove_char c s')
  end.

(** [s.split(sep)] for a one-character separator: n separators give n+1
    pieces, the empty string gives one empty piece. *)
Fixpoint split (sep : ascii) (s : string) : list string :=
  match s with
  | EmptyString => [EmptyString]
  | String a s' =>
      if Ascii.eqb a sep then EmptyString :: split sep s'
      else match split sep s' with
           | piece :: rest => String a piece :: rest
           | [] => [String a EmptyString]
           end
  end.

(** [s.split()]: maximal runs of non-blank characters. [cur] is the token
    being read, kept reversed. *)
Fixpoint split_ws_go (cur : list ascii) (s : string) : list string :=
  let flush (k : list string) :=
    match cur with [] => k | _ => string_of_list_ascii (rev cur) :: k end in
  match s with
  | EmptyString => flush []
  | String a s' =>
      if isspace a then flush (split_ws_go [] s')
      else split_ws_go (a :: cur) s'
  end.

Definition split_ws (s : string) : list string := split_ws_go [] s.

(** [s.strip()] *)
Fixpoint lstrip (s : string) : string :=
  match s with
  | String a s' => if isspace a then lstrip s' else s
  | EmptyString => EmptyString
  end.

Definition rstrip (s : string) : string :=
  string_of_list_ascii
    (rev (list_ascii_of_string
            (lstrip (string_of_list_ascii (rev (list_ascii_of_string s)))))).

Definition strip (s : string) : string := rstrip (lstrip s).

(** [s[start:]] *)
Fixpoint slice_from (start : nat) (s : string) : string :=
  match start, s with
  | O, _ => s
  | S n, String _ s' => slice_from n s'
  | S _, EmptyString => EmptyString
  end.

(** [s.zfill(width)] for a text without sign. *)
Definition zfill (width : nat) (s : string) : string :=
  (string_of_list_ascii (repeat "0"%char (width - String.length s)) ++ s)%string.

Definition str_of_int (z : Z) : string := pretty z.

Definition lower_char (c : ascii) : ascii :=
  let n := nat_of_ascii c in
  if ((65 <=? n) && (n <=? 90))%nat then ascii_of_nat (n + 32) else c.

Definition upper_char (c : ascii) : ascii :=
  let n := nat_of_ascii c in
  if ((97 <=? n) && (n <=? 122))%nat then ascii_of_nat (n - 32) else c.

Fixpoint map_chars (f : ascii -> ascii) (s : string) : string :=
  match s with
  | EmptyString => EmptyString
  | String a s' => String (f a) (map_chars f s')
  end.

Definition lower := map_chars lower_char.
Definition upper := map_chars upper_char.

(** [x or default] for an optional text: [None] and [''] are falsy. *)
Definition or_else (x : option string) (default : string) : string :=
  match x with
  | Some s => if String.eqb s "" then default else s
  | None => default
  end.

End py.

(** ** Calendar dates (day granularity) *)

Record Date := mkDate { year : Z; month : Z; day : Z }.

Definition is_leap (y : Z) : bool :=
  ((y mod 4 =? 0) && negb (y mod 100 =? 0)) || (y mod 400 =? 0).

Definition days_in_month (y m : Z) : Z :=
  if m =? 2 then (if is_leap y then 29 else 28)
  else if (m =? 4) || (m =? 6) || (m =? 9) || (m =? 11) then 30 else 31.

Definition next_day (d : Date) : Date :=
  if day d <? days_in_month (year d) (month d)
  then mkDate (year d) (month d) (day d + 1)
  else if month d <? 12 then mkDate (year d) (month d + 1) 1
  else mkDate (year d + 1) 1 1.

Definition date_key (d : Date) : list Z := [year d; month d; day d].

Definition date_leb (a b : Date) : bool :=
  (year a <? year b)
  || ((year a =? year b)
      && ((month a <? month b)
          || ((month a =? month b) && (day a <=? day b)))).

(** Days from 0001-01-01, as [datetime.date.toordinal]. *)
Fixpoint days_before_month (y : Z) (m : nat) : Z :=
  match m with
  | O => 0
  | S k => days_before_month y k + days_in_month y (Z.of_nat (S k))
  end.

Definition toordinal (d : Date) : Z :=
  let y := year d - 1 in
  y * 365 + y / 4 - y / 100 + y / 400
  + days_before_month (year d) (Z.to_nat (month d - 1)) + day d.

Fixpoint days_from (d : Date) (n : nat) : list Date :=
  match n with
  | O => []
  | S k => d :: days_from (next_day d) k
  end.

(** [pd.date_range(a, b, freq='D')]: every day from [a] to [b], both
    included; empty when [b] is before [a]. *)
Definition date_range (a b : Date) : list Date :=
  days_from a (Z.to_nat (toordinal b - toordinal a + 1)).

(** [dt.strftime('%Y%m%d')] *)
Definition strftime_Ymd (d : Date) : string :=
  (py.zfill 4 (py.str_of_int (year d)) ++ py.zfill 2 (py.str_of_int (month d))
   ++ py.zfill 2 (py.str_of_int (day d)))%string.

(** ** Exceptions and results

    The specification's error names are the Python classes raised by the
    module: [InvalidLdcError] is the failed [assert] ([AssertionError]),
    [NoDataAvailableError] is [requests.exceptions.HTTPError],
    [NoValidDataError] and [InvalidDataStructureError] are the two
    [ValueError]s of [get_lp_series], [FileAlreadyArchivedError] is
    [FileExistsError]. *)

Inductive value_error :=
  | NoValidData            (* "Did not receive any valid data for ..." *)
  | InvalidDataStructure   (* "... does not have 26 or 27 columns." *)
  | ShapeMismatch          (* pd.DataFrame: n columns passed, data had m *)
  | LengthMismatch         (* df[c] = values of another length *)
  | NotANumber             (* astype('float') on a malformed token *)
  | NotADate               (* pd.to_datetime on a malformed token *)
  | ColumnsOverlap         (* join: columns overlap but no suffix *)
  | NoObjectsToConcatenate (* pd.concat([]) *)
  | AllObjectsNone         (* pd.concat([None, ..., None]) *)
  | BadFormatArgument      (* '{:%Y%m%d}'.format(x) for x not a date *)
  | InvalidIndexColumn.    (* read_csv: index_col is not a column *)

Inductive exn :=
  | AssertionError
  | TypeError
  | AttributeError (attr : string)
  | KeyError (key : string)
  | ValueError (why : value_error)
  | HTTPError (status_code : Z)
  | FileExistsError (file_name : string)
  | FileNotFoundError (path : string)
  | IsADirectoryError (path : string)
  | OSError (path : string).  (* open(path, 'w'): no such directory *)

Inductive result (A : Type) : Type :=
  | Ok (a : A)
  | Raise (e : exn).
Arguments Ok {A} a.
Arguments Raise {A} e.

#[global] Instance result_ret : MRet result := @Ok.
#[global] Instance result_bind : MBind result := λ A B k r,
  match r with Ok a => k a | Raise e => Raise e end.

Fixpoint map_result {A B} (f : A → result B) (l : list A) : result (list B) :=
  match l with
  | [] => Ok []
  | a :: l' => b ← f a; bs ← map_result f l'; Ok (b :: bs)
  end.

(** ** The part of pandas the module uses *)

Module pd.

(** A table entry. [Null] is pandas' missing value ([None], [NaN], [NaT]). *)
Inductive cell :=
  | Null
  | Str (s : string)
  | Int (z : Z)
  | Num (x : float)
  | Dt (d : Date).

(** A frame is kept row by row: the column labels, and for every row its
    index label and its values, one per column. *)
Definition Row : Type := cell * list cell.

Record DataFrame := mkFrame { columns : list string; rows : list Row }.

(** A named column with its index, as [frame.column] gives it. *)
Record Series := mkSeries { name : string; items : list (cell * cell) }.

Definition empty_frame : DataFrame := mkFrame [] [].

Definition cell_at (j : nat) (r : Row) : cell := default Null (r.2 !! j).

Fixpoint col_pos (c : string) (cols : list string) : option nat :=
  match cols with
  | [] => None
  | c' :: cols' => if String.eqb c c' then Some O else S <$> col_pos c cols'
  end.

Definition RangeIndex (rs : list Row) : list Row :=
  imap (λ i r, (Int (Z.of_nat i), r.2)) rs.

(** *** Ordering of values

    Missing values sort last. Present values are compared through a key, a
    list of integers read lexicographically: the integer itself, the date's
    year, month and day, the text's character codes, and for a float its
    sign class, exponent and mantissa. Values of different kinds do not
    compare in Python ([TypeError]); [comparable] is that check. *)

Definition float_key (x : float) : option (list Z) :=
  match Prim2SF x with
  | S754_nan => None
  | S754_zero _ => Some [0; 0; 0]
  | S754_infinity false => Some [2; 0; 0]
  | S754_infinity true => Some [-2; 0; 0]
  | S754_finite false m e => Some [1; e; Zpos m]
  | S754_finite true m e => Some [-1; - e; Zneg m]
  end.

Definition kind (c : cell) : Z :=
  match c with Null => 0 | Int _ => 1 | Num _ => 2 | Str _ => 3 | Dt _ => 4 end.

Definition sort_key (c : cell) : option (list Z) :=
  match c with
  | Null => None
  | Int z => Some [z]
  | Num x => float_key x
  | Str s => Some (map (λ a, Z.of_nat (nat_of_ascii a)) (list_ascii_of_string s))
  | Dt d => Some (date_key d)
  end.

Definition isna (c : cell) : bool :=
  match sort_key c with None => true | Some _ => false end.

Fixpoint lex_leb (a b : list Z) : bool :=
  match a, b with
  | [], _ => true
  | _ :: _, [] => false
  | x :: a', y :: b' => (x <? y) || ((x =? y) && lex_leb a' b')
  end.

Definition cell_leb (a b : cell) : bool :=
  match sort_key a, sort_key b with
  | _, None => true
  | None, Some _ => false
  | Some ka, Some kb => lex_leb (kind a :: ka) (kind b :: kb)
  end.

Definition comparable (vals : list cell) : bool :=
  match List.filter (λ c, negb (isna c)) vals with
  | [] => true
  | c :: cs => forallb (λ c', kind c' =? kind c) cs
  end.

(** Equality of join keys; missing keys match each other. *)
Definition key_eqb (a b : cell) : bool :=
  match a, b with
  | Null, Null => true
  | Str s, Str t => String.eqb s t
  | Int x, Int y => x =? y
  | Num x, Num y => PrimFloat.eqb x y
  | Dt d, Dt e => date_leb d e && date_leb e d
  | _, _ => false
  end.

(** *** Construction and column access *)

Definition pad (n : nat) (r : list cell) : list cell :=
  r ++ repeat Null (n - length r).

(** [pd.DataFrame(data, columns=cols)] for a list of token lists: shorter
    rows are filled with [None]; the widest row must have [len(cols)]
    entries. *)
Definition frame (data : list (list string)) (cols : list string)
  : result DataFrame :=
  match data with
  | [] => Ok (mkFrame cols [])
  | _ =>
      let width := foldr (λ r m, Nat.max (length r) m) O data in
      if negb (Nat.eqb width (length cols)) then Raise (ValueError ShapeMismatch)
      else Ok (mkFrame cols
                 (imap (λ i toks, (Int (Z.of_nat i),
                                   pad (length cols) (map Str toks))) data))
  end.

(** [df[c]] *)
Definition getitem (df : DataFrame) (c : string) : result (list cell) :=
  match col_pos c (columns df) with
  | Some j => Ok (map (cell_at j) (rows df))
  | None => Raise (KeyError c)
  end.

(** [df.c] *)
Definition getattr (df : DataFrame) (c : string) : result Series :=
  match col_pos c (columns df) with
  | Some j => Ok (mkSeries c (map (λ r, (r.1, cell_at j r)) (rows df)))
  | None => Raise (AttributeError c)
  end.

(** [df[c] = vals]: replaces the column in place, or appends a new one. *)
Definition setitem (df : DataFrame) (c : string) (vals : list cell)
  : result DataFrame :=
  if negb (Nat.eqb (length vals) (length (rows df)))
  then Raise (ValueError LengthMismatch)
  else match col_pos c (columns df) with
       | Some j =>
           Ok (mkFrame (columns df)
                 (zip_with (λ (r : Row) v, (r.1, <[j := v]> r.2)) (rows df) vals))
       | None =>
           Ok (mkFrame (columns df ++ [c])
                 (zip_with (λ (r : Row) v, (r.1, r.2 ++ [v])) (rows df) vals))
       end.

(** [del df[c]] *)
Definition delitem (df : DataFrame) (c : string) : result DataFrame :=
  match col_pos c (columns df) with
  | Some j => Ok (mkFrame (delete j (columns df))
                    (map (λ r : Row, (r.1, delete j r.2)) (rows df)))
  | None => Raise (KeyError c)
  end.

(** [a + b] on two columns: a missing operand gives a missing sum. *)
Definition add_cell (a b : cell) : result cell :=
  match a, b with
  | Num x, Num y => Ok (Num (x + y)%float)
  | Null, (Null | Num _) | Num _, Null => Ok Null
  | _, _ => Raise TypeError
  end.

Fixpoint add_columns (a b : list cell) : result (list cell) :=
  match a, b with
  | x :: a', y :: b' => s ← add_cell x y; t ← add_columns a' b'; Ok (s :: t)
  | _, _ => Ok []
  end.

(** *** Reshaping: each method returns a new frame *)

(** [df.set_index(c)] *)
Definition set_index (c : string) (df : DataFrame) : result DataFrame :=
  match col_pos c (columns df) with
  | Some j => Ok (mkFrame (delete j (columns df))
                    (map (λ r : Row, (cell_at j r, delete j r.2)) (rows df)))
  | None => Raise (KeyError c)
  end.

(** [df.reset_index(drop=True)] *)
Definition reset_index_drop (df : DataFrame) : DataFrame :=
  mkFrame (columns df) (RangeIndex (rows df)).

(** [df.assign(c=v)] for a scalar [v]. *)
Definition assign (c : string) (v : cell) (df : DataFrame) : result DataFrame :=
  setitem df c (repeat v (length (rows df))).

(** [left.join(right, how='right')] on the index: every entry of [right]
    is kept, in order, once per row of [left] with the same label; an entry
    without such a row gets missing values in the columns of [left]. Rows
    of [left] whose label is not in [right] are not in the result. *)
Definition join_entry (left : DataFrame) (kv : cell * cell) : list Row :=
  match List.filter (λ r : Row, key_eqb r.1 kv.1) (rows left) with
  | [] => [(kv.1, repeat Null (length (columns left)) ++ [kv.2])]
  | matches => map (λ r : Row, (kv.1, r.2 ++ [kv.2])) matches
  end.

Definition join_right (left : DataFrame) (right : Series) : result DataFrame :=
  if bool_decide (name right ∈ columns left)
  then Raise (ValueError ColumnsOverlap)
  else Ok (mkFrame (columns left ++ [name right])
             (flat_map (join_entry left) (items right))).

(** Sorting keeps rows with equal keys in their order (the order pandas'
    default quicksort leaves them in is not specified). *)
Fixpoint insert_row (key : Row → cell) (x : Row) (l : list Row) : list Row :=
  match l with
  | [] => [x]
  | y :: l' =>
      if cell_leb (key x) (key y) then x :: l else y :: insert_row key x l'
  end.

Definition sort_rows (key : Row → cell) (rs : list Row) : list Row :=
  foldr (insert_row key) [] rs.

(** [df.sort_values(c)] *)
Definition sort_values (c : string) (df : DataFrame) : result DataFrame :=
  match col_pos c (columns df) with
  | Some j =>
      if comparable (map (cell_at j) (rows df))
      then Ok (mkFrame (columns df) (sort_rows (cell_at j) (rows df)))
      else Raise TypeError
  | None => Raise (KeyError c)
  end.

(** [df.sort_index()] *)
Definition sort_index (df : DataFrame) : result DataFrame :=
  if comparable (map fst (rows df))
  then Ok (mkFrame (columns df) (sort_rows fst (rows df)))
  else Raise TypeError.

(** [series.min()] and [series.max()], skipping missing values. *)
Definition extreme (better : cell → cell → bool) (vals : list cell)
  : result cell :=
  if comparable vals
  then Ok (foldr (λ v acc, if isna v then acc
                           else if isna acc then v
                           else if better v acc then v else acc) Null vals)
  else Raise TypeError.

Definition min (s : Series) : result cell :=
  extreme cell_leb (map snd (items s)).
Definition max (s : Series) : result cell :=
  extreme (λ a b, cell_leb b a) (map snd (items s)).

(** [pd.concat(objs, ignore_index=True)]: [None] entries are dropped; the
    columns are those of all frames, in order of first appearance. *)
Definition union_columns (frames : list DataFrame) : list string :=
  foldl (λ acc df,
           acc ++ List.filter (λ c, negb (bool_decide (c ∈ acc))) (columns df))
        [] frames.

Definition align (cols : list string) (df : DataFrame) (r : Row) : Row :=
  (r.1, map (λ c, match col_pos c (columns df) with
                  | Some j => cell_at j r
                  | None => Null
                  end) cols).

Definition concat (objs : list (option DataFrame)) : result DataFrame :=
  match objs with
  | [] => Raise (ValueError NoObjectsToConcatenate)
  | _ =>
      match omap id objs with
      | [] => Raise (ValueError AllObjectsNone)
      | frames =>
          let cols := union_columns frames in
          Ok (mkFrame cols
                (RangeIndex
                   (flat_map (λ df, map (align cols df) (rows df)) frames)))
      end
  end.

(** The lines [to_csv(..., header=False)] writes: the index label, then the
    values of the row. *)
Definition records (df : DataFrame) : list (list cell) :=
  map (λ r : Row, r.1 :: r.2) (rows df).

End pd.

(** ** The world outside the module

    What the module cannot compute is gathered in [Platform]: pandas' text
    conversions ([None] when they raise), the archive server (its answer to a
    GET may depend on the requests made before), and the process' directory
    separator and working directory. *)

Record Response := mkResponse { status_code : Z; text : string }.

Class Platform := {
  to_float : string → option float;
  to_datetime : option string → string → option Date;
  server : list string → string → Response;
  os_sep : string;
  getcwd : string }.

(** Console output, one constructor per message of the module. *)
Inductive message :=
  | CodesFileNotFound (file_path : string)
  | NoDataAvailable (ldc : string) (dt : Date)
  | PartialData (dt : Date)
  | Downloaded (from_date to_date : Date) (file_path : string).

(** Frames live in a store and are passed by address, as Python objects
    are. A file holds the table written to it; file and directory names are
    compared as written (no normalisation of paths), except that the folder
    of a file to create may be listed with or without its final separator.
    The world records the store, the URLs of the GET requests sent (oldest
    first), the console output, the files and the directories. *)
Definition loc := nat.

Record World := mkWorld {
  heap : list pd.DataFrame;
  sent : list string;
  stdout : list message;
  files : gmap string pd.DataFrame;
  dirs : gset string }.

Definition M (A : Type) : Type := World → result A * World.

#[global] Instance M_ret : MRet M := λ A a w, (Ok a, w).
#[global] Instance M_bind : MBind M := λ A B k m w,
  match m w with
  | (Ok a, w') => k a w'
  | (Raise e, w') => (Raise e, w')
  end.

Definition raise {A} (e : exn) : M A := λ w, (Raise e, w).

Definition lift {A} (r : result A) : M A := λ w, (r, w).

(** [try: body  except <handles>: handler] followed by [rest]. *)
Definition try_except {A B} (body : M A) (handles : exn → bool)
    (handler : M B) (rest : A → M B) : M B := λ w,
  match body w with
  | (Ok a, w') => rest a w'
  | (Raise e, w') => if handles e then handler w' else (Raise e, w')
  end.

Fixpoint for_each {A} (l : list A) (body : A → M unit) : M unit :=
  match l with
  | [] => mret tt
  | a :: l' => _ ← body a; for_each l' body
  end.

Fixpoint map_M {A B} (f : A → M B) (l : list A) : M (list B) :=
  match l with
  | [] => mret []
  | a :: l' => b ← f a; bs ← map_M f l'; mret (b :: bs)
  end.

Definition print (m : message) : M unit := λ w,
  (Ok tt, mkWorld (heap w) (sent w) (stdout w ++ [m]) (files w) (dirs w)).

(** *** Objects *)

Definition new (df : pd.DataFrame) : M loc := λ w,
  (Ok (length (heap w)),
   mkWorld (heap w ++ [df]) (sent w) (stdout w) (files w) (dirs w)).

(** Reading the object at an address. The addresses the module holds come
    from [new]; an address outside the store stands for an argument that
    is no frame. *)
Definition load (l : loc) : M pd.DataFrame := λ w,
  match heap w !! l with
  | Some df => (Ok df, w)
  | None => (Raise TypeError, w)
  end.

Definition store (l : loc) (df : pd.DataFrame) : M unit := λ w,
  (Ok tt, mkWorld (<[l := df]> (heap w)) (sent w) (stdout w) (files w) (dirs w)).

(** [pd.DataFrame(...)] and the like: a new object. *)
Definition new_frame (r : result pd.DataFrame) : M loc :=
  df ← lift r; new df.

(** [df.method(...)] for a method that returns a new frame. *)
Definition method (op : pd.DataFrame → result pd.DataFrame) (l : loc) : M loc :=
  df ← load l; new_frame (op df).

(** [df[c]], [df[c] = vals] and [del df[c]] on the object at [l]. *)
Definition df_getitem (l : loc) (c : string) : M (list pd.cell) :=
  df ← load l; lift (pd.getitem df c).

Definition df_setitem (l : loc) (c : string) (vals : list pd.cell) : M unit :=
  df ← load l; df' ← lift (pd.setitem df c vals); store l df'.

Definition df_delitem (l : loc) (c : string) : M unit :=
  df ← load l; df' ← lift (pd.delitem df c); store l df'.

(** *** Network and files *)

Section Program.
Context `{Platform}.

(** [requests.get(url)] *)
Definition requests_get (url : string) : M Response := λ w,
  (Ok (server (sent w) url),
   mkWorld (heap w) (sent w ++ [url]) (stdout w) (files w) (dirs w)).

(** [r.raise_for_status()] *)
Definition raise_for_status (r : Response) : M unit :=
  if (400 <=? status_code r) && (status_code r <? 600)
  then raise (HTTPError (status_code r)) else mret tt.

Definition os_path_isdir (p : string) : M bool := λ w,
  (Ok (bool_decide (p ∈ dirs w)), w).

Definition os_path_exists (p : string) : M bool := λ w,
  (Ok (bool_decide (p ∈ dirs w) || bool_decide (is_Some (files w !! p))), w).

(** [pd.read_csv(p, index_col=c)] *)
Definition read_csv (p : string) (index_col : string) : M pd.DataFrame := λ w,
  match files w !! p with
  | Some table =>
      (match pd.col_pos index_col (pd.columns table) with
       | Some _ => pd.set_index index_col table
       | None => Raise (ValueError InvalidIndexColumn)
       end, w)
  | None => (Raise (if bool_decide (p ∈ dirs w) then IsADirectoryError p
                    else FileNotFoundError p), w)
  end.

(** Path separators: [os.path.sep], and [/], which every platform takes. *)
Definition is_sep (c : ascii) : bool :=
  String.eqb (String c "") os_sep || Ascii.eqb c "/".

Fixpoint has_sep (p : string) : bool :=
  match p with
  | EmptyString => false
  | String c rest => is_sep c || has_sep rest
  end.

(** The folder of a file name: its text up to the last separator, the
    separator included; empty when the name has no separator (a file of
    the working directory). *)
Fixpoint folder (p : string) : string :=
  match p with
  | EmptyString => ""
  | String c rest => if is_sep c || has_sep rest then String c (folder rest)
                     else ""
  end.

(** A text without its last character. *)
Fixpoint chop (s : string) : string :=
  match s with
  | EmptyString => ""
  | String c EmptyString => ""
  | String c rest => String c (chop rest)
  end.

(** What [open(p, 'w')] raises, if anything. A file can be created where
    no directory has its name, where it has a name of its own after the last
    separator, and where its folder exists: the folder is the working
    directory, or a directory of the world, listed with or without its
    final separator. Permissions and devices are outside the model. *)
Definition open_error (w : World) (p : string) : option exn :=
  if bool_decide (p ∈ dirs w) then Some (IsADirectoryError p)
  else if String.eqb (folder p) p then Some (OSError p)
  else if String.eqb (folder p) ""
          || bool_decide (folder p ∈ dirs w)
          || bool_decide (chop (folder p) ∈ dirs w)
       then None
       else Some (OSError p).

(** Writing a file: [p] is opened for writing and then holds the table;
    nothing is written when it cannot be opened. *)
Definition write_file (p : string) (df : pd.DataFrame) : M unit := λ w,
  match open_error w p with
  | Some e => (Raise e, w)
  | None => (Ok tt, mkWorld (heap w) (sent w) (stdout w)
                      (<[p := df]> (files w)) (dirs w))
  end.

(** [df.to_csv(p, sep='\t', header=False, ...)] *)
Definition to_csv (l : loc) (p : string) : M unit :=
  df ← load l; write_file p df.

(** ** The class [Delmarva] *)

Record Delmarva := mkDelmarva {
  dest_path : string;
  ldc_state : list (string * string);
  codes_path : string;
  codes_file_name : string;
  codes : pd.DataFrame;
  ldcs : list string }.

(** [self.delmarva_url] filled in with the six parameters of the method. *)
Definition delmarva_url (state_lower yr mo sDt state_upper url_index : string)
  : string :=
  ("http://www2.conectiv.com/cpd/tps/archives/" ++ state_lower ++ "/" ++ yr
   ++ "/" ++ mo ++ "/" ++ sDt ++ state_upper ++ "A" ++ url_index ++ ".txt")%string.

Definition __init__ (codes_path dest_path : option string) : M Delmarva :=
  let dest_path := py.or_else dest_path getcwd in
  let ldc_state := [("CNM", "MD"); ("CND", "DE"); ("CNV", "VA")] in
  let codes_path := py.or_else codes_path getcwd in
  let codes_file_name := "delmarva_lp_code_mapping.csv" in
  let file_path := (codes_path ++ os_sep ++ codes_file_name)%string in
  found ← os_path_exists file_path;
  codes ← (if found : bool then read_csv file_path "T_DMS_LOAD_PROFILE"
           else _ ← print (CodesFileNotFound file_path); mret pd.empty_frame);
  mret (mkDelmarva dest_path ldc_state codes_path codes_file_name codes
          ["CND"; "CNM"]).

(** [self.ldc_state[ldc]] *)
Fixpoint dict_get (d : list (string * string)) (k : string) : result string :=
  match d with
  | [] => Raise (KeyError k)
  | (k', v) :: d' => if String.eqb k k' then Ok v else dict_get d' k
  end.

(** The URL built from [params]: year, zero-filled month, compact date,
    the state in lower and in upper case, and the revision index. *)
Definition request_url (state : string) (dt : Date) (i : Z) : string :=
  delmarva_url (py.lower state) (py.str_of_int (year dt))
    (py.zfill 2 (py.str_of_int (month dt))) (strftime_Ymd dt)
    (py.upper state) (py.str_of_int i).

(** The loop [for i in (2, 1): ... else: r.raise_for_status()] of
    [_retrieve_raw_data]; [r] is the response of the previous round (there
    is one when the loop ends, since the tuple of indices is not empty). *)
Fixpoint retrieve_loop (self : Delmarva) (dt : Date) (ldc : string)
    (indices : list Z) (r : option Response) : M (option string) :=
  match indices with
  | i :: rest =>
      state ← lift (dict_get (ldc_state self) ldc);
      r ← requests_get (request_url state dt i);
      if status_code r =? 200 then mret (Some (text r))
      else retrieve_loop self dt ldc rest (Some r)
  | [] =>
      match r with
      | Some r => _ ← raise_for_status r; mret None
      | None => raise TypeError
      end
  end.

(** Download raw data as text. The date is a [Date], so it has the [month]
    and [year] attributes the method checks for. The method returns [None]
    when it falls off its end. *)
Definition _retrieve_raw_data (self : Delmarva) (dt : Date) (ldc : string)
  : M (option string) :=
  if negb (bool_decide (ldc ∈ ldcs self)) then raise AssertionError
  else retrieve_loop self dt ldc [2; 1] None.

(** The data lines of a raw text: carriage returns are discarded, the text
    is cut at line feeds, and a line is kept when it is longer than one
    character and stands after the first four lines. *)
Definition enumerate {A} (l : list A) : list (nat * A) := imap pair l.

Definition data_lines (data : string) : list (list string) :=
  let lines := py.split "010"%char (py.remove_char "013"%char data) in
  map (λ p, py.split_ws p.2)
      (List.filter (λ p : nat * string, (1 <? py.len p.2) && (3 <? Z.of_nat p.1))
         (enumerate lines)).

(** [['H' + str(h).zfill(2) for h in range(1, 25)]] *)
Definition hour_labels : list string :=
  map (λ h, ("H" ++ py.zfill 2 (py.str_of_int h))%string) (seqZ 1 24).

(** [l.insert(i, x)] *)
Definition list_insert_at {A} (i : nat) (x : A) (l : list A) : list A :=
  take i l ++ x :: drop i l.

(** The three conversions of [dtypes]. The columns they are applied to hold
    the tokens of the raw text, or [None] where a line was short. *)
Definition float_of_cell (c : pd.cell) : result pd.cell :=
  match c with
  | pd.Str s => match to_float s with
                | Some x => Ok (pd.Num x)
                | None => Raise (ValueError NotANumber)
                end
  | pd.Null => Ok pd.Null
  | pd.Num x => Ok (pd.Num x)
  | _ => Raise TypeError
  end.

(** The texts that [pd.to_datetime] takes for a missing date whatever the
    format: pandas' [nat_strings], and the empty text. They become [NaT]
    without an error; none of them is a date of the format. *)
Definition nat_strings : list string :=
  ["NaT"; "nat"; "NAT"; "nan"; "NaN"; "NAN"].

Definition date_of_cell (c : pd.cell) : result pd.cell :=
  match c with
  | pd.Str s => match to_datetime (Some "%m/%d/%Y") s with
                | Some d => Ok (pd.Dt d)
                | None => if String.eqb s "" || bool_decide (s ∈ nat_strings)
                          then Ok pd.Null
                          else Raise (ValueError NotADate)
                end
  | pd.Null => Ok pd.Null
  | pd.Dt d => Ok (pd.Dt d)
  | _ => Raise TypeError
  end.

Definition segment_of_cell (c : pd.cell) : result pd.cell :=
  match c with
  | pd.Str s => Ok (pd.Str (py.slice_from 8 (py.strip s)))
  | pd.Null => Ok pd.Null
  | _ => Raise (AttributeError "str")
  end.

(** [x.astype('float')], [pd.to_datetime(dt, format='%m/%d/%Y')] and
    [s.str.strip().str.slice(start=8)] on a column. *)
Definition astype_float : list pd.cell → result (list pd.cell) :=
  map_result float_of_cell.
Definition to_datetime_mdY : list pd.cell → result (list pd.cell) :=
  map_result date_of_cell.
Definition strip_slice8 : list pd.cell → result (list pd.cell) :=
  map_result segment_of_cell.

Definition is_HTTPError (e : exn) : bool :=
  match e with HTTPError _ => true | _ => false end.

(** Download one day's load profiles and turn the raw text into a frame.
    The result is [None] when the archive has no data for the day. *)
Definition get_lp_series (self : Delmarva) (target_dt : Date) (ldc : string)
    (agg_dst_hr2 : bool) : M (option loc) :=
  try_except (_retrieve_raw_data self target_dt ldc) is_HTTPError
    (_ ← print (NoDataAvailable ldc target_dt); mret None)
    (λ data,
      data ← match data with
             | Some t => mret t
             | None => raise (AttributeError "replace")
             end;
      let parsed := data_lines data in
      let n_lines := length parsed in
      _ ← (if (n_lines <? 2)%nat
           then if (n_lines =? 0)%nat then raise (ValueError NoValidData)
                else print (PartialData target_dt)
           else mret tt);
      let n_cols := length (default [] (head parsed)) in
      let dst := (n_cols =? 27)%nat in
      hours ← (if dst then mret (list_insert_at 2 "H02X" hour_labels)
               else if negb (n_cols =? 26)%nat
                    then raise (ValueError InvalidDataStructure)
                    else mret hour_labels);
      let cols := ["segment"; "date"] ++ hours in
      df ← new_frame (pd.frame parsed cols);
      let dtypes := map (λ h, (h, astype_float)) hours
                    ++ [("date", to_datetime_mdY); ("segment", strip_slice8)] in
      _ ← for_each dtypes (λ cf : string * (list pd.cell → result (list pd.cell)),
             col ← df_getitem df cf.1;
             col' ← lift (cf.2 col);
             df_setitem df cf.1 col');
      _ ← (if dst && agg_dst_hr2
           then h02 ← df_getitem df "H02";
                h02x ← df_getitem df "H02X";
                total ← lift (pd.add_columns h02 h02x);
                _ ← df_setitem df "H02" total;
                df_delitem df "H02X"
           else mret tt);
      mret (Some df)).

(** A date argument: a date object or a text. *)
Inductive date_like := ADate (d : Date) | AText (s : string).

(** [pd.to_datetime(x)] and [pd.Timestamp(x)] without a format. *)
Definition as_date (x : date_like) : result Date :=
  match x with
  | ADate d => Ok d
  | AText s => match to_datetime None s with
               | Some d => Ok d
               | None => Raise (ValueError NotADate)
               end
  end.

(** Get all available load profile data series in the date range, for both
    LDCs. *)
Definition get_lp_data (self : Delmarva) (from_dt to_dt : date_like) : M loc :=
  range ← lift (match from_dt with
                | AText _ => from_date ← as_date from_dt;
                             to_date ← as_date to_dt;
                             Ok (ADate from_date, ADate to_date)
                | ADate _ => Ok (from_dt, to_dt)
                end);
  rng ← lift (a ← as_date range.1; b ← as_date range.2; Ok (date_range a b));
  series ← map_M (λ p : Date * string, get_lp_series self p.1 p.2 true)
             (flat_map (λ dt, map (pair dt) (ldcs self)) rng);
  frames ← map_M (λ o : option loc, match o with
                                    | Some l => df ← load l; mret (Some df)
                                    | None => mret None
                                    end) series;
  new_frame (pd.concat frames).

(** ['Conectiv_{:%Y%m%d}.txt'.format(from_date)] *)
Definition default_file_name (from_date : pd.cell) : result string :=
  match from_date with
  | pd.Dt d => Ok ("Conectiv_" ++ strftime_Ymd d ++ ".txt")%string
  | _ => Raise (ValueError BadFormatArgument)
  end.

(** [if not file_name: file_name = 'Conectiv_...'] *)
Definition file_name_or_default (file_name : option string)
    (from_date : pd.cell) : result string :=
  match file_name with
  | Some f => if String.eqb f "" then default_file_name from_date else Ok f
  | None => default_file_name from_date
  end.

(** Export load profile data in the format required for upload. *)
Definition export_for_oracle (self : Delmarva) (lp_data : loc)
    (path file_name : option string) : M unit :=
  let path := py.or_else path (dest_path self) in
  df ← load lp_data;
  dates ← lift (pd.getattr df "date");
  from_date ← lift (pd.min dates);
  to_date ← lift (pd.max dates);
  file_name ← lift (file_name_or_default file_name from_date);
  in_archive ← (is_dir ← os_path_isdir (path ++ "Archive")%string;
                if is_dir : bool
                then os_path_exists (path ++ "Archive\" ++ file_name)%string
                else mret false);
  if in_archive : bool then raise (FileExistsError file_name)
  else
    indexed ← method (pd.set_index "segment") lp_data;
    mapping ← lift (pd.getattr (codes self) "C_LOAD_PROFILE");
    joined ← method (λ d, pd.join_right d mapping) indexed;
    plain ← method (λ d, Ok (pd.reset_index_drop d)) joined;
    coded ← method (pd.set_index "C_LOAD_PROFILE") plain;
    padded ← method (pd.assign "EMPTY" pd.Null) coded;
    by_date ← method (pd.sort_values "date") padded;
    by_code ← method pd.sort_index by_date;
    _ ← to_csv by_code (path ++ file_name)%string;
    match from_date, to_date with
    | pd.Dt a, pd.Dt b => print (Downloaded a b (path ++ file_name)%string)
    | _, _ => raise (ValueError BadFormatArgument)
    end.

End Program.

(** ** A concrete platform

    A small platform on which the methods can be run: fixed-point decimal
    tokens, month/day/year dates, and an archive given as a list of pages.
    The properties below hold for every platform; this one provides inputs
    on which they can be evaluated. *)

Module Sample.

Fixpoint digits_go (acc : Z) (s : string) : option Z :=
  match s with
  | EmptyString => Some acc
  | String a s' =>
      let n := Z.of_nat (nat_of_ascii a) in
      if (48 <=? n) && (n <=? 57) then digits_go (10 * acc + (n - 48)) s'
      else None
  end.

Definition digits (s : string) : option Z :=
  match s with EmptyString => None | _ => digits_go 0 s end.

(** Decimal tokens such as [12.345]: at most 15 digits, so that the
    quotient of the two exactly represented integers is the nearest float. *)
Definition read_float (s : string) : option float :=
  match py.split "."%char s with
  | [whole] =>
      m ← digits whole;
      if m <? 10 ^ 15 then Some (of_uint63 (Uint63.of_Z m)) else None
  | [whole; frac] =>
      m ← digits (whole ++ frac)%string;
      let k := Z.of_nat (String.length frac) in
      if (m <? 10 ^ 15) && (0 <? py.len whole) && (0 <? k) && (k <=? 15)
      then Some (of_uint63 (Uint63.of_Z m) / of_uint63 (Uint63.of_Z (10 ^ k)))%float
      else None
  | _ => None
  end.

Definition read_date (format : option string) (s : string) : option Date :=
  match py.split "/"%char s with
  | [m; d; y] =>
      m ← digits m; d ← digits d; y ← digits y;
      if (1 <=? m) && (m <=? 12) && (1 <=? d) && (d <=? days_in_month y m)
         && (1000 <=? y) && (y <=? 9999)
      then Some (mkDate y m d) else None
  | _ => None
  end.

(** An archive: the pages it serves; anything else is answered by
    [missing]. *)
Definition archive (pages : list (string * string)) (missing : Z)
    (earlier : list string) (url : string) : Response :=
  match List.find (λ p : string * string, String.eqb p.1 url) pages with
  | Some p => mkResponse 200 p.2
  | None => mkResponse missing ""
  end.

Definition platform (pages : list (string * string)) (missing : Z)
    (sep cwd : string) : Platform :=
  {| to_float := read_float;
     to_datetime := read_date;
     server := archive pages missing;
     os_sep := sep;
     getcwd := cwd |}.

Definition unlines (ls : list string) : string :=
  foldr (λ l rest, (l ++ String "010" rest)%string) "" ls.

Definition header : list string :=
  ["Delmarva Power"; "Load Profiles"; "----------"; "Segment Date Hours"].

(** A standard day (26 columns) and a daylight-saving day (27 columns). *)
Definition row26 (seg date : string) : string :=
  ("20170101" ++ seg ++ " " ++ date
   ++ " 1.000 2.000 3.000 4.000 5.000 6.000 7.000 8.000 9.000 10.000 11.000 12.000"
   ++ " 13.000 14.000 15.000 16.000 17.000 18.000 19.000 20.000 21.000 22.000 23.000 24.500")%string.

Definition row27 (seg date : string) : string :=
  ("20161106" ++ seg ++ " " ++ date
   ++ " 1.000 2.250 0.125 3.000 4.000 5.000 6.000 7.000 8.000 9.000 10.000 11.000 12.000"
   ++ " 13.000 14.000 15.000 16.000 17.000 18.000 19.000 20.000 21.000 22.000 23.000 24.500")%string.

Definition page26 : string :=
  unlines (header ++ [row26 "MDRES" "01/01/2017"; row26 "MDGSL" "01/01/2017"]).

Definition page27 : string :=
  unlines (header ++ [row27 "MDRES" "11/06/2016"; row27 "MDGSL" "11/06/2016"]).

(** A page whose four header lines are blank, followed by one data line. *)
Definition page_blank_header : string :=
  unlines ["" ; ""; ""; ""; row26 "MDRES" "01/01/2017"].

Definition url_md (sDt yr mo : string) (i : Z) : string :=
  delmarva_url "md" yr mo sDt "MD" (py.str_of_int i).

Definition empty_world : World := mkWorld [] [] [] ∅ ∅.

(** The code mapping as [read_csv] finds it in the file. *)
Definition codes_table : pd.DataFrame :=
  pd.mkFrame ["T_DMS_LOAD_PROFILE"; "C_LOAD_PROFILE"]
    [(pd.Int 0, [pd.Str "MDRES"; pd.Int 98]);
     (pd.Int 1, [pd.Str "MDGSL"; pd.Int 12]);
     (pd.Int 2, [pd.Str "MDXXX"; pd.Int 7])].

(** The object [Delmarva()] builds when the mapping file holds
    [codes_table], and when there is no mapping file. *)
Definition mapped : Delmarva :=
  mkDelmarva "C:\data" [("CNM", "MD"); ("CND", "DE"); ("CNV", "VA")]
    "C:\data" "delmarva_lp_code_mapping.csv"
    (pd.mkFrame ["C_LOAD_PROFILE"]
       [(pd.Str "MDRES", [pd.Int 98]); (pd.Str "MDGSL", [pd.Int 12]);
        (pd.Str "MDXXX", [pd.Int 7])])
    ["CND"; "CNM"].

Definition unmapped : Delmarva :=
  mkDelmarva "C:\data" [("CNM", "MD"); ("CND", "DE"); ("CNV", "VA")]
    "C:\data" "delmarva_lp_code_mapping.csv" pd.empty_frame ["CND"; "CNM"].

Definition with_codes_file : World :=
  mkWorld [] [] [] {[ "C:\data\delmarva_lp_code_mapping.csv" := codes_table ]} ∅.

(** Combined tables: one row per segment and day, every hour at [x]. *)
Definition day_row (i : Z) (segment : string) (d : Date) (x : float) : pd.Row :=
  (pd.Int i, [pd.Str segment; pd.Dt d] ++ repeat (pd.Num x) 24).

(** Three mapped segments on three days, and a segment without entry. *)
Definition combined : pd.DataFrame :=
  pd.mkFrame (["segment"; "date"] ++ hour_labels)
    [day_row 0 "MDRES" (mkDate 2017 1 1) 1.5;
     day_row 1 "MDGSL" (mkDate 2017 1 2) 2.5;
     day_row 2 "MDXXX" (mkDate 2017 1 3) 3.5;
     day_row 3 "MDZZZ" (mkDate 2017 1 1) 4.5].

(** One mapped segment, and a segment without entry. *)
Definition partial : pd.DataFrame :=
  pd.mkFrame (["segment"; "date"] ++ hour_labels)
    [day_row 0 "MDRES" (mkDate 2017 1 1) 1.5;
     day_row 1 "MDZZZ" (mkDate 2017 1 1) 4.5].

(** Worlds that hold one of them, and the output directory [C:\out\]. *)
Definition with_combined : World := mkWorld [combined] [] [] ∅ {[ "C:\out\" ]}.
Definition with_partial : World := mkWorld [partial] [] [] ∅ {[ "C:\out\" ]}.

(** A directory with an [Archive] subdirectory that holds a file named
    like the default export of [combined]: the output directory [C:\out\],
    and the working directory [C:\data] of the drive [C:\]. *)
Definition with_archive_out : World :=
  mkWorld [combined] [] []
    {[ "C:\out\Archive\Conectiv_20170101.txt" := pd.empty_frame ]}
    {[ "C:\out\"; "C:\out\Archive" ]}.

Definition with_archive : World :=
  mkWorld [combined] [] []
    {[ "C:\data\Archive\Conectiv_20170101.txt" := pd.empty_frame ]}
    {[ "C:\"; "C:\data"; "C:\data\Archive" ]}.

(** An output directory [C:\out\] with an empty [Archive] subdirectory. *)
Definition with_out_dir : World :=
  mkWorld [] [] [] ∅ {[ "C:\out\"; "C:\out\Archive" ]}.

(** Platforms: an archive without pages that answers every request with
    the given status, and one that serves the three sample pages. *)
Definition offline (status : Z) : Platform := platform [] status "\" "C:\data".

Definition online : Platform :=
  platform [(url_md "20170101" "2017" "01" 1, page26);
            (url_md "20161106" "2016" "11" 2, page27);
            (url_md "20170102" "2017" "01" 2, page_blank_header)]
    404 "\" "C:\data".

(** A page whose only data line has three tokens, and a page whose second
    data line is wider than the first. *)
Definition page_narrow : string :=
  unlines (header ++ ["20170101MDRES 01/01/2017 1.000"]).

Definition page_ragged : string :=
  unlines (header ++ [row26 "MDRES" "01/01/2017"; row27 "MDGSL" "01/01/2017"]).

(** An archive that serves one page, the revised file of 1 January 2017
    for Maryland. *)
Definition serving (page : string) : Platform :=
  platform [(url_md "20170101" "2017" "01" 2, page)] 404 "\" "C:\data".

End Sample.

(** ** Vocabulary of the properties *)

(** The world after more requests, more console output, more objects. *)
Definition after_requests (w : World) (urls : list string) : World :=
  mkWorld (heap w) (sent w ++ urls) (stdout w) (files w) (dirs w).

Definition after_print (w : World) (ms : list message) : World :=
  mkWorld (heap w) (sent w) (stdout w ++ ms) (files w) (dirs w).

Definition after_new (w : World) (frames : list pd.DataFrame) : World :=
  mkWorld (heap w ++ frames) (sent w) (stdout w) (files w) (dirs w).

Definition after_write (w : World) (p : string) (df : pd.DataFrame) : World :=
  mkWorld (heap w) (sent w) (stdout w) (<[p := df]> (files w)) (dirs w).

(** The lines of a raw text, and those of them that are not empty. *)
Definition raw_lines (data : string) : list string :=
  py.split "010"%char (py.remove_char "013"%char data).

Definition nonempty_lines (data : string) : list string :=
  List.filter (λ l, negb (String.eqb l "")) (raw_lines data).

(** Every day of the range, for every supported LDC, in the order
    [get_lp_data] visits them. *)
Definition combinations (self : Delmarva) (rng : list Date)
  : list (Date * string) :=
  flat_map (λ dt, map (pair dt) (ldcs self)) rng.

(** A valid line of [n] columns: [n] tokens, of which the second reads as
    a date and the third and later ones read as numbers. A valid raw text
    has at least one data line, and only valid ones. *)
Definition valid_line `{Platform} (n : nat) (toks : list string) : Prop :=
  length toks = n
  ∧ (∃ t, toks !! 1%nat = Some t ∧ is_Some (to_datetime (Some "%m/%d/%Y") t))
  ∧ Forall (λ t, is_Some (to_float t)) (drop 2 toks).

Definition valid_input `{Platform} (n : nat) (data : string) : Prop :=
  data_lines data ≠ [] ∧ Forall (valid_line n) (data_lines data).

(** The number read from the [k]-th token of a line (counted from 0: the
    segment is token 0, the date token 1, Hour 1 token 2). *)
Definition hour_token `{Platform} (k : nat) (toks : list string) : option float :=
  toks !! k ≫= to_float.

(** The world after the object at [l] was changed in place. *)
Definition set_frame (w : World) (l : loc) (df : pd.DataFrame) : World :=
  mkWorld (<[l := df]> (heap w)) (sent w) (stdout w) (files w) (dirs w).

(** The conversion loop of [get_lp_series] on the frame itself, and what
    one conversion does to one row. *)
Definition convert (df : pd.DataFrame)
    (cf : string * (list pd.cell → result (list pd.cell))) : result pd.DataFrame :=
  col ← pd.getitem df cf.1; col' ← cf.2 col; pd.setitem df cf.1 col'.

Fixpoint convert_all (df : pd.DataFrame)
    (dtypes : list (string * (list pd.cell → result (list pd.cell))))
  : result pd.DataFrame :=
  match dtypes with
  | [] => Ok df
  | cf :: rest => df' ← convert df cf; convert_all df' rest
  end.

Definition conv_cell_at (j : nat) (g : pd.cell → result pd.cell) (r : pd.Row)
  : result pd.Row :=
  v ← g (pd.cell_at j r); Ok (r.1, <[j := v]> r.2).

Fixpoint row_steps (cols : list string)
    (steps : list (string * (pd.cell → result pd.cell))) (r : pd.Row)
  : result pd.Row :=
  match steps with
  | [] => Ok r
  | cg :: rest =>
      match pd.col_pos cg.1 cols with
      | Some j => r' ← conv_cell_at j cg.2 r; row_steps cols rest r'
      | None => Raise (KeyError cg.1)
      end
  end.

(** What combining the two Hour-2 columns does to one row: the sum goes to
    position [a], the value at position [b] is removed. *)
Definition merge_hour2 (a b : nat) (r : pd.Row) : result pd.Row :=
  v ← pd.add_cell (pd.cell_at a r) (pd.cell_at b r);
  Ok (r.1, delete b (<[a := v]> r.2)).

(** The conversions of [dtypes], value by value. *)
Definition cell_steps `{Platform} (hours : list string)
  : list (string * (pd.cell → result pd.cell)) :=
  map (λ h, (h, float_of_cell)) hours
  ++ [("date", date_of_cell); ("segment", segment_of_cell)].

(** A converted row of a daylight-saving day against its line: 27 values,
    the Hour-2 pair read from tokens 3 and 4; and the row after the pair
    was combined. *)
Definition hour2_pair `{Platform} (toks : list string) (r : pd.Row) : Prop :=
  length r.2 = 27%nat
  ∧ ∃ x y, hour_token 3 toks = Some x ∧ hour_token 4 toks = Some y
           ∧ pd.cell_at 3 r = pd.Num x ∧ pd.cell_at 4 r = pd.Num y.

Definition hour2_total `{Platform} (toks : list string) (c : pd.cell) : Prop :=
  ∃ x y, hour_token 3 toks = Some x ∧ hour_token 4 toks = Some y
         ∧ c = pd.Num (x + y)%float.

(** *** The exporter, in parts

    [export_plan] is what [export_for_oracle] reads off its table before the
    archive check: the first and last date and the file name. [archived] is
    the check itself. [export_trace] lists the frames the reshaping
    creates, one per method call, with the table that is written at the
    end (or the error at which the chain stops); [export_table] is that
    table. *)
Definition export_plan (df : pd.DataFrame) (file_name : option string)
  : result (pd.cell * pd.cell * string) :=
  dates ← pd.getattr df "date";
  from_date ← pd.min dates;
  to_date ← pd.max dates;
  file_name ← file_name_or_default file_name from_date;
  Ok (from_date, to_date, file_name).

Definition archived (w : World) (path file_name : string) : bool :=
  bool_decide ((path ++ "Archive")%string ∈ dirs w)
  && (bool_decide ((path ++ "Archive\" ++ file_name)%string ∈ dirs w)
      || bool_decide (is_Some (files w !! (path ++ "Archive\" ++ file_name)%string))).

Definition trace : Type := list pd.DataFrame * result pd.DataFrame.

Definition then_call (op : pd.DataFrame → result pd.DataFrame) (t : trace)
  : trace :=
  match t with
  | (made, Ok df) => match op df with
                     | Ok df' => (made ++ [df'], Ok df')
                     | Raise e => (made, Raise e)
                     end
  | (made, Raise e) => (made, Raise e)
  end.

Definition then_join (codes : pd.DataFrame) (t : trace) : trace :=
  match t with
  | (made, Ok df) => match pd.getattr codes "C_LOAD_PROFILE" with
                     | Ok mapping => then_call (λ d, pd.join_right d mapping) t
                     | Raise e => (made, Raise e)
                     end
  | (made, Raise e) => (made, Raise e)
  end.

Definition export_trace (codes df : pd.DataFrame) : trace :=
  then_call pd.sort_index
    (then_call (pd.sort_values "date")
       (then_call (pd.assign "EMPTY" pd.Null)
          (then_call (pd.set_index "C_LOAD_PROFILE")
             (then_call (λ d, Ok (pd.reset_index_drop d))
                (then_join codes
                   (then_call (pd.set_index "segment") ([], Ok df))))))).

Definition export_table (codes df : pd.DataFrame) : result pd.DataFrame :=
  (export_trace codes df).2.

(** The end of [export_for_oracle]: the table goes to the file, the covered
    dates to the console. *)
Definition write_and_report `{Platform} (w : World) (file_path : string)
    (table : pd.DataFrame) (from_date to_date : pd.cell) : result unit * World :=
  match open_error w file_path with
  | Some e => (Raise e, w)
  | None =>
      match from_date, to_date with
      | pd.Dt a, pd.Dt b =>
          (Ok tt, after_print (after_write w file_path table)
                    [Downloaded a b file_path])
      | _, _ => (Raise (ValueError BadFormatArgument),
                 after_write w file_path table)
      end
  end.

(** *** Written lines

    A written line starts with the mapped code (the index of the table),
    followed by the date and the hourly values. *)
Definition code_of (line : list pd.cell) : pd.cell := default pd.Null (head line).
Definition date_of (line : list pd.cell) : pd.cell :=
  default pd.Null (line !! 1%nat).

Definition sorted_by_code (lines : list (list pd.cell)) : Prop :=
  StronglySorted (λ a b, pd.cell_leb (code_of a) (code_of b) = true) lines.

(** Date first, the code among equal dates. *)
Definition date_then_code_leb (a b : list pd.cell) : bool :=
  if pd.cell_leb (date_of a) (date_of b)
  then if pd.cell_leb (date_of b) (date_of a)
       then pd.cell_leb (code_of a) (code_of b)
       else true
  else false.

Definition sorted_by_date_then_code (lines : list (list pd.cell)) : Prop :=
  StronglySorted (λ a b, date_then_code_leb a b = true) lines.

Definition is_conflict (e : exn) : bool :=
  match e with FileExistsError _ => true | _ => false end.

(** The lines of one mapping entry (source identifier [kv.1], mapped code
    [kv.2]) for a table whose segment column is at position [j]: one line
    per row of that segment, carrying the row's other values; or, when no
    row has that segment, one line of missing values. Every line ends with
    the empty placeholder column. *)
Definition mapped_line (j : nat) (c : pd.cell) (r : pd.Row) : list pd.cell :=
  c :: delete j r.2 ++ [pd.Null].

Definition null_line (n : nat) (c : pd.cell) : list pd.cell :=
  c :: repeat pd.Null n ++ [pd.Null].

Definition entry_rows (j : nat) (df : pd.DataFrame) (kv : pd.cell * pd.cell)
  : list pd.Row :=
  match List.filter (λ r, pd.key_eqb (pd.cell_at j r) kv.1) (pd.rows df) with
  | [] => [(kv.2, repeat pd.Null (length (pd.columns df) - 1) ++ [pd.Null])]
  | matches => map (λ r : pd.Row, (kv.2, delete j r.2 ++ [pd.Null])) matches
  end.

(** A table is rectangular when every row has one value per column. *)
Definition rectangular (df : pd.DataFrame) : Prop :=
  Forall (λ r : pd.Row, length r.2 = length (pd.columns df)) (pd.rows df).

(** A written line belongs to a mapping entry when it is the line of a row
    with the entry's segment, or the line of missing values of an entry
    that no row matches. *)
Definition line_of_entry (j : nat) (df : pd.DataFrame) (kv : pd.cell * pd.cell)
    (line : list pd.cell) : Prop :=
  (∃ r, r ∈ pd.rows df ∧ pd.key_eqb (pd.cell_at j r) kv.1 = true
        ∧ line = mapped_line j kv.2 r)
  ∨ ((∀ r, r ∈ pd.rows df → pd.key_eqb (pd.cell_at j r) kv.1 = false)
     ∧ line = null_line (length (pd.columns df) - 1) kv.2).

(** The table without the rows whose segment (at position [j]) has no
    entry in the mapping. *)
Definition has_entry (j : nat) (mapping : pd.Series) (r : pd.Row) : bool :=
  existsb (λ kv : pd.cell * pd.cell, pd.key_eqb (pd.cell_at j r) kv.1)
    (pd.items mapping).

Definition without_unmapped (j : nat) (mapping : pd.Series) (df : pd.DataFrame)
  : pd.DataFrame :=
  pd.mkFrame (pd.columns df) (List.filter (has_entry j mapping) (pd.rows df)).

(** *** The Archive subdirectory

    [os.path.join(a, b)] puts the separator between a directory and a name
    unless the directory already ends with it; the Archive subdirectory
    beneath a path is the join of the path and [Archive]. [in_archive] says
    that this subdirectory exists and holds a file of the given name. *)
Fixpoint ends_with (suffix s : string) : bool :=
  String.eqb s suffix
  || match s with
     | EmptyString => false
     | String _ s' => ends_with suffix s'
     end.

Definition os_path_join `{Platform} (a b : string) : string :=
  if ends_with os_sep a then (a ++ b)%string else (a ++ os_sep ++ b)%string.

Definition in_archive `{Platform} (w : World) (path file_name : string) : bool :=
  bool_decide (os_path_join path "Archive" ∈ dirs w)
  && bool_decide (is_Some (files w !! os_path_join (os_path_join path "Archive")
                                        file_name)).

(** *** The series parser, in parts

    [series_hours] is the list of hour labels for a first data line of
    [n_cols] tokens; [dtypes_of] the conversions of [dtypes], in the order
    of the dictionary. [convert_loop] is the conversion loop on the frame:
    the state the frame is left in, and the error that stopped the loop, if
    any. [combine_hour2] does the same for the combination of the two
    Hour-2 columns. [read_series] puts them together: the error raised
    before a frame exists, or the frame with the outcome of the steps that
    change it in place. *)
Definition series_hours (n_cols : nat) : option (list string) :=
  if (n_cols =? 27)%nat then Some (list_insert_at 2 "H02X" hour_labels)
  else if (n_cols =? 26)%nat then Some hour_labels
  else None.

Definition dtypes_of `{Platform} (hours : list string)
  : list (string * (list pd.cell → result (list pd.cell))) :=
  map (λ h, (h, astype_float)) hours
  ++ [("date", to_datetime_mdY); ("segment", strip_slice8)].

Fixpoint convert_loop (df : pd.DataFrame)
    (dtypes : list (string * (list pd.cell → result (list pd.cell))))
  : pd.DataFrame * result unit :=
  match dtypes with
  | [] => (df, Ok tt)
  | cf :: rest => match convert df cf with
                  | Ok df' => convert_loop df' rest
                  | Raise e => (df, Raise e)
                  end
  end.

Definition combine_hour2 (df : pd.DataFrame) : pd.DataFrame * result unit :=
  match (h02 ← pd.getitem df "H02";
         h02x ← pd.getitem df "H02X";
         total ← pd.add_columns h02 h02x;
         pd.setitem df "H02" total) with
  | Ok df1 => match pd.delitem df1 "H02X" with
              | Ok df2 => (df2, Ok tt)
              | Raise e => (df1, Raise e)
              end
  | Raise e => (df, Raise e)
  end.

Definition read_series `{Platform} (agg_dst_hr2 : bool)
    (parsed : list (list string)) : result (pd.DataFrame * result unit) :=
  match parsed with
  | [] => Raise (ValueError NoValidData)
  | first :: _ =>
      hours ← match series_hours (length first) with
              | Some hours => Ok hours
              | None => Raise (ValueError InvalidDataStructure)
              end;
      df ← pd.frame parsed (["segment"; "date"] ++ hours);
      Ok (match convert_loop df (dtypes_of hours) with
          | (df1, Ok _) =>
              if (length first =? 27)%nat && agg_dst_hr2 then combine_hour2 df1
              else (df1, Ok tt)
          | stopped => stopped
          end)
  end.

(** The world after the warning about a single data line. *)
Definition warned (w : World) (dt : Date) (parsed : list (list string)) : World :=
  match parsed with
  | [_] => after_print w [PartialData dt]
  | _ => w
  end.

(** What [get_lp_series] does with the outcome of the fetcher. *)
Definition series_outcome `{Platform} (ldc : string) (dt : Date) (agg_dst_hr2 : bool)
    (fetched : result (option string) * World) : result (option loc) * World :=
  match fetched with
  | (Raise e, w1) =>
      if is_HTTPError e then (Ok None, after_print w1 [NoDataAvailable ldc dt])
      else (Raise e, w1)
  | (Ok None, w1) => (Raise (AttributeError "replace"), w1)
  | (Ok (Some data), w1) =>
      let w2 := warned w1 dt (data_lines data) in
      match read_series agg_dst_hr2 (data_lines data) with
      | Raise e => (Raise e, w2)
      | Ok (df, Raise e) => (Raise e, after_new w2 [df])
      | Ok (df, Ok _) => (Ok (Some (length (heap w1))), after_new w2 [df])
      end
  end.

(** Two frames of the same shape: the same columns, and row by row the same
    index label and the same number of values. *)
Definition same_shape (df df' : pd.DataFrame) : Prop :=
  pd.columns df' = pd.columns df
  ∧ Forall2 (λ r r' : pd.Row, r'.1 = r.1 ∧ length r'.2 = length r.2)
      (pd.rows df) (pd.rows df').

(** The columns of a series table on a standard day. *)
Definition series_columns : list string := ["segment"; "date"] ++ hour_labels.

(** The values of the row read from one line: the segment without its
    first eight characters, the date, and the numbers of the hours, token
    by token. *)
Definition line_values `{Platform} (toks : list string) : option (list pd.cell) :=
  segment ← toks !! 0%nat;
  date ← toks !! 1%nat ≫= to_datetime (Some "%m/%d/%Y");
  hours ← mapM to_float (drop 2 toks);
  Some (pd.Str (py.slice_from 8 (py.strip segment)) :: pd.Dt date
        :: map pd.Num hours).

(** The tables of the outcomes of [get_lp_series] that are not [None], as
    they are in the store [h]. *)
Definition available (h : list pd.DataFrame) (series : list (option loc))
  : list pd.DataFrame :=
  omap (λ o : option loc, o ≫= (h !!.)) series.

(** A series table: the columns of a standard day, one value per column. *)
Definition series_table (df : pd.DataFrame) : Prop :=
  pd.columns df = series_columns ∧ rectangular df.

(** The path of the code mapping file for a given [codes_path] argument. *)
Definition codes_file_path `{Platform} (codes_path : option string) : string :=
  (py.or_else codes_path getcwd ++ os_sep ++ "delmarva_lp_code_mapping.csv")%string.

(** The position of a column once the column at position [i] is removed. *)
Definition pos_without (i k : nat) : nat := if (k <? i)%nat then k else pred k.

(** Values that compare with each other: those that are not missing are of
    one kind. *)
Definition same_kind (vals : list pd.cell) : Prop :=
  ∀ a b, a ∈ vals → b ∈ vals → pd.isna a = false → pd.isna b = false →
         pd.kind a = pd.kind b.

(** A column of dates: every row has a date at position [j]. *)
Definition dated (j : nat) (df : pd.DataFrame) : Prop :=
  Forall (λ r, ∃ d, pd.cell_at j r = pd.Dt d) (pd.rows df).

(** A text without blank characters. *)
Definition no_blank (s : string) : Prop :=
  Forall (λ c, py.isspace c = false) (list_ascii_of_string s).

(** A readable line: its second token, if it has one, reads as a date or
    is a spelling of a missing date, and its third and later tokens read as
    numbers. *)
Definition readable `{Platform} (toks : list string) : Prop :=
  (∀ tok, toks !! 1%nat = Some tok →
          is_Some (to_datetime (Some "%m/%d/%Y") tok) ∨ tok ∈ nat_strings)
  ∧ Forall (λ tok, is_Some (to_float tok)) (drop 2 toks).

(** ** Proof tactics *)

(** [tokens n toks H] names the [n] tokens of a line of known length;
    [numbers H] names the numbers read from its tokens; [read_all] rewrites
    with them. *)
Tactic Notation "tokens" integer(n) ident(toks) hyp(Hlen) :=
  do n (destruct toks as [|? toks]; [discriminate Hlen|]);
  destruct toks; [|discriminate Hlen].

Ltac numbers Hfl :=
  repeat match type of Hfl with
         | Forall _ (_ :: _) =>
             let Hx := fresh "Hx" in
             apply Forall_cons_1 in Hfl as [[? Hx] Hfl]
         end.

Ltac read_all :=
  repeat match goal with
         | Hx : to_float _ = Some _ |- _ => progress (rewrite Hx); cbn
         end.

(** [peel lemma] takes the next method call off a chain of calls, against
    the trace on the right-hand side. *)
Ltac peel lemma :=
  lazymatch goal with
  | |- _ = ?rhs =>
      lazymatch rhs with
      | context C [then_join ?c (?made, Ok ?d)] =>
          let final := constr:(λ t : trace,
                                 ltac:(let r := context C [t] in exact r)) in
          apply (lemma c _ made _ d _ final)
      | context C [then_call ?op (?made, Ok ?d)] =>
          let final := constr:(λ t : trace,
                                 ltac:(let r := context C [t] in exact r)) in
          apply (lemma op _ made _ d _ final)
      end
  end;
  cbv beta.

(** [raised] goes through the cases of a method and reads off the error
    it raises. *)
Ltac raised :=
  repeat match goal with
         | |- context [match ?x with _ => _ end] => destruct x
         end;
  intros [= <-]; reflexivity.

(** * Properties *)

(** ** Running programs of [M] *)

Lemma bind_run {A B} (m : M A) (k : A → M B) (w : World) :
  (m ≫= k) w = match m w with
               | (Ok a, w') => k a w'
               | (Raise e, w') => (Raise e, w')
               end.
Proof. reflexivity. Qed.

Lemma bind_ok {A B} (m : M A) (k : A → M B) (w w' : World) (a : A) :
  m w = (Ok a, w') → (m ≫= k) w = k a w'.
Proof. intros E. rewrite bind_run, E. reflexivity. Qed.

Lemma bind_raise {A B} (m : M A) (k : A → M B) (w w' : World) (e : exn) :
  m w = (Raise e, w') → (m ≫= k) w = (Raise e, w').
Proof. intros E. rewrite bind_run, E. reflexivity. Qed.

Lemma lift_run {A} (r : result A) (w : World) : lift r w = (r, w).
Proof. reflexivity. Qed.

Section Fetcher.
Context `{Platform}.

Lemma init_ldcs (codes_path dest_path : option string) (w w' : World)
    (self : Delmarva) :
  __init__ codes_path dest_path w = (Ok self, w') → ldcs self = ["CND"; "CNM"].
Proof.
  unfold __init__. rewrite bind_run. cbn.
  destruct (bool_decide _ || bool_decide _).
  - rewrite bind_run. unfold read_csv.
    destruct (files w !! _) as [table|]; [|discriminate].
    destruct (pd.col_pos _ (pd.columns table)); [|discriminate].
    destruct (pd.set_index _ table); [|discriminate].
    cbn. intros [= <- _]. reflexivity.
  - cbn. intros [= <- _]. reflexivity.
Qed.

(** C7. For every date and every LDC other than the two supported ones
    ([CND] and [CNM]; [CNV] has a state but is not supported), the fetcher
    of a constructed object fails with the assertion error and leaves the
    world as it was: in particular the list of GET requests sent is the
    same, so no request was made. *)
Theorem retrieve_rejects_unsupported_ldc
    (codes_path dest_path : option string) (w0 w1 : World) (self : Delmarva)
    (dt : Date) (ldc : string) (w : World) :
  __init__ codes_path dest_path w0 = (Ok self, w1) →
  ldc ≠ "CNM" → ldc ≠ "CND" →
  _retrieve_raw_data self dt ldc w = (Raise AssertionError, w)
  ∧ sent (_retrieve_raw_data self dt ldc w).2 = sent w.
Proof.
  intros Hinit Hm Hd. apply init_ldcs in Hinit.
  assert (E : _retrieve_raw_data self dt ldc w = (Raise AssertionError, w)).
  { unfold _retrieve_raw_data. rewrite Hinit.
    rewrite bool_decide_eq_false_2; [reflexivity|].
    rewrite !elem_of_cons, elem_of_nil. intros [->|[->|[]]]; congruence. }
  rewrite E. split; reflexivity.
Qed.

End Fetcher.

Section Series.
Context `{Platform}.

(** The two rounds of the loop of the fetcher. *)
Lemma retrieve_loop_run (self : Delmarva) (dt : Date) (ldc state : string)
    (w : World) :
  dict_get (ldc_state self) ldc = Ok state →
  let u2 := request_url state dt 2 in
  let u1 := request_url state dt 1 in
  let r2 := server (sent w) u2 in
  let r1 := server (sent w ++ [u2]) u1 in
  retrieve_loop self dt ldc [2; 1] None w =
    if status_code r2 =? 200 then (Ok (Some (text r2)), after_requests w [u2])
    else if status_code r1 =? 200
         then (Ok (Some (text r1)), after_requests w [u2; u1])
         else if (400 <=? status_code r1) && (status_code r1 <? 600)
              then (Raise (HTTPError (status_code r1)), after_requests w [u2; u1])
              else (Ok None, after_requests w [u2; u1]).
Proof.
  intros Hst. cbn zeta. cbn [retrieve_loop].
  rewrite bind_run, lift_run, Hst, bind_run. cbn [requests_get].
  destruct (status_code (server (sent w) _) =? 200) eqn:E2; [reflexivity|].
  rewrite bind_run, lift_run, bind_run. cbn [requests_get sent].
  unfold after_requests. rewrite <- !app_assoc. cbn [app].
  destruct (status_code (server (sent w ++ _) _) =? 200) eqn:E1; [reflexivity|].
  rewrite bind_run. unfold raise_for_status.
  destruct ((400 <=? _) && (_ <? 600)); reflexivity.
Qed.

(** X1. The fetcher on a supported LDC: two requests at most, the revised
    file first; the body of the first answer with status 200 is returned;
    without one, the last status is raised when it is an error status, and
    [None] is returned otherwise. *)
Lemma retrieve_run (self : Delmarva) (dt : Date) (ldc state : string)
    (w : World) :
  ldc ∈ ldcs self → dict_get (ldc_state self) ldc = Ok state →
  let u2 := request_url state dt 2 in
  let u1 := request_url state dt 1 in
  let r2 := server (sent w) u2 in
  let r1 := server (sent w ++ [u2]) u1 in
  _retrieve_raw_data self dt ldc w =
    if status_code r2 =? 200 then (Ok (Some (text r2)), after_requests w [u2])
    else if status_code r1 =? 200
         then (Ok (Some (text r1)), after_requests w [u2; u1])
         else if (400 <=? status_code r1) && (status_code r1 <? 600)
              then (Raise (HTTPError (status_code r1)), after_requests w [u2; u1])
              else (Ok None, after_requests w [u2; u1]).
Proof.
  intros Hin Hst. cbn zeta. unfold _retrieve_raw_data.
  rewrite bool_decide_eq_true_2 by done. cbn [negb].
  exact (retrieve_loop_run self dt ldc state w Hst).
Qed.

(** X3. When the fetcher raises an HTTP error, the parser prints the
    warning and returns [None]. *)
Lemma get_lp_series_skips (self : Delmarva) (dt : Date) (ldc : string)
    (agg : bool) (w w' : World) (status : Z) :
  _retrieve_raw_data self dt ldc w = (Raise (HTTPError status), w') →
  get_lp_series self dt ldc agg w
  = (Ok None, after_print w' [NoDataAvailable ldc dt]).
Proof.
  intros E. unfold get_lp_series, try_except. rewrite E. reflexivity.
Qed.

Lemma filter_nil {A} (f : A → bool) (l : list A) :
  (∀ x, x ∈ l → f x = false) → List.filter f l = [].
Proof.
  induction l as [|a l IH]; intros Hall; [reflexivity|].
  cbn. rewrite (Hall a) by left. apply IH. intros x Hx. apply Hall. by right.
Qed.

Lemma data_lines_nil (data : string) :
  Forall (λ line, (String.length line ≤ 1)%nat) (drop 4 (raw_lines data)) →
  data_lines data = [].
Proof.
  intros Hshort. unfold data_lines. fold (raw_lines data).
  rewrite filter_nil; [reflexivity|].
  intros [i line] Hin. unfold enumerate in Hin.
  apply elem_of_lookup_imap in Hin as (i' & line' & [= -> ->] & Hl).
  cbn. destruct (3 <? Z.of_nat i') eqn:Hi; [|by rewrite andb_false_r].
  apply Z.ltb_lt in Hi. rewrite andb_true_r. apply Z.ltb_ge.
  rewrite Forall_lookup in Hshort.
  specialize (Hshort (i' - 4)%nat line').
  rewrite lookup_drop in Hshort.
  replace (4 + (i' - 4))%nat with i' in Hshort by lia.
  specialize (Hshort Hl). unfold py.len. lia.
Qed.

(** C6, as amended. A fetched text in which no line after the first four
    (blank lines counted) is longer than one character has no data line,
    and the parser fails with [ValueError] "Did not receive any valid
    data"; this covers every text of fewer than five lines. *)
Theorem no_data_line_is_value_error (self : Delmarva) (dt : Date)
    (ldc : string) (agg : bool) (w w1 : World) (data : string) :
  _retrieve_raw_data self dt ldc w = (Ok (Some data), w1) →
  Forall (λ line, (String.length line ≤ 1)%nat) (drop 4 (raw_lines data)) →
  get_lp_series self dt ldc agg w = (Raise (ValueError NoValidData), w1).
Proof.
  intros Hfetch Hshort. unfold get_lp_series, try_except. rewrite Hfetch.
  rewrite bind_run. cbn [mret M_ret]. rewrite (data_lines_nil _ Hshort).
  reflexivity.
Qed.

End Series.

Section Aggregator.
Context `{Platform}.

Lemma map_M_all_none {A} (f : A → M (option loc)) (l : list A) (w : World) :
  (∀ a w, a ∈ l → ∃ w', f a w = (Ok None, w')) →
  ∃ w', map_M f l w = (Ok (repeat None (length l)), w').
Proof.
  revert w. induction l as [|a l IH]; intros w Hall; [by eexists|].
  destruct (Hall a w) as [w1 E1]; [by left|].
  destruct (IH w1) as [w2 E2]; [intros; apply Hall; by right|].
  exists w2. cbn [map_M]. rewrite (bind_ok _ _ _ _ _ E1), (bind_ok _ _ _ _ _ E2).
  reflexivity.
Qed.

Lemma load_all_none (n : nat) (w : World) :
  map_M (λ o : option loc, match o with
                           | Some l => df ← load l; mret (Some df)
                           | None => mret None
                           end) (repeat None n) w
  = (Ok (repeat None n), w).
Proof.
  induction n as [|n IH]; [reflexivity|].
  cbn [repeat map_M]. rewrite bind_run. cbn [mret M_ret].
  rewrite bind_run, IH. reflexivity.
Qed.

Lemma concat_all_none (n : nat) :
  pd.concat (repeat None n)
  = Raise (ValueError (match n with
                       | O => NoObjectsToConcatenate
                       | S _ => AllObjectsNone
                       end)).
Proof.
  destruct n as [|n]; [reflexivity|]. unfold pd.concat. cbn [repeat].
  replace (omap id (None :: repeat (@None pd.DataFrame) n)) with (@nil pd.DataFrame);
    [reflexivity|].
  cbn. induction n as [|n IH]; [reflexivity|]. exact IH.
Qed.

(** The skipped days reach [pd.concat] as [None]s, and [get_lp_data] has no
    case for a range in which every (date, LDC) combination is skipped:
    there the concatenation raises [ValueError] ("All objects passed were
    None", or "No objects to concatenate" for a range without days). *)
Theorem get_lp_data_all_missing (self : Delmarva) (from_dt to_dt : date_like)
    (a b : Date) (w : World) :
  as_date from_dt = Ok a → as_date to_dt = Ok b →
  (∀ p w, p ∈ combinations self (date_range a b) →
          ∃ w', get_lp_series self p.1 p.2 true w = (Ok None, w')) →
  ∃ w', get_lp_data self from_dt to_dt w
        = (Raise (ValueError (match combinations self (date_range a b) with
                              | [] => NoObjectsToConcatenate
                              | _ => AllObjectsNone
                              end)), w').
Proof.
  intros Ha Hb Hnone. unfold get_lp_data.
  destruct (map_M_all_none
              (λ p : Date * string, get_lp_series self p.1 p.2 true)
              (combinations self (date_range a b)) w Hnone) as [w' Hrun].
  exists w'.
  assert (Hrange : ∀ k : list Date → M loc,
    (range ← lift (match from_dt with
                   | AText _ => from_date ← as_date from_dt;
                                to_date ← as_date to_dt;
                                Ok (ADate from_date, ADate to_date)
                   | ADate _ => Ok (from_dt, to_dt)
                   end);
     rng ← lift (a ← as_date range.1; b ← as_date range.2; Ok (date_range a b));
     k rng) w = k (date_range a b) w).
  { intros k. rewrite bind_run, lift_run.
    destruct from_dt as [d|s].
    - injection Ha as ->. rewrite bind_run, lift_run. cbn [fst snd as_date].
      rewrite Hb. reflexivity.
    - rewrite Ha, Hb. cbn [mbind result_bind].
      rewrite bind_run, lift_run. reflexivity. }
  rewrite Hrange. fold (combinations self (date_range a b)).
  rewrite (bind_ok _ _ _ _ _ Hrun).
  rewrite (bind_ok _ _ _ _ _ (load_all_none _ _)).
  unfold new_frame. rewrite bind_run, lift_run, concat_all_none.
  destruct (combinations self (date_range a b)); reflexivity.
Qed.

End Aggregator.

(** ** The series parser *)

Lemma rbind_ok {A B} (a : A) (k : A → result B) : (Ok a ≫= k) = k a.
Proof. reflexivity. Qed.

Lemma rbind_raise {A B} (e : exn) (k : A → result B) : (Raise e ≫= k) = Raise e.
Proof. reflexivity. Qed.

Lemma map_result_cons {A B} (f : A → result B) (a : A) (l : list A) :
  map_result f (a :: l) = (b ← f a; bs ← map_result f l; Ok (b :: bs)).
Proof. reflexivity. Qed.

Lemma map_result_length {A B} (f : A → result B) (l : list A) (l' : list B) :
  map_result f l = Ok l' → length l' = length l.
Proof.
  revert l'. induction l as [|a l IH]; intros l'; cbn.
  - intros [= <-]. reflexivity.
  - destruct (f a); [|discriminate]. cbn.
    destruct (map_result f l); [|discriminate]. cbn.
    intros [= <-]. cbn. f_equal. by apply IH.
Qed.

Lemma map_result_id {A} (l : list A) : map_result Ok l = Ok l.
Proof. induction l as [|a l IH]; cbn; [done|]. by rewrite IH. Qed.

Lemma map_result_compose {A B C} (f : A → result B) (g : B → result C)
    (l : list A) (l'' : list C) :
  map_result (λ a, b ← f a; g b) l = Ok l'' →
  ∃ l', map_result f l = Ok l' ∧ map_result g l' = Ok l''.
Proof.
  revert l''. induction l as [|a l IH]; intros l''; cbn.
  - intros [= <-]. by exists [].
  - destruct (f a) as [b|]; [|discriminate]. cbn.
    destruct (g b) as [c|] eqn:Eg; [|discriminate]. cbn.
    destruct (map_result (λ a, b ← f a; g b) l) as [cs|] eqn:E; [|discriminate].
    cbn. intros [= <-]. destruct (IH cs eq_refl) as (bs & -> & Hg).
    exists (b :: bs). cbn. rewrite Eg, Hg. done.
Qed.

Lemma map_result_Forall2 {A B} (f : A → result B) (P : A → B → Prop)
    (l : list A) :
  Forall (λ a, ∃ b, f a = Ok b ∧ P a b) l →
  ∃ l', map_result f l = Ok l' ∧ Forall2 P l l'.
Proof.
  induction 1 as [|a l (b & Hb & HP) _ (l' & Hl & HF)].
  - by exists [].
  - exists (b :: l'). cbn. rewrite Hb, Hl. split; [done|by constructor].
Qed.

Lemma imap_Forall2 {A B} (P : A → B → Prop) (f : nat → A → B) (l : list A) :
  (∀ i a, a ∈ l → P a (f i a)) → Forall2 P l (imap f l).
Proof.
  revert f. induction l as [|a l IH]; intros f Hf; cbn; constructor.
  - apply Hf. by left.
  - apply IH. intros i b Hb. apply Hf. by right.
Qed.

Lemma set_frame_same (w : World) (l : loc) (df : pd.DataFrame) :
  heap w !! l = Some df → set_frame w l df = w.
Proof.
  intros Hl. destruct w as [hp se so fi di]. unfold set_frame. cbn in *.
  by rewrite list_insert_id.
Qed.

Lemma set_frame_twice (w : World) (l : loc) (d1 d2 : pd.DataFrame) :
  set_frame (set_frame w l d1) l d2 = set_frame w l d2.
Proof. unfold set_frame. cbn. by rewrite list_insert_insert_eq. Qed.

Lemma set_frame_lookup (w : World) (l : loc) (d0 df : pd.DataFrame) :
  heap w !! l = Some d0 → heap (set_frame w l df) !! l = Some df.
Proof.
  intros Hl. cbn. apply list_lookup_insert_eq. by eapply lookup_lt_Some.
Qed.

Lemma df_getitem_run (l : loc) (c : string) (w : World) (df : pd.DataFrame) :
  heap w !! l = Some df → df_getitem l c w = (pd.getitem df c, w).
Proof. intros Hl. unfold df_getitem, load. rewrite bind_run, Hl. done. Qed.

Lemma df_setitem_run (l : loc) (c : string) (vals : list pd.cell) (w : World)
    (df df' : pd.DataFrame) :
  heap w !! l = Some df → pd.setitem df c vals = Ok df' →
  df_setitem l c vals w = (Ok tt, set_frame w l df').
Proof.
  intros Hl Hs. unfold df_setitem, load. rewrite bind_run, Hl.
  rewrite bind_run, lift_run, Hs. done.
Qed.

Lemma df_delitem_run (l : loc) (c : string) (w : World) (df df' : pd.DataFrame) :
  heap w !! l = Some df → pd.delitem df c = Ok df' →
  df_delitem l c w = (Ok tt, set_frame w l df').
Proof.
  intros Hl Hs. unfold df_delitem, load. rewrite bind_run, Hl.
  rewrite bind_run, lift_run, Hs. done.
Qed.

(** The conversion loop on the object at [l] is the loop on its frame. *)
Lemma for_each_convert (l : loc)
    (dtypes : list (string * (list pd.cell → result (list pd.cell))))
    (df df' : pd.DataFrame) (w : World) :
  heap w !! l = Some df → convert_all df dtypes = Ok df' →
  for_each dtypes (λ cf, col ← df_getitem l cf.1;
                         col' ← lift (cf.2 col);
                         df_setitem l cf.1 col') w
  = (Ok tt, set_frame w l df').
Proof.
  revert df w. induction dtypes as [|cf rest IH]; intros df w Hl; cbn.
  - intros [= <-]. by rewrite set_frame_same.
  - unfold convert at 1.
    destruct (pd.getitem df cf.1) as [col|] eqn:Eg; [|discriminate]. cbn.
    destruct (cf.2 col) as [col'|] eqn:Ef; [|discriminate]. cbn.
    destruct (pd.setitem df cf.1 col') as [d1|] eqn:Es; [|discriminate]. cbn.
    intros Hall. rewrite bind_run, bind_run, (df_getitem_run _ _ _ _ Hl), Eg.
    rewrite bind_run, lift_run, Ef, (df_setitem_run _ _ _ _ _ _ Hl Es).
    rewrite (IH d1 _ (set_frame_lookup _ _ _ _ Hl) Hall).
    by rewrite set_frame_twice.
Qed.

(** Converting a column value by value changes every row at the column's
    position. *)
Lemma convert_by_row (cols : list string) (rows : list pd.Row) (c : string)
    (j : nat) (g : pd.cell → result pd.cell) (rows' : list pd.Row) :
  pd.col_pos c cols = Some j →
  map_result (conv_cell_at j g) rows = Ok rows' →
  convert (pd.mkFrame cols rows) (c, map_result g) = Ok (pd.mkFrame cols rows').
Proof.
  intros Hj Hrows. unfold convert, pd.getitem. cbn. rewrite Hj. cbn.
  assert (∃ vals, map_result g (map (pd.cell_at j) rows) = Ok vals
                  ∧ rows' = zip_with (λ (r : pd.Row) v, (r.1, <[j := v]> r.2))
                              rows vals) as (vals & Hv & ->).
  { clear Hj. revert rows' Hrows.
    induction rows as [|r rows IH]; intros rows'.
    - intros [= <-]. by exists [].
    - rewrite map_result_cons.
      destruct (g (pd.cell_at j r)) as [v|] eqn:Eg.
      2: { replace (conv_cell_at j g r) with (@Raise pd.Row e)
             by (unfold conv_cell_at; by rewrite Eg).
           discriminate. }
      replace (conv_cell_at j g r) with (Ok (r.1, <[j := v]> r.2))
        by (unfold conv_cell_at; by rewrite Eg).
      rewrite rbind_ok.
      destruct (map_result (conv_cell_at j g) rows) as [rs|];
        rewrite ?rbind_ok, ?rbind_raise; [|discriminate].
      intros [= <-]. destruct (IH rs eq_refl) as (vals & Hvals & ->).
      exists (v :: vals). cbn [map]. rewrite map_result_cons, Eg, Hvals. done. }
  rewrite Hv. cbn. unfold pd.setitem. cbn.
  rewrite (map_result_length _ _ _ Hv), length_map, Nat.eqb_refl. cbn.
  by rewrite Hj.
Qed.

Lemma convert_all_by_row (cols : list string)
    (steps : list (string * (pd.cell → result pd.cell)))
    (rows rows' : list pd.Row) :
  Forall (λ cg, is_Some (pd.col_pos cg.1 cols)) steps →
  map_result (row_steps cols steps) rows = Ok rows' →
  convert_all (pd.mkFrame cols rows)
    (map (λ cg : string * (pd.cell → result pd.cell), (cg.1, map_result cg.2)) steps)
  = Ok (pd.mkFrame cols rows').
Proof.
  intros Hcols. revert rows.
  induction Hcols as [|[c g] rest [j Hj] _ IH]; intros rows; cbn.
  - rewrite map_result_id. by intros [= <-].
  - cbn in Hj. rewrite Hj.
    intros Hrows. apply map_result_compose in Hrows as (rows1 & H1 & H2).
    rewrite (convert_by_row _ _ _ _ _ _ Hj H1). cbn. by apply IH.
Qed.

Lemma hour_labels_eq :
  hour_labels = ["H01"; "H02"; "H03"; "H04"; "H05"; "H06"; "H07"; "H08";
                 "H09"; "H10"; "H11"; "H12"; "H13"; "H14"; "H15"; "H16";
                 "H17"; "H18"; "H19"; "H20"; "H21"; "H22"; "H23"; "H24"].
Proof. vm_compute. reflexivity. Qed.

Lemma width_uniform (n : nat) (data : list (list string)) :
  data ≠ [] → Forall (λ toks, length toks = n) data →
  foldr (λ r m, Nat.max (length r) m) O data = n.
Proof.
  intros Hne Hall. induction Hall as [|toks data Hlen Hall IH]; [done|].
  cbn. rewrite Hlen. destruct data as [|toks' data]; cbn; [lia|].
  cbn in IH. rewrite IH by done. lia.
Qed.

Lemma frame_of_lines (n : nat) (data : list (list string)) (cols : list string) :
  data ≠ [] → Forall (λ toks, length toks = n) data → length cols = n →
  pd.frame data cols
  = Ok (pd.mkFrame cols
          (imap (λ i toks, (pd.Int (Z.of_nat i), pd.pad n (map pd.Str toks)))
             data)).
Proof.
  intros Hne Hall Hcols. unfold pd.frame.
  destruct data as [|toks data]; [done|].
  rewrite (width_uniform n) by done. rewrite Hcols, Nat.eqb_refl. reflexivity.
Qed.

Section Parser.
Context `{Platform}.

Lemma dtypes_by_cell (hours : list string) :
  map (λ h, (h, astype_float)) hours
  ++ [("date", to_datetime_mdY); ("segment", strip_slice8)]
  = map (λ cg : string * (pd.cell → result pd.cell), (cg.1, map_result cg.2))
      (cell_steps hours).
Proof. unfold cell_steps. rewrite map_app, map_map. reflexivity. Qed.

(** Combining the Hour-2 columns of the object at [l], row by row. *)
Lemma aggregate_run (l : loc) (w : World) (cols : list string)
    (rows rows' : list pd.Row) (a b : nat) :
  heap w !! l = Some (pd.mkFrame cols rows) →
  pd.col_pos "H02" cols = Some a → pd.col_pos "H02X" cols = Some b →
  map_result (merge_hour2 a b) rows = Ok rows' →
  (h02 ← df_getitem l "H02";
   h02x ← df_getitem l "H02X";
   total ← lift (pd.add_columns h02 h02x);
   _ ← df_setitem l "H02" total;
   df_delitem l "H02X") w
  = (Ok tt, set_frame w l (pd.mkFrame (delete b cols) rows')).
Proof.
  intros Hl Ha Hb Hrows.
  assert (∃ total, pd.add_columns (map (pd.cell_at a) rows) (map (pd.cell_at b) rows)
                   = Ok total
                   ∧ length total = length rows
                   ∧ rows' = map (λ r : pd.Row, (r.1, delete b r.2))
                               (zip_with (λ (r : pd.Row) v, (r.1, <[a := v]> r.2))
                                  rows total)) as (total & Hadd & Hlen & ->).
  { clear Hl. revert rows' Hrows. induction rows as [|r rows IH]; intros rows'.
    - intros [= <-]. by exists [].
    - rewrite map_result_cons.
      destruct (pd.add_cell (pd.cell_at a r) (pd.cell_at b r)) as [v|] eqn:Ev.
      2: { replace (merge_hour2 a b r) with (@Raise pd.Row e)
             by (unfold merge_hour2; by rewrite Ev).
           discriminate. }
      replace (merge_hour2 a b r) with (Ok (r.1, delete b (<[a := v]> r.2)))
        by (unfold merge_hour2; by rewrite Ev).
      rewrite rbind_ok.
      destruct (map_result (merge_hour2 a b) rows) as [rs|];
        rewrite ?rbind_ok, ?rbind_raise; [|discriminate].
      intros [= <-]. destruct (IH rs eq_refl) as (total & Ht & Hlen & ->).
      exists (v :: total). cbn [map pd.add_columns]. rewrite Ev, rbind_ok, Ht.
      cbn. by rewrite Hlen. }
  rewrite bind_run, (df_getitem_run _ _ _ _ Hl). unfold pd.getitem at 1.
  cbn [pd.columns pd.rows]. rewrite Ha.
  rewrite bind_run, (df_getitem_run _ _ _ _ Hl). unfold pd.getitem at 1.
  cbn [pd.columns pd.rows]. rewrite Hb.
  rewrite bind_run, lift_run, Hadd, bind_run.
  erewrite df_setitem_run; [|exact Hl|].
  2: { unfold pd.setitem. cbn [pd.columns pd.rows].
       rewrite Hlen, Nat.eqb_refl, Ha. reflexivity. }
  erewrite df_delitem_run; [|by eapply set_frame_lookup|].
  2: { unfold pd.delitem. cbn [pd.columns pd.rows]. rewrite Hb. reflexivity. }
  by rewrite set_frame_twice.
Qed.

End Parser.

Section ParserRows.
Context `{Platform}.

Lemma dst_hours_eq :
  list_insert_at 2 "H02X" hour_labels
  = ["H01"; "H02"; "H02X"; "H03"; "H04"; "H05"; "H06"; "H07"; "H08";
     "H09"; "H10"; "H11"; "H12"; "H13"; "H14"; "H15"; "H16";
     "H17"; "H18"; "H19"; "H20"; "H21"; "H22"; "H23"; "H24"].
Proof. vm_compute. reflexivity. Qed.

(** The conversions on one valid line of a daylight-saving day: the row
    keeps its 27 values, and the two Hour-2 values are the numbers read
    from tokens 3 and 4. *)
Lemma row27_converted (lab : pd.cell) (toks : list string) :
  valid_line 27 toks →
  ∃ r', row_steps (["segment"; "date"] ++ list_insert_at 2 "H02X" hour_labels)
          (cell_steps (list_insert_at 2 "H02X" hour_labels))
          (lab, pd.pad 27 (map pd.Str toks)) = Ok r'
        ∧ length r'.2 = 27%nat
        ∧ ∃ x y, hour_token 3 toks = Some x ∧ hour_token 4 toks = Some y
                 ∧ pd.cell_at 3 r' = pd.Num x ∧ pd.cell_at 4 r' = pd.Num y.
Proof.
  intros (Hlen & (t & Ht & [d Hd]) & Hfl). rewrite dst_hours_eq.
  tokens 27 toks Hlen. cbn in Ht. injection Ht as ->.
  cbn [drop] in Hfl. numbers Hfl. cbn.
  read_all. rewrite Hd. cbn.
  eexists. split; [reflexivity|]. split; [reflexivity|].
  unfold hour_token. cbn. eexists _, _. repeat split; eassumption || reflexivity.
Qed.

End ParserRows.

Section ParserRun.
Context `{Platform}.

Lemma rows_converted (label : nat → pd.cell) (parsed : list (list string)) :
  Forall (valid_line 27) parsed →
  ∃ rows1,
    map_result (row_steps (["segment"; "date"] ++ list_insert_at 2 "H02X" hour_labels)
                  (cell_steps (list_insert_at 2 "H02X" hour_labels)))
      (imap (λ i toks, (label i, pd.pad 27 (map pd.Str toks))) parsed)
    = Ok rows1
    ∧ Forall2 hour2_pair parsed rows1.
Proof.
  intros Hall. revert label.
  induction Hall as [|toks parsed Hv _ IH]; intros label.
  - by exists [].
  - destruct (row27_converted (label O) toks Hv) as (r & Hr & Hp).
    destruct (IH (label ∘ S)) as (rs & Hrs & HF).
    exists (r :: rs). cbn [imap]. rewrite map_result_cons, Hr, rbind_ok.
    change (imap _ parsed)
      with (imap (λ i toks, ((label ∘ S) i, pd.pad 27 (map pd.Str toks))) parsed).
    rewrite Hrs. split; [done|]. by constructor.
Qed.

Lemma rows_merged (parsed : list (list string)) (rows1 : list pd.Row) :
  Forall2 hour2_pair parsed rows1 →
  ∃ rows2, map_result (merge_hour2 3 4) rows1 = Ok rows2
           ∧ Forall2 (λ toks r, hour2_total toks (pd.cell_at 3 r)) parsed rows2.
Proof.
  induction 1 as [|toks r parsed rows1 (Hlen & x & y & Hx & Hy & H3 & H4) _
                    (rows2 & Hm & HF)].
  - by exists [].
  - exists ((r.1, delete 4%nat (<[3%nat := pd.Num (x + y)%float]> r.2)) :: rows2).
    assert (merge_hour2 3 4 r
            = Ok (r.1, delete 4%nat (<[3%nat := pd.Num (x + y)%float]> r.2))) as Hr
      by (unfold merge_hour2; by rewrite H3, H4).
    rewrite map_result_cons, Hr, rbind_ok, Hm. split; [done|].
    constructor; [|done]. exists x, y. split_and!; [done..|].
    unfold pd.cell_at. cbn [snd].
    rewrite list_lookup_delete_lt by lia.
    rewrite list_lookup_insert_eq by (rewrite Hlen; lia). done.
Qed.

Lemma get_lp_series_dst_run (self : Delmarva) (dt : Date) (ldc : string)
    (agg : bool) (w w1 : World) (data : string) :
  _retrieve_raw_data self dt ldc w = (Ok (Some data), w1) →
  valid_input 27 data →
  ∃ w2 rows1,
    get_lp_series self dt ldc agg w = (Ok (Some (length (heap w1))), w2)
    ∧ Forall2 hour2_pair (data_lines data) rows1
    ∧ ∃ rows2,
        (if agg then map_result (merge_hour2 3 4) rows1 = Ok rows2
         else rows2 = rows1)
        ∧ heap w2 !! length (heap w1)
          = Some (pd.mkFrame
                    ((if agg then delete 4%nat else id)
                       (["segment"; "date"] ++ list_insert_at 2 "H02X" hour_labels))
                    rows2).
Proof.
  intros Hfetch [Hne Hvalid]. unfold get_lp_series, try_except.
  rewrite Hfetch. rewrite bind_run. cbn [mret M_ret].
  set (parsed := data_lines data) in *.
  assert (Hhead : length (default [] (head parsed)) = 27%nat).
  { destruct Hvalid as [|toks ? [Hlen _] _]; [done|exact Hlen]. }
  assert (Hlens : Forall (λ toks, length toks = 27%nat) parsed).
  { eapply Forall_impl; [exact Hvalid|]. by intros toks [Hlen _]. }
  assert (∃ w1', (if (length parsed <? 2)%nat
                  then if (length parsed =? 0)%nat
                       then raise (ValueError NoValidData)
                       else print (PartialData dt)
                  else mret ()) w1 = (Ok tt, w1')
                 ∧ heap w1' = heap w1) as (w1' & Hwarn & Hheap).
  { destruct parsed as [|? [|? ?]]; [done|..]; cbn; eexists; split; reflexivity. }
  rewrite (bind_ok _ _ _ _ _ Hwarn), Hhead.
  change (27 =? 27)%nat with true. cbn [andb].
  rewrite bind_run. cbn [mret M_ret].
  unfold new_frame. rewrite bind_run, bind_run, lift_run.
  rewrite (frame_of_lines 27) by (done || (rewrite dst_hours_eq; reflexivity)).
  cbn [new]. rewrite Hheap.
  destruct (rows_converted (λ i, pd.Int (Z.of_nat i)) parsed Hvalid)
    as (rows1 & Hconv & Hpairs).
  set (cols := ["segment"; "date"] ++ list_insert_at 2 "H02X" hour_labels) in *.
  set (w3 := mkWorld _ _ _ _ _).
  assert (Hl : heap w3 !! length (heap w1)
               = Some (pd.mkFrame cols
                         (imap (λ i toks, (pd.Int (Z.of_nat i),
                                           pd.pad 27 (map pd.Str toks))) parsed))).
  { subst w3. cbn [heap]. apply list_lookup_middle. done. }
  rewrite bind_run, dtypes_by_cell.
  erewrite for_each_convert; [|exact Hl|].
  2: { apply convert_all_by_row; [|exact Hconv].
       subst cols. rewrite dst_hours_eq. unfold cell_steps. cbn.
       repeat constructor; cbn; eauto. }
  exists (if agg then set_frame w3 (length (heap w1))
                        (pd.mkFrame (delete 4%nat cols)
                           (default [] (match map_result (merge_hour2 3 4) rows1 with
                                        | Ok rows2 => Some rows2
                                        | Raise _ => None
                                        end)))
          else set_frame w3 (length (heap w1)) (pd.mkFrame cols rows1)), rows1.
  destruct agg.
  - destruct (rows_merged _ _ Hpairs) as (rows2 & Hmerge & _).
    rewrite Hmerge. cbn [default].
    rewrite bind_run.
    erewrite aggregate_run;
      [|by eapply set_frame_lookup| | |exact Hmerge].
    2, 3: subst cols; rewrite dst_hours_eq; reflexivity.
    rewrite set_frame_twice. split; [reflexivity|]. split; [done|].
    exists rows2. split; [done|]. by eapply set_frame_lookup.
  - rewrite bind_run. cbn [mret M_ret]. split; [reflexivity|]. split; [done|].
    exists rows1. split; [done|]. by eapply set_frame_lookup.
Qed.

(** C1. For every valid 27-column raw text, [get_lp_series] with
    [agg_dst_hr2=True] returns a table without a column [H02X] in which the
    [H02] value of each row is the sum of the numbers read from the two raw
    Hour-2 tokens of its line (tokens 3 and 4, after the segment, the date
    and Hour 1); with [agg_dst_hr2=False] the table has both columns, [H02]
    holding the first number and [H02X] the second. *)
Theorem dst_hour2_columns (self : Delmarva) (dt : Date) (ldc : string)
    (w w1 : World) (data : string) :
  _retrieve_raw_data self dt ldc w = (Ok (Some data), w1) →
  valid_input 27 data →
  (∃ l w2 df h02,
      get_lp_series self dt ldc true w = (Ok (Some l), w2)
      ∧ heap w2 !! l = Some df
      ∧ ("H02X" ∉ pd.columns df)
      ∧ pd.getitem df "H02" = Ok h02
      ∧ Forall2 hour2_total (data_lines data) h02)
  ∧ (∃ l w2 df h02 h02x,
      get_lp_series self dt ldc false w = (Ok (Some l), w2)
      ∧ heap w2 !! l = Some df
      ∧ pd.getitem df "H02" = Ok h02
      ∧ pd.getitem df "H02X" = Ok h02x
      ∧ Forall2 (λ toks c, ∃ x, hour_token 3 toks = Some x ∧ c = pd.Num x)
          (data_lines data) h02
      ∧ Forall2 (λ toks c, ∃ y, hour_token 4 toks = Some y ∧ c = pd.Num y)
          (data_lines data) h02x).
Proof.
  intros Hfetch Hvalid. split.
  - destruct (get_lp_series_dst_run self dt ldc true w w1 data Hfetch Hvalid)
      as (w2 & rows1 & Hrun & Hpairs & rows2 & Hmerge & Hl).
    destruct (rows_merged _ _ Hpairs) as (rows2' & Hmerge' & Htotal).
    rewrite Hmerge in Hmerge'. injection Hmerge' as <-.
    rewrite dst_hours_eq in Hl. cbn in Hl.
    eexists _, w2, _, (map (pd.cell_at 3) rows2).
    split; [exact Hrun|]. split; [exact Hl|]. split; [|split].
    + cbn. rewrite !elem_of_cons, elem_of_nil. intros Hin.
      repeat destruct Hin as [Hin|Hin]; try discriminate Hin. done.
    + reflexivity.
    + by apply Forall2_fmap_r.
  - destruct (get_lp_series_dst_run self dt ldc false w w1 data Hfetch Hvalid)
      as (w2 & rows1 & Hrun & Hpairs & rows2 & -> & Hl).
    rewrite dst_hours_eq in Hl. cbn in Hl.
    eexists _, w2, _, (map (pd.cell_at 3) rows1), (map (pd.cell_at 4) rows1).
    split; [exact Hrun|]. split; [exact Hl|].
    split; [reflexivity|]. split; [reflexivity|].
    split; apply Forall2_fmap_r; (eapply Forall2_impl; [exact Hpairs|]);
      intros toks r (_ & x & y & Hx & Hy & H3 & H4); eauto.
Qed.

End ParserRun.

(** ** The exporter *)

Lemma after_new_nil (w : World) : after_new w [] = w.
Proof. destruct w. unfold after_new. cbn. by rewrite app_nil_r. Qed.

Lemma after_new_app (w : World) (a b : list pd.DataFrame) :
  after_new (after_new w a) b = after_new w (a ++ b).
Proof. unfold after_new. cbn. by rewrite app_assoc. Qed.

Lemma after_new_last (w : World) (made : list pd.DataFrame) (df : pd.DataFrame) :
  heap (after_new w (made ++ [df])) !! (length (heap (after_new w made)))
  = Some df.
Proof. cbn. rewrite app_assoc. by apply list_lookup_middle. Qed.

Lemma method_run (op : pd.DataFrame → result pd.DataFrame) (l : loc)
    (w : World) (df : pd.DataFrame) :
  heap w !! l = Some df →
  method op l w = match op df with
                  | Ok df' => (Ok (length (heap w)), after_new w [df'])
                  | Raise e => (Raise e, w)
                  end.
Proof.
  intros Hl. unfold method, load, new_frame. rewrite bind_run, Hl.
  rewrite bind_run, lift_run. by destruct (op df).
Qed.

Section Exporter.
Context `{Platform}.

(** One more method call on the frame made last. *)
Lemma method_next (op : pd.DataFrame → result pd.DataFrame) (w : World)
    (made : list pd.DataFrame) (l : loc) (df : pd.DataFrame)
    (k : loc → M unit) (final : trace → result unit * World) :
  heap (after_new w made) !! l = Some df →
  (∀ df', op df = Ok df' →
     k (length (heap (after_new w made))) (after_new w (made ++ [df']))
     = final (made ++ [df'], Ok df')) →
  (∀ e, op df = Raise e → final (made, Raise e) = (Raise e, after_new w made)) →
  (method op l ≫= k) (after_new w made) = final (then_call op (made, Ok df)).
Proof.
  intros Hl Hok Hraise. rewrite bind_run, (method_run _ _ _ _ Hl).
  unfold then_call. destruct (op df) as [df'|e] eqn:E.
  - rewrite after_new_app. by apply Hok.
  - symmetry. by apply Hraise.
Qed.

Lemma join_next (codes : pd.DataFrame) (w : World)
    (made : list pd.DataFrame) (l : loc) (df : pd.DataFrame)
    (k : loc → M unit) (final : trace → result unit * World) :
  heap (after_new w made) !! l = Some df →
  (∀ df', k (length (heap (after_new w made))) (after_new w (made ++ [df']))
          = final (made ++ [df'], Ok df')) →
  (∀ e, final (made, Raise e) = (Raise e, after_new w made)) →
  (mapping ← lift (pd.getattr codes "C_LOAD_PROFILE");
   joined ← method (λ d, pd.join_right d mapping) l;
   k joined) (after_new w made)
  = final (then_join codes (made, Ok df)).
Proof.
  intros Hl Hok Hraise. rewrite bind_run, lift_run. unfold then_join.
  destruct (pd.getattr codes "C_LOAD_PROFILE") as [mapping|e]; [|by rewrite Hraise].
  by apply method_next.
Qed.

Lemma write_step (w : World) (l : loc) (file_path : string)
    (table : pd.DataFrame) (from_date to_date : pd.cell) :
  heap w !! l = Some table →
  (_ ← to_csv l file_path;
   match from_date, to_date with
   | pd.Dt a, pd.Dt b => print (Downloaded a b file_path)
   | _, _ => raise (ValueError BadFormatArgument)
   end) w
  = write_and_report w file_path table from_date to_date.
Proof.
  intros Hl. rewrite bind_run. unfold to_csv, load. rewrite bind_run, Hl.
  unfold write_file, write_and_report.
  destruct (open_error w file_path); [done|].
  destruct from_date, to_date; reflexivity.
Qed.

(** Whether a file can be opened depends on the directories only. *)
Lemma open_error_dirs (w w' : World) (p : string) :
  dirs w' = dirs w → open_error w' p = open_error w p.
Proof. unfold open_error. by intros ->. Qed.

Lemma open_error_after_new (w : World) (made : list pd.DataFrame) (p : string) :
  open_error (after_new w made) p = open_error w p.
Proof. by apply open_error_dirs. Qed.

Lemma open_error_not_exists (w : World) (p : string) (e : exn) :
  open_error w p = Some e → ∀ f, e ≠ FileExistsError f.
Proof.
  unfold open_error. intros He f ->.
  repeat match type of He with context [if ?b then _ else _] => destruct b end;
    done.
Qed.

(** The reshaping chain of [export_for_oracle] with the writing of the
    file. *)
Lemma pipeline_run (self : Delmarva) (lp_data : loc) (w : World)
    (df : pd.DataFrame) (file_path : string) (from_date to_date : pd.cell) :
  heap w !! lp_data = Some df →
  (indexed ← method (pd.set_index "segment") lp_data;
   mapping ← lift (pd.getattr (codes self) "C_LOAD_PROFILE");
   joined ← method (λ d, pd.join_right d mapping) indexed;
   plain ← method (λ d, Ok (pd.reset_index_drop d)) joined;
   coded ← method (pd.set_index "C_LOAD_PROFILE") plain;
   padded ← method (pd.assign "EMPTY" pd.Null) coded;
   by_date ← method (pd.sort_values "date") padded;
   by_code ← method pd.sort_index by_date;
   _ ← to_csv by_code file_path;
   match from_date, to_date with
   | pd.Dt a, pd.Dt b => print (Downloaded a b file_path)
   | _, _ => raise (ValueError BadFormatArgument)
   end) w
  = match export_trace (codes self) df with
    | (made, Raise e) => (Raise e, after_new w made)
    | (made, Ok table) =>
        write_and_report (after_new w made) file_path table from_date to_date
    end.
Proof.
  intros Hl. unfold export_trace. rewrite <- (after_new_nil w) at 1.
  peel method_next; [by rewrite after_new_nil| |intros e _; reflexivity].
  intros d1 _.
  peel join_next; [apply after_new_last| |intros e; reflexivity].
  intros d2.
  peel method_next; [apply after_new_last| |intros e _; reflexivity].
  intros d3 _.
  peel method_next; [apply after_new_last| |intros e _; reflexivity].
  intros d4 _.
  peel method_next; [apply after_new_last| |intros e _; reflexivity].
  intros d5 _.
  peel method_next; [apply after_new_last| |intros e _; reflexivity].
  intros d6 _.
  peel method_next; [apply after_new_last| |intros e _; reflexivity].
  intros d7 _.
  apply write_step, after_new_last.
Qed.

(** [export_for_oracle], step by step. *)
Lemma export_unfold (self : Delmarva) (lp_data : loc)
    (path file_name : option string) (w : World) :
  export_for_oracle self lp_data path file_name w
  = match heap w !! lp_data with
    | None => (Raise TypeError, w)
    | Some df =>
        match export_plan df file_name with
        | Raise e => (Raise e, w)
        | Ok (from_date, to_date, fn) =>
            let p := py.or_else path (dest_path self) in
            if archived w p fn then (Raise (FileExistsError fn), w)
            else match export_trace (codes self) df with
                 | (made, Raise e) => (Raise e, after_new w made)
                 | (made, Ok table) =>
                     write_and_report (after_new w made) (p ++ fn)%string table
                       from_date to_date
                 end
        end
    end.
Proof.
  unfold export_for_oracle, export_plan.
  rewrite bind_run. unfold load at 1.
  destruct (heap w !! lp_data) as [df|] eqn:Hl; [|done].
  rewrite bind_run, lift_run.
  destruct (pd.getattr df "date") as [dates|]; [|done].
  rewrite bind_run, lift_run, rbind_ok.
  destruct (pd.min dates) as [from_date|]; [|done].
  rewrite bind_run, lift_run, rbind_ok.
  destruct (pd.max dates) as [to_date|]; [|done].
  rewrite bind_run, lift_run, rbind_ok.
  destruct (file_name_or_default file_name from_date) as [fn|]; [|done].
  rewrite rbind_ok. cbn zeta.
  set (p := py.or_else path (dest_path self)).
  rewrite bind_run, bind_run. unfold os_path_isdir at 1. unfold archived.
  destruct (bool_decide ((p ++ "Archive")%string ∈ dirs w)); cbn [andb].
  - unfold os_path_exists.
    destruct (bool_decide _ || bool_decide _); [reflexivity|].
    by apply pipeline_run.
  - by apply pipeline_run.
Qed.

End Exporter.

(** ** Ordering and sorting *)

Lemma lex_leb_total (a b : list Z) :
  pd.lex_leb a b = false → pd.lex_leb b a = true.
Proof.
  revert b. induction a as [|x a IH]; intros [|y b]; cbn; try done.
  intros Hab. apply orb_false_iff in Hab as [Hlt Hrest].
  apply Z.ltb_ge in Hlt. destruct (Z.eq_dec x y) as [->|Hne].
  - rewrite Z.eqb_refl in Hrest |- *. cbn in Hrest. rewrite (IH _ Hrest).
    by rewrite orb_true_r.
  - assert ((y <? x) = true) as -> by (apply Z.ltb_lt; lia). done.
Qed.

Lemma lex_leb_trans (a b c : list Z) :
  pd.lex_leb a b = true → pd.lex_leb b c = true → pd.lex_leb a c = true.
Proof.
  revert b c. induction a as [|x a IH]; intros [|y b] [|z c]; cbn; try done.
  intros Hab Hbc.
  apply orb_true_iff in Hab as [Hab|Hab]; apply orb_true_iff in Hbc as [Hbc|Hbc].
  - apply Z.ltb_lt in Hab, Hbc.
    assert ((x <? z) = true) as -> by (apply Z.ltb_lt; lia). done.
  - apply andb_true_iff in Hbc as [Hyz _]. apply Z.eqb_eq in Hyz as <-.
    by rewrite Hab.
  - apply andb_true_iff in Hab as [Hxy _]. apply Z.eqb_eq in Hxy as ->.
    by rewrite Hbc.
  - apply andb_true_iff in Hab as [Hxy Hab]. apply Z.eqb_eq in Hxy as ->.
    apply andb_true_iff in Hbc as [Hyz Hbc]. apply Z.eqb_eq in Hyz as ->.
    rewrite Z.eqb_refl, (IH _ _ Hab Hbc). cbn. by rewrite orb_true_r.
Qed.

Lemma cell_leb_total (a b : pd.cell) :
  pd.cell_leb a b = false → pd.cell_leb b a = true.
Proof.
  unfold pd.cell_leb.
  destruct (pd.sort_key a), (pd.sort_key b); try done. apply lex_leb_total.
Qed.

Lemma cell_leb_trans (a b c : pd.cell) :
  pd.cell_leb a b = true → pd.cell_leb b c = true → pd.cell_leb a c = true.
Proof.
  unfold pd.cell_leb.
  destruct (pd.sort_key a), (pd.sort_key b), (pd.sort_key c); try done.
  apply lex_leb_trans.
Qed.

Lemma insert_row_elem (key : pd.Row → pd.cell) (x y : pd.Row) (l : list pd.Row) :
  y ∈ pd.insert_row key x l ↔ y = x ∨ y ∈ l.
Proof.
  induction l as [|z l IH]; cbn.
  - rewrite elem_of_cons, elem_of_nil. tauto.
  - destruct (pd.cell_leb (key x) (key z)).
    + by rewrite elem_of_cons.
    + rewrite !elem_of_cons, IH. tauto.
Qed.

Lemma sort_rows_elem (key : pd.Row → pd.cell) (y : pd.Row) (l : list pd.Row) :
  y ∈ pd.sort_rows key l ↔ y ∈ l.
Proof.
  induction l as [|x l IH]; cbn; [done|].
  unfold pd.sort_rows in IH. by rewrite insert_row_elem, IH, elem_of_cons.
Qed.

Lemma insert_row_sorted (key : pd.Row → pd.cell) (x : pd.Row) (l : list pd.Row) :
  StronglySorted (λ a b, pd.cell_leb (key a) (key b) = true) l →
  StronglySorted (λ a b, pd.cell_leb (key a) (key b) = true)
    (pd.insert_row key x l).
Proof.
  induction 1 as [|z l Hs IH Hz]; cbn.
  - repeat constructor.
  - destruct (pd.cell_leb (key x) (key z)) eqn:Hxz.
    + constructor; [by constructor|]. constructor; [done|].
      eapply Forall_impl; [exact Hz|]. intros y Hy. cbn in Hy.
      by eapply cell_leb_trans.
    + constructor; [done|]. apply Forall_forall. intros y Hy.
      apply insert_row_elem in Hy as [->|Hy].
      * by apply cell_leb_total.
      * rewrite Forall_forall in Hz. by apply Hz.
Qed.

Lemma sort_rows_sorted (key : pd.Row → pd.cell) (l : list pd.Row) :
  StronglySorted (λ a b, pd.cell_leb (key a) (key b) = true)
    (pd.sort_rows key l).
Proof.
  induction l as [|x l IH]; cbn; [constructor|]. by apply insert_row_sorted.
Qed.

(** ** What the exporter writes *)

Lemma then_call_ok (op : pd.DataFrame → result pd.DataFrame) (t : trace)
    (df' : pd.DataFrame) :
  (then_call op t).2 = Ok df' → ∃ df, t.2 = Ok df ∧ op df = Ok df'.
Proof.
  destruct t as [made [df|e]]; cbn; [|done].
  destruct (op df) as [d|] eqn:E; cbn; [|done]. intros [= <-]. eauto.
Qed.

Lemma then_call_raise (op : pd.DataFrame → result pd.DataFrame) (t : trace)
    (e : exn) :
  (then_call op t).2 = Raise e → t.2 = Raise e ∨ ∃ df, t.2 = Ok df ∧ op df = Raise e.
Proof.
  destruct t as [made [df|e']]; cbn; [|by left].
  destruct (op df) as [d|e'] eqn:E; cbn; [done|]. intros [= <-]. eauto.
Qed.

Lemma then_join_ok (codes : pd.DataFrame) (t : trace) (df' : pd.DataFrame) :
  (then_join codes t).2 = Ok df' →
  ∃ df mapping, t.2 = Ok df ∧ pd.getattr codes "C_LOAD_PROFILE" = Ok mapping
                ∧ pd.join_right df mapping = Ok df'.
Proof.
  destruct t as [made [df|e]]; unfold then_join; [|done].
  destruct (pd.getattr codes "C_LOAD_PROFILE") as [mapping|]; [|done].
  intros Hcall. apply then_call_ok in Hcall as (d & [= <-] & Hj). eauto.
Qed.

Lemma then_join_raise (codes : pd.DataFrame) (t : trace) (e : exn) :
  (then_join codes t).2 = Raise e →
  t.2 = Raise e ∨ pd.getattr codes "C_LOAD_PROFILE" = Raise e
  ∨ ∃ df mapping, pd.join_right df mapping = Raise e.
Proof.
  destruct t as [made [df|e']]; unfold then_join; [|by left].
  destruct (pd.getattr codes "C_LOAD_PROFILE") as [mapping|e'] eqn:E.
  - intros Hcall. apply then_call_raise in Hcall as [[=]|(d & _ & Hj)]. eauto.
  - cbn. intros [= <-]. eauto.
Qed.

(** The reshaping raises key, attribute, type and value errors only. *)
Lemma set_index_raises (c : string) (df : pd.DataFrame) (e : exn) :
  pd.set_index c df = Raise e → is_conflict e = false.
Proof. unfold pd.set_index. raised. Qed.

Lemma getattr_raises (df : pd.DataFrame) (c : string) (e : exn) :
  pd.getattr df c = Raise e → is_conflict e = false.
Proof. unfold pd.getattr. raised. Qed.

Lemma join_right_raises (df : pd.DataFrame) (m : pd.Series) (e : exn) :
  pd.join_right df m = Raise e → is_conflict e = false.
Proof. unfold pd.join_right. raised. Qed.

Lemma assign_raises (c : string) (v : pd.cell) (df : pd.DataFrame) (e : exn) :
  pd.assign c v df = Raise e → is_conflict e = false.
Proof. unfold pd.assign, pd.setitem. raised. Qed.

Lemma sort_values_raises (c : string) (df : pd.DataFrame) (e : exn) :
  pd.sort_values c df = Raise e → is_conflict e = false.
Proof. unfold pd.sort_values. raised. Qed.

Lemma sort_index_raises (df : pd.DataFrame) (e : exn) :
  pd.sort_index df = Raise e → is_conflict e = false.
Proof. unfold pd.sort_index. raised. Qed.

Lemma extreme_raises (better : pd.cell → pd.cell → bool) (vals : list pd.cell)
    (e : exn) :
  pd.extreme better vals = Raise e → is_conflict e = false.
Proof. unfold pd.extreme. destruct (pd.comparable vals); [done|]. by intros [= <-]. Qed.

Lemma export_trace_raises (codes df : pd.DataFrame) (e : exn) :
  (export_trace codes df).2 = Raise e → is_conflict e = false.
Proof.
  unfold export_trace. intros Hr.
  apply then_call_raise in Hr as [Hr|(d & _ & Hr)];
    [|by eapply sort_index_raises].
  apply then_call_raise in Hr as [Hr|(d & _ & Hr)];
    [|by eapply sort_values_raises].
  apply then_call_raise in Hr as [Hr|(d & _ & Hr)];
    [|by eapply assign_raises].
  apply then_call_raise in Hr as [Hr|(d & _ & Hr)];
    [|by eapply set_index_raises].
  apply then_call_raise in Hr as [Hr|(d & _ & [=])].
  apply then_join_raise in Hr as [Hr|[Hr|(d & m & Hr)]];
    [|by eapply getattr_raises|by eapply join_right_raises].
  apply then_call_raise in Hr as [[=]|(d & _ & Hr)].
  by eapply set_index_raises.
Qed.

Section Written.
Context `{Platform}.

Lemma export_plan_raises (df : pd.DataFrame) (file_name : option string)
    (e : exn) :
  export_plan df file_name = Raise e → is_conflict e = false.
Proof.
  unfold export_plan.
  destruct (pd.getattr df "date") as [dates|e'] eqn:Ed.
  2: { rewrite ?rbind_raise. intros [= <-]. by eapply getattr_raises. }
  rewrite rbind_ok. unfold pd.min, pd.max.
  destruct (pd.extreme pd.cell_leb _) as [from_date|e'] eqn:Ef.
  2: { rewrite ?rbind_raise. intros [= <-]. by eapply extreme_raises. }
  rewrite rbind_ok.
  destruct (pd.extreme (λ a b, pd.cell_leb b a) _) as [to_date|e'] eqn:Et.
  2: { rewrite ?rbind_raise. intros [= <-]. by eapply extreme_raises. }
  rewrite rbind_ok. unfold file_name_or_default, default_file_name.
  destruct file_name as [f|]; [destruct (String.eqb f "")|];
    destruct from_date; cbn; intros [= <-]; reflexivity.
Qed.

(** A successful export: the table it read, and the file it wrote. *)
Lemma export_ok_inv (self : Delmarva) (lp_data : loc)
    (path file_name : option string) (w w' : World) :
  export_for_oracle self lp_data path file_name w = (Ok tt, w') →
  ∃ df from_date to_date fn table,
    heap w !! lp_data = Some df
    ∧ export_plan df file_name = Ok (from_date, to_date, fn)
    ∧ archived w (py.or_else path (dest_path self)) fn = false
    ∧ export_table (codes self) df = Ok table
    ∧ files w' = <[(py.or_else path (dest_path self) ++ fn)%string := table]> (files w).
Proof.
  rewrite export_unfold.
  destruct (heap w !! lp_data) as [df|]; [|done].
  destruct (export_plan df file_name) as [[[from_date to_date] fn]|] eqn:Hp; [|done].
  cbn zeta. destruct (archived w _ fn) eqn:Ha; [done|].
  unfold export_table.
  destruct (export_trace (codes self) df) as [made [table|]] eqn:Ht; [|done].
  unfold write_and_report.
  destruct (open_error _ _); [done|].
  destruct from_date, to_date; try done.
  intros [= <-]. eexists df, _, _, fn, table.
  split_and!; [done|exact Hp|done|by rewrite Ht|reflexivity].
Qed.

(** C10. [export_for_oracle] leaves the table it is given unchanged: every
    reshaping step creates a new frame, so whatever the outcome of the
    call, the object at the caller's address holds the same columns, rows
    and values afterwards. *)
Theorem export_leaves_table_unchanged (self : Delmarva) (lp_data : loc)
    (path file_name : option string) (w : World) :
  heap (export_for_oracle self lp_data path file_name w).2 !! lp_data
  = heap w !! lp_data.
Proof.
  rewrite export_unfold.
  destruct (heap w !! lp_data) as [df|] eqn:Hl; [|exact Hl].
  destruct (export_plan df file_name) as [[[from_date to_date] fn]|]; [|done].
  cbn zeta. destruct (archived w _ fn); [done|].
  assert (Hkeep : ∀ made, heap (after_new w made) !! lp_data = Some df).
  { intros made. cbn. rewrite lookup_app_l; [done|]. by eapply lookup_lt_Some. }
  destruct (export_trace (codes self) df) as [made [table|]]; [|apply Hkeep].
  unfold write_and_report. destruct (open_error _ _); [apply Hkeep|].
  destruct from_date, to_date; cbn [snd heap after_print after_write];
    apply Hkeep.
Qed.

(** C9. The archive check looks for the directory whose name is the output
    path with [Archive] appended, no separator between them. When no such
    directory exists, the export raises no archive-conflict error whatever
    files exist, and once the table has its file name and its reshaped form
    and the output file can be opened for writing (its folder exists and
    no directory has its name), it is written to the output file. *)
Theorem export_without_archive_directory (self : Delmarva) (lp_data : loc)
    (path file_name : option string) (w : World) :
  (py.or_else path (dest_path self) ++ "Archive")%string ∉ dirs w →
  (∀ f, (export_for_oracle self lp_data path file_name w).1
        ≠ Raise (FileExistsError f))
  ∧ (∀ df from_date to_date fn table,
       heap w !! lp_data = Some df →
       export_plan df file_name = Ok (from_date, to_date, fn) →
       export_table (codes self) df = Ok table →
       open_error w (py.or_else path (dest_path self) ++ fn)%string = None →
       files (export_for_oracle self lp_data path file_name w).2
         !! (py.or_else path (dest_path self) ++ fn)%string = Some table).
Proof.
  intros Hdir.
  assert (Ha : ∀ fn, archived w (py.or_else path (dest_path self)) fn = false).
  { intros fn. unfold archived. by rewrite bool_decide_eq_false_2. }
  rewrite export_unfold. split.
  - intros f.
    destruct (heap w !! lp_data) as [df|]; [|done].
    destruct (export_plan df file_name) as [[[from_date to_date] fn]|e] eqn:Hp.
    2: { intros [= ->]. by apply export_plan_raises in Hp. }
    cbn zeta. rewrite Ha.
    destruct (export_trace (codes self) df) as [made [table|e]] eqn:Ht.
    2: { intros [= ->].
         assert (Hr : (export_trace (codes self) df).2 = Raise (FileExistsError f))
           by (by rewrite Ht).
         by apply export_trace_raises in Hr. }
    unfold write_and_report.
    destruct (open_error _ _) as [e|] eqn:He.
    { intros [= ->]. by eapply open_error_not_exists. }
    destruct from_date, to_date; done.
  - intros df from_date to_date fn table Hl Hp Ht Hfile.
    rewrite Hl, Hp. cbn zeta. rewrite Ha. unfold export_table in Ht.
    destruct (export_trace (codes self) df) as [made r]. cbn in Ht. subst r.
    unfold write_and_report. rewrite open_error_after_new, Hfile.
    destruct from_date, to_date; cbn; by rewrite lookup_insert_eq.
Qed.

Lemma records_sorted (rows : list pd.Row) :
  StronglySorted (λ a b : pd.Row, pd.cell_leb a.1 b.1 = true) rows →
  sorted_by_code (map (λ r : pd.Row, r.1 :: r.2) rows).
Proof.
  unfold sorted_by_code. induction 1 as [|r rows _ IH Hr]; cbn; constructor.
  - exact IH.
  - apply Forall_fmap. eapply Forall_impl; [exact Hr|]. by intros r'.
Qed.

Lemma export_table_sorted (codes df table : pd.DataFrame) :
  export_table codes df = Ok table → sorted_by_code (pd.records table).
Proof.
  unfold export_table, export_trace. intros Ht.
  apply then_call_ok in Ht as (by_date & _ & Hs). unfold pd.sort_index in Hs.
  destruct (pd.comparable _); [|done]. injection Hs as <-.
  apply records_sorted, sort_rows_sorted.
Qed.

(** C2, as amended. The rows written by a successful export are in
    ascending order of the mapped code: the code, sorted last, is the
    primary key of the file's row order (the sort by date comes first and
    is overridden by it). *)
Theorem export_sorted_by_code (self : Delmarva) (lp_data : loc)
    (path file_name : option string) (w w' : World) :
  export_for_oracle self lp_data path file_name w = (Ok tt, w') →
  ∃ df from_date to_date fn table,
    heap w !! lp_data = Some df
    ∧ export_plan df file_name = Ok (from_date, to_date, fn)
    ∧ files w' !! (py.or_else path (dest_path self) ++ fn)%string = Some table
    ∧ sorted_by_code (pd.records table).
Proof.
  intros Hrun.
  apply export_ok_inv in Hrun as (df & from_date & to_date & fn & table
                                  & Hl & Hp & _ & Ht & Hfiles).
  exists df, from_date, to_date, fn, table. split_and!; [done..| |].
  - by rewrite Hfiles, lookup_insert_eq.
  - by eapply export_table_sorted.
Qed.

End Written.

Section Guard.
Context `{Platform}.

(** X2. When the directory named by the path with [Archive] appended exists
    and holds (under [Archive\]) a file with the name of the output file,
    the export fails with [FileExistsError] and the world is as before: no
    file was written, no frame made. *)
Lemma export_archived_raises (self : Delmarva) (lp_data : loc)
    (path file_name : option string) (w : World) (df : pd.DataFrame)
    (from_date to_date : pd.cell) (fn : string) :
  heap w !! lp_data = Some df →
  export_plan df file_name = Ok (from_date, to_date, fn) →
  archived w (py.or_else path (dest_path self)) fn = true →
  export_for_oracle self lp_data path file_name w = (Raise (FileExistsError fn), w).
Proof.
  intros Hl Hp Ha. rewrite export_unfold, Hl, Hp. cbn zeta. by rewrite Ha.
Qed.

End Guard.

(** ** The join of the exporter *)

Lemma col_pos_lt (c : string) (cols : list string) (j : nat) :
  pd.col_pos c cols = Some j → (j < length cols)%nat.
Proof.
  revert j. induction cols as [|c' cols IH]; intros j; cbn; [done|].
  destruct (String.eqb c c'); [intros [= <-]; lia|].
  destruct (pd.col_pos c cols) as [i|]; [|done]. cbn. intros [= <-].
  specialize (IH i eq_refl). lia.
Qed.

Lemma col_pos_None (c : string) (cols : list string) :
  c ∉ cols → pd.col_pos c cols = None.
Proof.
  induction cols as [|c' cols IH]; cbn; [done|].
  rewrite not_elem_of_cons. intros [Hne Hnin].
  destruct (String.eqb_spec c c'); [done|]. by rewrite IH.
Qed.

Lemma col_pos_last (c : string) (cols : list string) :
  c ∉ cols → pd.col_pos c (cols ++ [c]) = Some (length cols).
Proof.
  induction cols as [|c' cols IH]; cbn.
  - by rewrite String.eqb_refl.
  - rewrite not_elem_of_cons. intros [Hne Hnin].
    destruct (String.eqb_spec c c'); [done|]. by rewrite IH.
Qed.

Lemma elem_of_delete {A} (x : A) (j : nat) (l : list A) :
  x ∈ delete j l → x ∈ l.
Proof.
  revert j. induction l as [|y l IH]; intros [|j]; cbn; try done.
  - by right.
  - rewrite !elem_of_cons. intros [->|Hx]; [by left|]. right. by eapply IH.
Qed.

Lemma length_delete_lt {A} (j : nat) (l : list A) :
  (j < length l)%nat → length (delete j l) = (length l - 1)%nat.
Proof.
  revert j. induction l as [|y l IH]; intros [|j] Hj; cbn in *; try lia.
  rewrite IH by lia. lia.
Qed.

Lemma filter_map_swap {A B} (p : B → bool) (f : A → B) (l : list A) :
  List.filter p (map f l) = map f (List.filter (λ a, p (f a)) l).
Proof.
  induction l as [|a l IH]; cbn; [done|]. rewrite IH. by destruct (p (f a)).
Qed.

Lemma map_RangeIndex {B} (g : pd.Row → B) (rs : list pd.Row) :
  (∀ r lab, g (lab, r.2) = g r) → map g (pd.RangeIndex rs) = map g rs.
Proof.
  intros Hg. unfold pd.RangeIndex.
  assert (∀ f : nat → pd.cell, map g (imap (λ i r, (f i, r.2)) rs) = map g rs)
    as Hgen; [|apply Hgen].
  induction rs as [|r rs IH]; intros f; cbn; [done|].
  rewrite Hg. f_equal. apply (IH (f ∘ S)).
Qed.

Lemma assign_new (c : string) (v : pd.cell) (df : pd.DataFrame) :
  c ∉ pd.columns df →
  pd.assign c v df
  = Ok (pd.mkFrame (pd.columns df ++ [c])
          (map (λ r : pd.Row, (r.1, r.2 ++ [v])) (pd.rows df))).
Proof.
  intros Hc. unfold pd.assign, pd.setitem.
  rewrite repeat_length, Nat.eqb_refl, (col_pos_None _ _ Hc). cbn.
  do 2 f_equal. induction (pd.rows df) as [|r rs IH]; cbn; [done|]. by rewrite IH.
Qed.

Lemma cell_at_last (lab : pd.cell) (data : list pd.cell) (c : pd.cell) :
  pd.cell_at (length data) (lab, data ++ [c]) = c.
Proof. unfold pd.cell_at. cbn. by rewrite list_lookup_middle. Qed.

Lemma delete_last {A} (data : list A) (c : A) :
  delete (length data) (data ++ [c]) = data.
Proof. induction data as [|x data IH]; cbn; [done|]. f_equal. exact IH. Qed.

Lemma filter_elem {A} (p : A → bool) (l : list A) (x : A) :
  x ∈ List.filter p l ↔ x ∈ l ∧ p x = true.
Proof. rewrite !list_elem_of_In. apply filter_In. Qed.

Lemma entry_rows_elem (j : nat) (df : pd.DataFrame) (kv : pd.cell * pd.cell)
    (row : pd.Row) :
  row ∈ entry_rows j df kv ↔ line_of_entry j df kv (row.1 :: row.2).
Proof.
  unfold entry_rows, line_of_entry, mapped_line, null_line.
  destruct (List.filter _ (pd.rows df)) as [|m ms] eqn:Hf.
  - assert (Hnone : ∀ r, r ∈ pd.rows df → pd.key_eqb (pd.cell_at j r) kv.1 = false).
    { intros r Hr. destruct (pd.key_eqb (pd.cell_at j r) kv.1) eqn:E; [|done].
      assert (r ∈ List.filter (λ r, pd.key_eqb (pd.cell_at j r) kv.1) (pd.rows df))
        as Hin by (by apply filter_elem).
      rewrite Hf in Hin. by apply elem_of_nil in Hin. }
    rewrite list_elem_of_singleton. split.
    + intros ->. by right.
    + intros [(r & Hr & Hm & _)|[_ [= H1 H2]]].
      * by rewrite Hnone in Hm.
      * destruct row. cbn in *. by subst.
  - rewrite list_elem_of_fmap. split.
    + intros (r & -> & Hr). left. exists r. rewrite <- Hf in Hr.
      apply filter_elem in Hr as [Hr Hm]. done.
    + intros [(r & Hr & Hm & [= H1 H2])|[Hnone _]].
      * exists r. split; [destruct row; cbn in *; by subst|].
        rewrite <- Hf. by apply filter_elem.
      * assert (m ∈ List.filter (λ r, pd.key_eqb (pd.cell_at j r) kv.1) (pd.rows df))
          as Hin by (rewrite Hf; by left).
        apply filter_elem in Hin as [Hr Hm]. by rewrite Hnone in Hm.
Qed.

(** The rows of the exporter's table before the two sorts: the lines of
    the mapping entries, entry by entry. *)
Lemma padded_rows (codes df d1 d2 d4 d5 : pd.DataFrame) (mapping : pd.Series) :
  rectangular df → "EMPTY" ∉ pd.columns df →
  pd.set_index "segment" df = Ok d1 →
  pd.getattr codes "C_LOAD_PROFILE" = Ok mapping →
  pd.join_right d1 mapping = Ok d2 →
  pd.set_index "C_LOAD_PROFILE" (pd.reset_index_drop d2) = Ok d4 →
  pd.assign "EMPTY" pd.Null d4 = Ok d5 →
  ∃ j, pd.col_pos "segment" (pd.columns df) = Some j
       ∧ pd.rows d5 = flat_map (entry_rows j df) (pd.items mapping).
Proof.
  intros Hrect Hempty H1 Hm H2 H4 H5.
  unfold pd.set_index in H1.
  destruct (pd.col_pos "segment" (pd.columns df)) as [j|] eqn:Hj; [|done].
  injection H1 as <-. exists j. split; [done|].
  assert (Hname : pd.name mapping = "C_LOAD_PROFILE").
  { unfold pd.getattr in Hm.
    destruct (pd.col_pos "C_LOAD_PROFILE" (pd.columns codes)); [|done].
    by injection Hm as <-. }
  unfold pd.join_right in H2. rewrite Hname in H2. cbn [pd.columns] in H2.
  destruct (bool_decide _) eqn:Hover; [done|].
  apply bool_decide_eq_false in Hover. injection H2 as <-.
  unfold pd.set_index, pd.reset_index_drop in H4. cbn [pd.columns pd.rows] in H4.
  rewrite (col_pos_last _ _ Hover) in H4. injection H4 as <-.
  rewrite assign_new in H5.
  2: { cbn [pd.columns]. rewrite delete_last. intros Hin.
       by apply elem_of_delete in Hin. }
  injection H5 as <-. cbn [pd.rows pd.columns].
  set (n := length (delete j (pd.columns df))).
  rewrite map_RangeIndex by done. rewrite map_map.
  assert (Hn : n = (length (pd.columns df) - 1)%nat).
  { subst n. apply length_delete_lt. by eapply col_pos_lt. }
  induction (pd.items mapping) as [|kv kvs IH]; [done|].
  cbn [flat_map]. rewrite map_app, IH. f_equal.
  unfold pd.join_entry, entry_rows. cbn [pd.rows pd.columns].
  rewrite filter_map_swap. cbn [fst].
  assert (Hsub : ∀ r, r ∈ List.filter (λ a : pd.Row, pd.key_eqb (pd.cell_at j a) kv.1)
                          (pd.rows df) → length (delete j r.2) = n).
  { intros r Hr. apply filter_elem in Hr as [Hr _].
    unfold rectangular in Hrect. rewrite Forall_forall in Hrect.
    rewrite Hn, length_delete_lt; [by rewrite Hrect|].
    rewrite Hrect by done. by eapply col_pos_lt. }
  assert (Hlast : ∀ lab data c, length data = n →
            (pd.cell_at n (lab, data ++ [c]),
             (pd.cell_at n (lab, data ++ [c]), delete n (lab, data ++ [c]).2).2
             ++ [pd.Null]) = (c, data ++ [pd.Null])).
  { intros lab data c <-. cbn [fst snd]. by rewrite cell_at_last, delete_last. }
  destruct (List.filter _ (pd.rows df)) as [|m ms]; cbn [map].
  - fold n. rewrite Hlast by apply repeat_length. by rewrite Hn.
  - rewrite !map_map. cbn [snd]. rewrite Hlast by (apply Hsub; by left).
    f_equal. apply map_ext_in. intros r Hr. cbn [snd]. apply Hlast, Hsub.
    right. by apply list_elem_of_In.
Qed.

(** The exporter's table is the sorted list of the entries' lines. *)
Lemma export_table_eq (codes df : pd.DataFrame) (j : nat) (mapping : pd.Series) :
  rectangular df → "EMPTY" ∉ pd.columns df →
  pd.col_pos "segment" (pd.columns df) = Some j →
  pd.getattr codes "C_LOAD_PROFILE" = Ok mapping →
  "C_LOAD_PROFILE" ∉ delete j (pd.columns df) →
  export_table codes df
  = (by_date ← pd.sort_values "date"
                 (pd.mkFrame (delete j (pd.columns df) ++ ["EMPTY"])
                    (flat_map (entry_rows j df) (pd.items mapping)));
     pd.sort_index by_date).
Proof.
  intros Hrect Hempty Hj Hm Hover.
  assert (Hname : pd.name mapping = "C_LOAD_PROFILE").
  { unfold pd.getattr in Hm.
    destruct (pd.col_pos "C_LOAD_PROFILE" (pd.columns codes)); [|done].
    by injection Hm as <-. }
  destruct (pd.set_index "segment" df) as [d1|] eqn:H1.
  2: { unfold pd.set_index in H1. by rewrite Hj in H1. }
  assert (Hc1 : pd.columns d1 = delete j (pd.columns df)).
  { unfold pd.set_index in H1. rewrite Hj in H1. by injection H1 as <-. }
  destruct (pd.join_right d1 mapping) as [d2|] eqn:H2.
  2: { unfold pd.join_right in H2. rewrite Hname, Hc1 in H2.
       by rewrite bool_decide_eq_false_2 in H2. }
  assert (Hc2 : pd.columns d2 = delete j (pd.columns df) ++ ["C_LOAD_PROFILE"]).
  { unfold pd.join_right in H2. rewrite Hname, Hc1 in H2.
    rewrite bool_decide_eq_false_2 in H2 by done. by injection H2 as <-. }
  destruct (pd.set_index "C_LOAD_PROFILE" (pd.reset_index_drop d2)) as [d4|] eqn:H4.
  2: { unfold pd.set_index, pd.reset_index_drop in H4. cbn [pd.columns] in H4.
       by rewrite Hc2, (col_pos_last _ _ Hover) in H4. }
  assert (Hc4 : pd.columns d4 = delete j (pd.columns df)).
  { unfold pd.set_index, pd.reset_index_drop in H4. cbn [pd.columns] in H4.
    rewrite Hc2, (col_pos_last _ _ Hover) in H4. injection H4 as <-.
    cbn [pd.columns]. apply delete_last. }
  assert (Hnew : "EMPTY" ∉ pd.columns d4).
  { rewrite Hc4. intros Hin. by apply elem_of_delete in Hin. }
  pose proof (assign_new "EMPTY" pd.Null d4 Hnew) as H5.
  destruct (padded_rows _ _ _ _ _ _ _ Hrect Hempty H1 Hm H2 H4 H5) as (j' & Hj' & Hrows).
  rewrite Hj in Hj'. injection Hj' as <-. cbn [pd.rows] in Hrows.
  unfold export_table, export_trace.
  cbn [then_call]. rewrite H1. cbn [then_join]. rewrite Hm.
  cbn [then_call]. rewrite H2. cbn [then_call]. rewrite H4.
  cbn [then_call]. rewrite H5, Hc4, Hrows. cbn [then_call].
  destruct (pd.sort_values "date" _) as [d6|]; [|done].
  rewrite rbind_ok. cbn [then_call]. by destruct (pd.sort_index d6).
Qed.

Lemma export_table_ok (codes df table : pd.DataFrame) :
  export_table codes df = Ok table →
  ∃ j mapping,
    pd.col_pos "segment" (pd.columns df) = Some j
    ∧ pd.getattr codes "C_LOAD_PROFILE" = Ok mapping
    ∧ "C_LOAD_PROFILE" ∉ delete j (pd.columns df).
Proof.
  intros Ht. unfold export_table, export_trace in Ht.
  apply then_call_ok in Ht as (d6 & Ht & _).
  apply then_call_ok in Ht as (d5 & Ht & _).
  apply then_call_ok in Ht as (d4 & Ht & _).
  apply then_call_ok in Ht as (d3 & Ht & _).
  apply then_call_ok in Ht as (d2 & Ht & _).
  apply then_join_ok in Ht as (d1 & mapping & Ht & Hm & H2).
  apply then_call_ok in Ht as (d0 & [= <-] & H1).
  unfold pd.set_index in H1.
  destruct (pd.col_pos "segment" (pd.columns df)) as [j|]; [|done].
  injection H1 as <-. exists j, mapping. split; [done|]. split; [done|].
  assert (Hname : pd.name mapping = "C_LOAD_PROFILE").
  { unfold pd.getattr in Hm.
    destruct (pd.col_pos "C_LOAD_PROFILE" (pd.columns codes)); [|done].
    by injection Hm as <-. }
  unfold pd.join_right in H2. rewrite Hname in H2. cbn [pd.columns] in H2.
  destruct (bool_decide _) eqn:Hover; [done|]. by apply bool_decide_eq_false in Hover.
Qed.

Lemma filter_filter_sub {A} (p q : A → bool) (l : list A) :
  (∀ x, p x = true → q x = true) →
  List.filter p (List.filter q l) = List.filter p l.
Proof.
  intros Hpq. induction l as [|x l IH]; cbn; [done|].
  destruct (q x) eqn:Hq; cbn.
  - by rewrite IH.
  - destruct (p x) eqn:Hp; [|done]. apply Hpq in Hp. congruence.
Qed.

Lemma entry_rows_without (j : nat) (mapping : pd.Series) (df : pd.DataFrame)
    (kv : pd.cell * pd.cell) :
  kv ∈ pd.items mapping →
  entry_rows j (without_unmapped j mapping df) kv = entry_rows j df kv.
Proof.
  intros Hkv. unfold entry_rows, without_unmapped. cbn [pd.rows pd.columns].
  rewrite filter_filter_sub; [done|].
  intros r Hr. unfold has_entry. apply existsb_exists. exists kv.
  split; [by apply list_elem_of_In|done].
Qed.

Lemma flat_map_ext_elem {A B} (f g : A → list B) (l : list A) :
  (∀ a, a ∈ l → f a = g a) → flat_map f l = flat_map g l.
Proof.
  induction l as [|a l IH]; intros Hfg; cbn; [done|].
  rewrite (Hfg a) by left. f_equal. apply IH. intros b Hb. apply Hfg. by right.
Qed.

Lemma export_table_without (codes df table : pd.DataFrame) (j : nat)
    (mapping : pd.Series) :
  rectangular df → "EMPTY" ∉ pd.columns df →
  pd.col_pos "segment" (pd.columns df) = Some j →
  pd.getattr codes "C_LOAD_PROFILE" = Ok mapping →
  export_table codes df = Ok table →
  export_table codes (without_unmapped j mapping df) = Ok table.
Proof.
  intros Hrect Hempty Hj Hm Ht.
  destruct (export_table_ok _ _ _ Ht) as (j' & mapping' & Hj' & Hm' & Hover).
  rewrite Hj in Hj'. injection Hj' as <-. rewrite Hm in Hm'. injection Hm' as <-.
  rewrite (export_table_eq _ _ j mapping) in Ht by done.
  rewrite (export_table_eq _ _ j mapping); try done.
  - cbn [pd.columns without_unmapped].
    rewrite (flat_map_ext_elem _ (entry_rows j df)); [done|].
    intros kv Hkv. by apply entry_rows_without.
  - unfold rectangular, without_unmapped. cbn [pd.rows pd.columns].
    apply Forall_forall. intros r Hr. apply filter_elem in Hr as [Hr _].
    unfold rectangular in Hrect. rewrite Forall_forall in Hrect. by apply Hrect.
Qed.

Lemma export_table_rows (codes df table : pd.DataFrame) (j : nat)
    (mapping : pd.Series) :
  rectangular df → "EMPTY" ∉ pd.columns df →
  pd.col_pos "segment" (pd.columns df) = Some j →
  pd.getattr codes "C_LOAD_PROFILE" = Ok mapping →
  export_table codes df = Ok table →
  ∀ row, row ∈ pd.rows table
         ↔ ∃ kv, kv ∈ pd.items mapping ∧ row ∈ entry_rows j df kv.
Proof.
  intros Hrect Hempty Hj Hm Ht row.
  destruct (export_table_ok _ _ _ Ht) as (j' & mapping' & Hj' & Hm' & Hover).
  rewrite Hj in Hj'. injection Hj' as <-. rewrite Hm in Hm'. injection Hm' as <-.
  rewrite (export_table_eq _ _ j mapping) in Ht by done.
  unfold pd.sort_values in Ht. cbn [pd.columns pd.rows] in Ht.
  destruct (pd.col_pos "date" _); [|done].
  destruct (pd.comparable _); [|done]. rewrite rbind_ok in Ht.
  unfold pd.sort_index in Ht. cbn [pd.columns pd.rows] in Ht.
  destruct (pd.comparable _); [|done]. injection Ht as <-. cbn [pd.rows].
  rewrite !sort_rows_elem.
  rewrite list_elem_of_In, in_flat_map. setoid_rewrite <- list_elem_of_In.
  done.
Qed.

Section Join.
Context `{Platform}.

(** C3. In the file written by a successful export of a (rectangular)
    table, the lines are exactly the lines of the entries of the code
    mapping: for each entry, one line per row whose segment is the entry's
    source identifier, or, when no row has that segment, one line whose
    date and hour values are all missing. A row whose segment has no entry
    is therefore on no line: the table without such rows gives the same
    output. *)
Theorem export_join_lines (self : Delmarva) (lp_data : loc)
    (path file_name : option string) (w w' : World) (df : pd.DataFrame) :
  heap w !! lp_data = Some df →
  rectangular df → "EMPTY" ∉ pd.columns df →
  export_for_oracle self lp_data path file_name w = (Ok tt, w') →
  ∃ from_date to_date fn table j mapping,
    export_plan df file_name = Ok (from_date, to_date, fn)
    ∧ files w' !! (py.or_else path (dest_path self) ++ fn)%string = Some table
    ∧ pd.col_pos "segment" (pd.columns df) = Some j
    ∧ pd.getattr (codes self) "C_LOAD_PROFILE" = Ok mapping
    ∧ (∀ line, line ∈ pd.records table
               ↔ ∃ kv, kv ∈ pd.items mapping ∧ line_of_entry j df kv line)
    ∧ export_table (codes self) (without_unmapped j mapping df) = Ok table
    ∧ (∀ kv, kv ∈ pd.items mapping →
             (∀ r, r ∈ pd.rows df → pd.key_eqb (pd.cell_at j r) kv.1 = false) →
             null_line (length (pd.columns df) - 1) kv.2 ∈ pd.records table).
Proof.
  intros Hl Hrect Hempty Hrun.
  apply export_ok_inv in Hrun as (df' & from_date & to_date & fn & table
                                  & Hl' & Hp & _ & Ht & Hfiles).
  rewrite Hl in Hl'. injection Hl' as <-.
  destruct (export_table_ok _ _ _ Ht) as (j & mapping & Hj & Hm & _).
  pose proof (export_table_rows _ _ _ _ _ Hrect Hempty Hj Hm Ht) as Hrows.
  assert (Hlines : ∀ line, line ∈ pd.records table
                           ↔ ∃ kv, kv ∈ pd.items mapping ∧ line_of_entry j df kv line).
  { intros line. unfold pd.records. rewrite list_elem_of_fmap. split.
    - intros (row & -> & Hrow). apply Hrows in Hrow as (kv & Hkv & Hrow).
      exists kv. split; [done|]. by apply entry_rows_elem.
    - intros (kv & Hkv & Hline).
      assert (∃ row : pd.Row, line = row.1 :: row.2) as [row ->].
      { destruct Hline as [(r & _ & _ & ->)|[_ ->]];
          [by exists (kv.2, delete j r.2 ++ [pd.Null])
          |by exists (kv.2, repeat pd.Null (length (pd.columns df) - 1) ++ [pd.Null])]. }
      exists row. split; [done|]. apply Hrows. exists kv. split; [done|].
      by apply entry_rows_elem. }
  exists from_date, to_date, fn, table, j, mapping.
  split_and!; [done| |done|done|done| |].
  - by rewrite Hfiles, lookup_insert_eq.
  - by apply export_table_without.
  - intros kv Hkv Hnone. apply Hlines. exists kv. split; [done|]. by right.
Qed.

End Join.

(** ** The series parser, step by step *)

Lemma after_requests_nil (w : World) : after_requests w [] = w.
Proof. destruct w. unfold after_requests. cbn. by rewrite app_nil_r. Qed.

Lemma set_frame_new (w : World) (d0 df : pd.DataFrame) :
  set_frame (after_new w [d0]) (length (heap w)) df = after_new w [df].
Proof.
  unfold set_frame, after_new. cbn. f_equal.
  rewrite insert_app_r_alt by lia. by rewrite Nat.sub_diag.
Qed.

Section Unfold.
Context `{Platform}.

(** The world after a call of the fetcher. *)
Lemma retrieve_world (self : Delmarva) (dt : Date) (ldc : string) (w : World) :
  ∃ urls, (_retrieve_raw_data self dt ldc w).2 = after_requests w urls
          ∧ (length urls ≤ 2)%nat.
Proof.
  unfold _retrieve_raw_data.
  destruct (bool_decide (ldc ∈ ldcs self)); cbn [negb].
  2: { exists []. rewrite after_requests_nil. split; [done|cbn; lia]. }
  destruct (dict_get (ldc_state self) ldc) as [state|e] eqn:Hst.
  - rewrite (retrieve_loop_run _ _ _ _ _ Hst). cbn zeta.
    repeat match goal with |- context [if ?b then _ else _] => destruct b end;
      eexists; (split; [reflexivity|cbn; lia]).
  - exists []. rewrite after_requests_nil. cbn [retrieve_loop].
    rewrite bind_run, lift_run, Hst. split; [done|cbn; lia].
Qed.

(** X6. Whatever its outcome, the fetcher changes nothing but the list of
    requests sent, to which it adds two URLs at most: it makes no object,
    prints nothing and touches no file. *)
Theorem retrieve_only_sends_requests (self : Delmarva) (dt : Date)
    (ldc : string) (w : World) :
  heap (_retrieve_raw_data self dt ldc w).2 = heap w
  ∧ stdout (_retrieve_raw_data self dt ldc w).2 = stdout w
  ∧ files (_retrieve_raw_data self dt ldc w).2 = files w
  ∧ dirs (_retrieve_raw_data self dt ldc w).2 = dirs w
  ∧ ∃ urls, sent (_retrieve_raw_data self dt ldc w).2 = sent w ++ urls
            ∧ (length urls ≤ 2)%nat.
Proof.
  destruct (retrieve_world self dt ldc w) as (urls & -> & Hlen).
  repeat (split; [reflexivity|]). by exists urls.
Qed.

Lemma for_each_convert_loop (l : loc)
    (dtypes : list (string * (list pd.cell → result (list pd.cell))))
    (df : pd.DataFrame) (w : World) :
  heap w !! l = Some df →
  for_each dtypes (λ cf, col ← df_getitem l cf.1;
                         col' ← lift (cf.2 col);
                         df_setitem l cf.1 col') w
  = ((convert_loop df dtypes).2, set_frame w l (convert_loop df dtypes).1).
Proof.
  revert df w. induction dtypes as [|cf rest IH]; intros df w Hl.
  - cbn. by rewrite set_frame_same.
  - cbn [for_each convert_loop]. unfold convert.
    rewrite bind_run, bind_run, (df_getitem_run _ _ _ _ Hl).
    destruct (pd.getitem df cf.1) as [col|e]; rewrite ?rbind_ok, ?rbind_raise.
    2: { cbn. by rewrite set_frame_same. }
    rewrite bind_run, lift_run.
    destruct (cf.2 col) as [col'|e]; rewrite ?rbind_ok, ?rbind_raise.
    2: { cbn. by rewrite set_frame_same. }
    destruct (pd.setitem df cf.1 col') as [d1|e] eqn:Es.
    + rewrite (df_setitem_run _ _ _ _ _ _ Hl Es).
      rewrite (IH d1 _ (set_frame_lookup _ _ _ _ Hl)).
      by rewrite set_frame_twice.
    + unfold df_setitem, load. rewrite bind_run, Hl, bind_run, lift_run, Es.
      cbn. by rewrite set_frame_same.
Qed.


Lemma combine_run (l : loc) (w : World) (df : pd.DataFrame) :
  heap w !! l = Some df →
  (h02 ← df_getitem l "H02";
   h02x ← df_getitem l "H02X";
   total ← lift (pd.add_columns h02 h02x);
   _ ← df_setitem l "H02" total;
   df_delitem l "H02X") w
  = ((combine_hour2 df).2, set_frame w l (combine_hour2 df).1).
Proof.
  intros Hl. unfold combine_hour2.
  rewrite bind_run, (df_getitem_run _ _ _ _ Hl).
  destruct (pd.getitem df "H02") as [h02|e]; rewrite ?rbind_ok, ?rbind_raise.
  2: { cbn. by rewrite set_frame_same. }
  rewrite bind_run, (df_getitem_run _ _ _ _ Hl).
  destruct (pd.getitem df "H02X") as [h02x|e]; rewrite ?rbind_ok, ?rbind_raise.
  2: { cbn. by rewrite set_frame_same. }
  rewrite bind_run, lift_run.
  destruct (pd.add_columns h02 h02x) as [total|e]; rewrite ?rbind_ok, ?rbind_raise.
  2: { cbn. by rewrite set_frame_same. }
  rewrite bind_run.
  destruct (pd.setitem df "H02" total) as [df1|e] eqn:Es.
  2: { unfold df_setitem, load. rewrite bind_run, Hl, bind_run, lift_run, Es.
       cbn. by rewrite set_frame_same. }
  rewrite (df_setitem_run _ _ _ _ _ _ Hl Es).
  pose proof (set_frame_lookup _ _ _ df1 Hl) as Hl1.
  destruct (pd.delitem df1 "H02X") as [df2|e] eqn:Ed.
  - rewrite (df_delitem_run _ _ _ _ _ Hl1 Ed). by rewrite set_frame_twice.
  - unfold df_delitem, load. rewrite bind_run, Hl1, bind_run, lift_run, Ed.
    reflexivity.
Qed.

Lemma warned_heap (w : World) (dt : Date) (parsed : list (list string)) :
  heap (warned w dt parsed) = heap w.
Proof. by destruct parsed as [|? [|? ?]]. Qed.

(** [get_lp_series], step by step. *)
Lemma get_lp_series_unfold (self : Delmarva) (dt : Date) (ldc : string)
    (agg : bool) (w : World) :
  get_lp_series self dt ldc agg w
  = series_outcome ldc dt agg (_retrieve_raw_data self dt ldc w).
Proof.
  unfold get_lp_series, try_except, series_outcome.
  destruct (_retrieve_raw_data self dt ldc w) as [[[data|]|e] w1]; [|done..].
  rewrite bind_run. cbn [mret M_ret].
  set (parsed := data_lines data). unfold read_series.
  destruct parsed as [|first rest] eqn:Hp; [reflexivity|].
  assert (Hwarn : (if (length (first :: rest) <? 2)%nat
                   then if (length (first :: rest) =? 0)%nat
                        then raise (ValueError NoValidData)
                        else print (PartialData dt)
                   else mret ()) w1 = (Ok tt, warned w1 dt (first :: rest))).
  { destruct rest as [|? ?]; reflexivity. }
  rewrite (bind_ok _ _ _ _ _ Hwarn). cbv beta.
  change (default [] (head (first :: rest))) with first.
  pose proof (warned_heap w1 dt (first :: rest)) as Hheap.
  set (w2 := warned w1 dt (first :: rest)) in *.
  unfold series_hours.
  destruct (length first =? 27)%nat eqn:E27.
  - rewrite bind_run. cbn [mret M_ret]. rewrite rbind_ok.
    unfold new_frame. rewrite bind_run, bind_run, lift_run.
    destruct (pd.frame _ _) as [df0|e]; rewrite ?rbind_ok, ?rbind_raise; [|done].
    cbn [new]. fold (after_new w2 [df0]).
    assert (Hl : heap (after_new w2 [df0]) !! length (heap w2) = Some df0)
      by (cbn; by apply list_lookup_middle).
    rewrite bind_run. fold (dtypes_of (list_insert_at 2 "H02X" hour_labels)).
    rewrite (for_each_convert_loop _ _ _ _ Hl), set_frame_new.
    destruct (convert_loop df0 _) as [df1 [[]|e]]; cbn [fst snd andb]; [|done].
    destruct agg.
    + rewrite bind_run.
      rewrite (combine_run _ _ df1) by (cbn; by apply list_lookup_middle).
      rewrite set_frame_new, Hheap.
      by destruct (combine_hour2 df1) as [df2 [[]|e]].
    + rewrite bind_run. cbn [mret M_ret]. by rewrite Hheap.
  - destruct (length first =? 26)%nat eqn:E26; cbn [negb].
    2: { rewrite bind_run. reflexivity. }
    rewrite bind_run. cbn [mret M_ret]. rewrite rbind_ok.
    unfold new_frame. rewrite bind_run, bind_run, lift_run.
    destruct (pd.frame _ _) as [df0|e]; rewrite ?rbind_ok, ?rbind_raise; [|done].
    cbn [new]. fold (after_new w2 [df0]).
    assert (Hl : heap (after_new w2 [df0]) !! length (heap w2) = Some df0)
      by (cbn; by apply list_lookup_middle).
    rewrite bind_run. fold (dtypes_of hour_labels).
    rewrite (for_each_convert_loop _ _ _ _ Hl), set_frame_new.
    destruct (convert_loop df0 _) as [df1 [[]|e]]; cbn [fst snd andb]; [|done].
    rewrite bind_run. cbn [mret M_ret]. by rewrite Hheap.
Qed.

End Unfold.

(** ** The shape of a series table *)

Lemma same_shape_refl (df : pd.DataFrame) : same_shape df df.
Proof.
  split; [done|]. induction (pd.rows df); constructor; done.
Qed.

Lemma same_shape_trans (a b c : pd.DataFrame) :
  same_shape a b → same_shape b c → same_shape a c.
Proof.
  intros [Hc1 Hr1] [Hc2 Hr2]. split; [congruence|].
  revert Hr2. generalize (pd.rows c).
  induction Hr1 as [|r1 r2 rs1 rs2 [? ?] _ IH]; intros rs3 Hr2;
    inversion Hr2 as [|? r3 ? rs3' [? ?] Hrest]; subst; constructor.
  - split; congruence.
  - by apply IH.
Qed.

Lemma setitem_same_shape (df df' : pd.DataFrame) (c : string)
    (vals : list pd.cell) :
  is_Some (pd.col_pos c (pd.columns df)) →
  pd.setitem df c vals = Ok df' → same_shape df df'.
Proof.
  intros [j Hj]. unfold pd.setitem. rewrite Hj.
  destruct (Nat.eqb (length vals) (length (pd.rows df))) eqn:Hlen; [|done].
  apply Nat.eqb_eq in Hlen. cbn. intros [= <-]. split; [done|]. cbn.
  revert vals Hlen. induction (pd.rows df) as [|r rs IH]; intros [|v vals] Hlen;
    try done; cbn in *.
  constructor; [|apply IH; lia]. split; [done|]. cbn. by rewrite length_insert.
Qed.

Lemma convert_same_shape (df df' : pd.DataFrame)
    (cf : string * (list pd.cell → result (list pd.cell))) :
  convert df cf = Ok df' → same_shape df df'.
Proof.
  unfold convert. unfold pd.getitem at 1.
  destruct (pd.col_pos cf.1 (pd.columns df)) as [j|] eqn:Hj; [|done].
  rewrite rbind_ok. destruct (cf.2 _) as [col'|]; [|done]. rewrite rbind_ok.
  apply setitem_same_shape. eauto.
Qed.

Lemma convert_loop_same_shape
    (dtypes : list (string * (list pd.cell → result (list pd.cell))))
    (df : pd.DataFrame) :
  same_shape df (convert_loop df dtypes).1.
Proof.
  revert df. induction dtypes as [|cf rest IH]; intros df; cbn.
  - apply same_shape_refl.
  - destruct (convert df cf) as [df'|e] eqn:E; [|apply same_shape_refl].
    eapply same_shape_trans; [by eapply convert_same_shape|apply IH].
Qed.

Lemma same_shape_rectangular (df df' : pd.DataFrame) :
  same_shape df df' → rectangular df → rectangular df'.
Proof.
  intros [Hc Hr]. unfold rectangular. rewrite Hc. intros Hrect.
  induction Hr as [|r r' rs rs' [_ Hlen] _ IH]; [constructor|].
  apply Forall_cons in Hrect as [Hr Hrect].
  constructor; [congruence|by apply IH].
Qed.

Lemma same_shape_index (df df' : pd.DataFrame) :
  same_shape df df' → map fst (pd.rows df') = map fst (pd.rows df).
Proof.
  intros [_ Hr]. induction Hr as [|r r' rs rs' [Hlab _] _ IH]; [done|].
  cbn. by rewrite Hlab, IH.
Qed.

Lemma width_le (data : list (list string)) (toks : list string) :
  toks ∈ data →
  (length toks ≤ foldr (λ r m, Nat.max (length r) m) O data)%nat.
Proof.
  induction data as [|r data IH]; [by intros ?%elem_of_nil|].
  rewrite elem_of_cons. intros [->|Hin]; cbn; [lia|]. specialize (IH Hin). lia.
Qed.

(** A frame built from token lists: its columns, its index and its rows,
    which all have one value per column. *)
Lemma frame_inv (data : list (list string)) (cols : list string)
    (df : pd.DataFrame) :
  pd.frame data cols = Ok df →
  pd.columns df = cols
  ∧ pd.rows df = imap (λ i toks, (pd.Int (Z.of_nat i),
                                  pd.pad (length cols) (map pd.Str toks))) data
  ∧ rectangular df
  ∧ Forall (λ toks, (length toks ≤ length cols)%nat) data.
Proof.
  unfold pd.frame. destruct data as [|first rest].
  { intros [= <-]. repeat split; constructor. }
  cbv beta iota zeta. remember (first :: rest) as data eqn:Hd. clear Hd.
  destruct (Nat.eqb _ (length cols)) eqn:Hw; [|done]. apply Nat.eqb_eq in Hw.
  cbn [negb]. intros [= <-]. cbn [pd.columns pd.rows].
  assert (Hle : Forall (λ toks, (length toks ≤ length cols)%nat) data).
  { apply Forall_forall. intros toks Hin. rewrite <- Hw. by apply width_le. }
  repeat split; [|done].
  unfold rectangular. cbn [pd.columns pd.rows].
  apply Forall_forall. intros r Hr.
  apply elem_of_lookup_imap in Hr as (i & toks & -> & Hl). cbn.
  assert (length toks ≤ length cols)%nat.
  { rewrite Forall_forall in Hle. apply Hle. by eapply list_elem_of_lookup_2. }
  unfold pd.pad. rewrite length_app, length_map, repeat_length. lia.
Qed.

Lemma delitem_inv (df df' : pd.DataFrame) (c : string) :
  pd.delitem df c = Ok df' →
  ∃ j, pd.col_pos c (pd.columns df) = Some j
       ∧ pd.columns df' = delete j (pd.columns df)
       ∧ pd.rows df' = map (λ r : pd.Row, (r.1, delete j r.2)) (pd.rows df).
Proof.
  unfold pd.delitem. destruct (pd.col_pos c (pd.columns df)) as [j|]; [|done].
  intros [= <-]. eauto.
Qed.

Lemma combine_hour2_ok (df df' : pd.DataFrame) :
  combine_hour2 df = (df', Ok tt) →
  ∃ df1 j, same_shape df df1
           ∧ pd.col_pos "H02X" (pd.columns df) = Some j
           ∧ pd.columns df' = delete j (pd.columns df1)
           ∧ pd.rows df' = map (λ r : pd.Row, (r.1, delete j r.2)) (pd.rows df1).
Proof.
  unfold combine_hour2.
  destruct (pd.getitem df "H02") as [h02|] eqn:E2; rewrite ?rbind_raise; [|done].
  assert (∃ a, pd.col_pos "H02" (pd.columns df) = Some a) as [a Ha].
  { unfold pd.getitem in E2. destruct (pd.col_pos "H02" _); [eauto|done]. }
  rewrite rbind_ok. destruct (pd.getitem df "H02X") as [h02x|]; [|done].
  rewrite rbind_ok. destruct (pd.add_columns _ h02x) as [total|]; [|done].
  rewrite rbind_ok. destruct (pd.setitem df "H02" total) as [df1|] eqn:Es; [|done].
  destruct (pd.delitem df1 "H02X") as [df2|] eqn:Ed; [|done].
  intros [= <-]. apply delitem_inv in Ed as (j & Hj & Hc & Hr).
  assert (Hs : same_shape df df1) by (eapply setitem_same_shape; eauto).
  exists df1, j. destruct Hs as [Hcols Hrows]. rewrite Hcols in Hj.
  split; [by split|done].
Qed.

Lemma imap_index {A} (f : nat → A → pd.Row) (g : nat → pd.cell) (l : list A) :
  (∀ i a, (f i a).1 = g i) → map fst (imap f l) = imap (λ i _, g i) l.
Proof.
  revert f g. induction l as [|a l IH]; intros f g Hf; [done|].
  cbn. rewrite Hf. f_equal. apply (IH (f ∘ S) (g ∘ S)). intros i b. apply Hf.
Qed.

Lemma rectangular_delete (df : pd.DataFrame) (j : nat) :
  (j < length (pd.columns df))%nat →
  rectangular df →
  rectangular (pd.mkFrame (delete j (pd.columns df))
                 (map (λ r : pd.Row, (r.1, delete j r.2)) (pd.rows df))).
Proof.
  unfold rectangular. cbn. intros Hj Hrect. apply Forall_fmap.
  eapply Forall_impl; [exact Hrect|]. intros r Hr. cbn in *.
  rewrite (length_delete_lt j r.2) by lia.
  rewrite (length_delete_lt j (pd.columns df)) by lia. lia.
Qed.

Section Shape.
Context `{Platform}.

Lemma series_hours_inv (n : nat) (hours : list string) :
  series_hours n = Some hours →
  (n = 27%nat ∧ hours = list_insert_at 2 "H02X" hour_labels)
  ∨ (n = 26%nat ∧ hours = hour_labels).
Proof.
  unfold series_hours.
  destruct (n =? 27)%nat eqn:E27; [apply Nat.eqb_eq in E27; intros [= <-]; by left|].
  destruct (n =? 26)%nat eqn:E26; [|done].
  apply Nat.eqb_eq in E26. intros [= <-]. by right.
Qed.

(** A table read without error: its columns, its index, and its rows, one
    per data line with one value per column. *)
Lemma read_series_ok (agg : bool) (parsed : list (list string))
    (df : pd.DataFrame) :
  read_series agg parsed = Ok (df, Ok tt) →
  ∃ first rest hours,
    parsed = first :: rest
    ∧ series_hours (length first) = Some hours
    ∧ pd.columns df = ["segment"; "date"] ++ (if agg then hour_labels else hours)
    ∧ rectangular df
    ∧ map fst (pd.rows df) = imap (λ i _, pd.Int (Z.of_nat i)) parsed.
Proof.
  unfold read_series. destruct parsed as [|first rest]; [done|].
  destruct (series_hours (length first)) as [hours|] eqn:Hh; [|done].
  rewrite rbind_ok.
  destruct (pd.frame _ _) as [df0|] eqn:Hf; [|done]. rewrite rbind_ok.
  apply frame_inv in Hf as (Hc0 & Hr0 & Hrect0 & _).
  pose proof (convert_loop_same_shape (dtypes_of hours) df0) as Hs.
  destruct (convert_loop df0 (dtypes_of hours)) as [df1 [[]|e]] eqn:Hloop;
    [|intros [= _ [=]]].
  cbn [fst] in Hs.
  assert (Hidx0 : map fst (pd.rows df0)
                  = imap (λ i _, pd.Int (Z.of_nat i)) (first :: rest)).
  { rewrite Hr0. by apply imap_index. }
  intros Hres. exists first, rest, hours. split; [done|]. split; [done|].
  apply series_hours_inv in Hh as [[Hn ->]|[Hn ->]].
  - rewrite Hn in Hres. cbn [Nat.eqb andb] in Hres. destruct agg.
    + injection Hres as Hres. apply combine_hour2_ok in Hres
        as (df2 & j & Hs2 & Hj & Hc & Hr).
      pose proof (same_shape_trans _ _ _ Hs Hs2) as Hs02.
      destruct Hs as [Hc1 _]. rewrite Hc1, Hc0, dst_hours_eq in Hj.
      injection Hj as <-.
      pose proof (same_shape_rectangular _ _ Hs02 Hrect0) as Hrect2.
      pose proof (same_shape_index _ _ Hs02) as Hidx2.
      destruct Hs02 as [Hc2 _]. rewrite Hc0, dst_hours_eq in Hc2.
      split; [by rewrite Hc, Hc2, hour_labels_eq|].
      split.
      * destruct df as [cols rows]. cbn [pd.columns pd.rows] in Hc, Hr.
        subst cols rows.
        apply rectangular_delete; [rewrite Hc2; cbn; lia|done].
      * rewrite Hr, map_map. cbn [fst]. by rewrite <- Hidx0, <- Hidx2.
    + injection Hres as <-. destruct Hs as [Hc1 Hr1]. split; [congruence|].
      split; [by eapply same_shape_rectangular|].
      rewrite <- Hidx0. by apply same_shape_index.
  - rewrite Hn in Hres. cbn [Nat.eqb andb] in Hres. injection Hres as <-.
    split; [destruct Hs as [Hc1 _]; destruct agg; congruence|].
    split; [by eapply same_shape_rectangular|].
    rewrite <- Hidx0. by apply same_shape_index.
Qed.

End Shape.

(** ** What the series parser returns and leaves behind *)

Lemma after_print_nil (w : World) : after_print w [] = w.
Proof. destruct w. unfold after_print. cbn. by rewrite app_nil_r. Qed.

Lemma warned_print (w : World) (dt : Date) (parsed : list (list string)) :
  ∃ msgs, warned w dt parsed = after_print w msgs.
Proof.
  destruct parsed as [|? [|? ?]]; cbn;
    [exists []|by eexists|exists []]; by rewrite after_print_nil.
Qed.

Section SeriesWorld.
Context `{Platform}.

(** A returned table: the text it was read from, and where it is. *)
Lemma get_lp_series_some (self : Delmarva) (dt : Date) (ldc : string)
    (agg : bool) (w w' : World) (l : loc) :
  get_lp_series self dt ldc agg w = (Ok (Some l), w') →
  ∃ data w1 df,
    _retrieve_raw_data self dt ldc w = (Ok (Some data), w1)
    ∧ read_series agg (data_lines data) = Ok (df, Ok tt)
    ∧ l = length (heap w1)
    ∧ w' = after_new (warned w1 dt (data_lines data)) [df].
Proof.
  rewrite get_lp_series_unfold. unfold series_outcome.
  destruct (_retrieve_raw_data self dt ldc w) as [[[data|]|e] w1]; [|done|].
  - destruct (read_series agg (data_lines data)) as [[df [[]|e]]|e] eqn:Hread;
      [|done..].
    intros [= <- <-]. by exists data, w1, df.
  - by destruct (is_HTTPError e).
Qed.

(** The world after a call of [get_lp_series]: more requests, more console
    output, and at most one more object. *)
Lemma get_lp_series_effect (self : Delmarva) (dt : Date) (ldc : string)
    (agg : bool) (w : World) :
  ∃ urls msgs made,
    (get_lp_series self dt ldc agg w).2
    = after_new (after_print (after_requests w urls) msgs) made
    ∧ (length urls ≤ 2)%nat ∧ (length made ≤ 1)%nat.
Proof.
  rewrite get_lp_series_unfold. unfold series_outcome.
  destruct (retrieve_world self dt ldc w) as (urls & Hw1 & Hurls).
  destruct (_retrieve_raw_data self dt ldc w) as [r w1]. cbn [snd] in Hw1.
  subst w1. exists urls.
  destruct r as [[data|]|e].
  - destruct (warned_print (after_requests w urls) dt (data_lines data))
      as [msgs ->]. exists msgs.
    destruct (read_series agg (data_lines data)) as [[df [[]|e]]|e]; cbn [snd].
    + exists [df]. split; [done|]. split; [done|cbn; lia].
    + exists [df]. split; [done|]. split; [done|cbn; lia].
    + exists []. rewrite after_new_nil. split; [done|]. split; [done|cbn; lia].
  - exists [], []. rewrite after_new_nil, after_print_nil.
    split; [done|]. split; [done|cbn; lia].
  - destruct (is_HTTPError e); cbn [snd].
    + eexists _, []. rewrite after_new_nil. split; [done|]. split; [done|cbn; lia].
    + exists [], []. rewrite after_new_nil, after_print_nil.
      split; [done|]. split; [done|cbn; lia].
Qed.

(** X11. [get_lp_series] writes no file and changes no object that exists: it
    adds at most one object to the store, and the table it returns is that
    new object. *)
Theorem get_lp_series_keeps_world (self : Delmarva) (dt : Date) (ldc : string)
    (agg : bool) (w : World) :
  files (get_lp_series self dt ldc agg w).2 = files w
  ∧ dirs (get_lp_series self dt ldc agg w).2 = dirs w
  ∧ (∃ made, heap (get_lp_series self dt ldc agg w).2 = heap w ++ made
             ∧ (length made ≤ 1)%nat)
  ∧ (∀ l, (get_lp_series self dt ldc agg w).1 = Ok (Some l) →
          l = length (heap w)
          ∧ is_Some (heap (get_lp_series self dt ldc agg w).2 !! l)).
Proof.
  destruct (get_lp_series_effect self dt ldc agg w)
    as (urls & msgs & made & Hw & _ & Hm).
  split; [by rewrite Hw|]. split; [by rewrite Hw|].
  split; [exists made; by rewrite Hw|].
  intros l Hl.
  destruct (get_lp_series self dt ldc agg w) as [r w'] eqn:Hrun.
  cbn [fst snd] in *. subst r.
  apply get_lp_series_some in Hrun as (data & w1 & df & Hfetch & _ & -> & ->).
  destruct (retrieve_world self dt ldc w) as (urls' & Hw1 & _).
  rewrite Hfetch in Hw1. cbn [snd] in Hw1. subst w1. cbn [heap after_requests].
  split; [done|]. exists df. cbn [heap after_new]. apply list_lookup_middle.
  by rewrite warned_heap.
Qed.

(** X8. A table returned by [get_lp_series]: its columns are the segment, the
    date and the 24 hours, with the extra Hour-2 column only on a 27-column
    day read without aggregation; it has one row per data line, numbered
    from 0, and every row has one value per column. *)
Theorem get_lp_series_shape (self : Delmarva) (dt : Date) (ldc : string)
    (agg : bool) (w w' : World) (l : loc) :
  get_lp_series self dt ldc agg w = (Ok (Some l), w') →
  ∃ data w1 first rest df,
    _retrieve_raw_data self dt ldc w = (Ok (Some data), w1)
    ∧ data_lines data = first :: rest
    ∧ heap w' !! l = Some df
    ∧ pd.columns df
      = ["segment"; "date"]
        ++ (if (length first =? 27)%nat && negb agg
            then list_insert_at 2 "H02X" hour_labels else hour_labels)
    ∧ rectangular df
    ∧ map fst (pd.rows df)
      = imap (λ i _, pd.Int (Z.of_nat i)) (data_lines data).
Proof.
  intros Hrun.
  apply get_lp_series_some in Hrun as (data & w1 & df & Hfetch & Hread & -> & ->).
  apply read_series_ok in Hread
    as (first & rest & hours & Hp & Hh & Hcols & Hrect & Hidx).
  exists data, w1, first, rest, df. split; [done|]. split; [done|].
  split. { cbn [heap after_new]. rewrite warned_heap. by apply list_lookup_middle. }
  split; [|done].
  rewrite Hcols. f_equal.
  apply series_hours_inv in Hh as [[-> ->]|[-> ->]]; by destruct agg.
Qed.

(** X9. A first data line with neither 26 nor 27 tokens: the parser fails with
    [ValueError] "Invalid data structure", after the warning about a
    single data line if there is only one, and makes no table. The other
    data lines are not looked at. *)
Theorem get_lp_series_bad_width (self : Delmarva) (dt : Date) (ldc : string)
    (agg : bool) (w w1 : World) (data : string) (first : list string)
    (rest : list (list string)) :
  _retrieve_raw_data self dt ldc w = (Ok (Some data), w1) →
  data_lines data = first :: rest →
  length first ≠ 26%nat → length first ≠ 27%nat →
  get_lp_series self dt ldc agg w
  = (Raise (ValueError InvalidDataStructure), warned w1 dt (first :: rest)).
Proof.
  intros Hfetch Hp H26 H27.
  rewrite get_lp_series_unfold, Hfetch. unfold series_outcome, read_series.
  rewrite Hp. unfold series_hours.
  rewrite (proj2 (Nat.eqb_neq _ _) H26), (proj2 (Nat.eqb_neq _ _) H27).
  reflexivity.
Qed.

(** X10. A data line with more tokens than the first one: the construction of
    the frame fails with [ValueError] (the number of columns passed is not
    that of the data), and no table is made. *)
Theorem get_lp_series_wider_line (self : Delmarva) (dt : Date) (ldc : string)
    (agg : bool) (w w1 : World) (data : string) (first line : list string)
    (rest : list (list string)) :
  _retrieve_raw_data self dt ldc w = (Ok (Some data), w1) →
  data_lines data = first :: rest →
  length first = 26%nat ∨ length first = 27%nat →
  line ∈ rest → (length first < length line)%nat →
  get_lp_series self dt ldc agg w
  = (Raise (ValueError ShapeMismatch), warned w1 dt (first :: rest)).
Proof.
  intros Hfetch Hp Hn Hin Hlt.
  rewrite get_lp_series_unfold, Hfetch. unfold series_outcome, read_series.
  rewrite Hp.
  assert (∃ hours, series_hours (length first) = Some hours
                   ∧ length (["segment"; "date"] ++ hours) = length first)
    as (hours & -> & Hlen).
  { destruct Hn as [-> | ->]; eexists; (split; [reflexivity|]).
    - by rewrite hour_labels_eq.
    - by rewrite dst_hours_eq. }
  rewrite rbind_ok. unfold pd.frame.
  assert (length line ≤ foldr (λ r m, Nat.max (length r) m) O (first :: rest))%nat
    as Hle by (apply width_le; by right).
  destruct (Nat.eqb (foldr _ _ _) _) eqn:Hw; [|reflexivity].
  apply Nat.eqb_eq in Hw. lia.
Qed.

End SeriesWorld.

(** ** The values of a series table *)

Lemma convert_loop_ok (df df' : pd.DataFrame)
    (dtypes : list (string * (list pd.cell → result (list pd.cell)))) :
  convert_all df dtypes = Ok df' → convert_loop df dtypes = (df', Ok tt).
Proof.
  revert df. induction dtypes as [|cf rest IH]; intros df; cbn.
  - by intros [= <-].
  - destruct (convert df cf) as [d1|]; [|done]. cbn. apply IH.
Qed.

Section Values.
Context `{Platform}.

Lemma row26_values (lab : pd.cell) (toks : list string) :
  valid_line 26 toks →
  ∃ vals, row_steps (["segment"; "date"] ++ hour_labels) (cell_steps hour_labels)
            (lab, pd.pad 26 (map pd.Str toks)) = Ok (lab, vals)
          ∧ line_values toks = Some vals.
Proof.
  intros (Hlen & (t & Ht & [d Hd]) & Hfl). rewrite hour_labels_eq.
  tokens 26 toks Hlen. cbn in Ht. injection Ht as ->.
  cbn [drop] in Hfl. numbers Hfl. unfold line_values. cbn.
  read_all. rewrite Hd. cbn.
  eexists. split; reflexivity.
Qed.

Lemma row27_values (lab : pd.cell) (toks : list string) :
  valid_line 27 toks →
  ∃ vals, row_steps (["segment"; "date"] ++ list_insert_at 2 "H02X" hour_labels)
            (cell_steps (list_insert_at 2 "H02X" hour_labels))
            (lab, pd.pad 27 (map pd.Str toks)) = Ok (lab, vals)
          ∧ line_values toks = Some vals.
Proof.
  intros (Hlen & (t & Ht & [d Hd]) & Hfl). rewrite dst_hours_eq.
  tokens 27 toks Hlen. cbn in Ht. injection Ht as ->.
  cbn [drop] in Hfl. numbers Hfl. unfold line_values. cbn.
  read_all. rewrite Hd. cbn.
  eexists. split; reflexivity.
Qed.


Lemma rows_values (n : nat) (hours : list string) (label : nat → pd.cell)
    (parsed : list (list string)) :
  series_hours n = Some hours → Forall (valid_line n) parsed →
  map_result (row_steps (["segment"; "date"] ++ hours) (cell_steps hours))
    (imap (λ i toks, (label i, pd.pad n (map pd.Str toks))) parsed)
  = Ok (imap (λ i toks, (label i, default [] (line_values toks))) parsed)
  ∧ Forall (λ toks, is_Some (line_values toks)) parsed.
Proof.
  intros Hh Hall. revert label.
  induction Hall as [|toks parsed Hv _ IH]; intros label; [done|].
  assert (∃ vals, row_steps (["segment"; "date"] ++ hours) (cell_steps hours)
                    (label O, pd.pad n (map pd.Str toks)) = Ok (label O, vals)
                  ∧ line_values toks = Some vals) as (vals & Hrow & Hvals).
  { apply series_hours_inv in Hh as [[-> ->]|[-> ->]];
      [by apply row27_values|by apply row26_values]. }
  destruct (IH (label ∘ S)) as [Hrows Hsome].
  split; [|constructor; [by rewrite Hvals|done]].
  cbn [imap]. rewrite map_result_cons, Hrow, rbind_ok.
  change (imap ((λ i toks, (label i, pd.pad n (map pd.Str toks))) ∘ S) parsed)
    with (imap (λ i toks, ((label ∘ S) i, pd.pad n (map pd.Str toks))) parsed).
  rewrite Hrows, rbind_ok, Hvals. reflexivity.
Qed.

(** The run of [get_lp_series] on a valid raw text, on a standard day or
    without aggregation. *)
Lemma get_lp_series_values_run (self : Delmarva) (dt : Date) (ldc : string)
    (agg : bool) (w w1 : World) (data : string) (n : nat) (hours : list string) :
  _retrieve_raw_data self dt ldc w = (Ok (Some data), w1) →
  series_hours n = Some hours → valid_input n data →
  (n = 27%nat → agg = false) →
  get_lp_series self dt ldc agg w
  = (Ok (Some (length (heap w1))),
     after_new (warned w1 dt (data_lines data))
       [pd.mkFrame (["segment"; "date"] ++ hours)
          (imap (λ i toks, (pd.Int (Z.of_nat i), default [] (line_values toks)))
             (data_lines data))])
  ∧ Forall (λ toks, is_Some (line_values toks)) (data_lines data).
Proof.
  intros Hfetch Hh [Hne Hvalid] Hagg.
  destruct (rows_values n hours (λ i, pd.Int (Z.of_nat i)) _ Hh Hvalid)
    as [Hrows Hsome].
  split; [|done].
  rewrite get_lp_series_unfold, Hfetch. unfold series_outcome, read_series.
  destruct (data_lines data) as [|first rest] eqn:Hp; [done|].
  assert (Hfirst : length first = n).
  { apply Forall_cons in Hvalid as [[Hlen _] _]. exact Hlen. }
  rewrite Hfirst, Hh, rbind_ok.
  assert (Hlens : Forall (λ toks, length toks = n) (first :: rest)).
  { eapply Forall_impl; [exact Hvalid|]. by intros toks [Hlen _]. }
  assert (Hcols : length (["segment"; "date"] ++ hours) = n).
  { apply series_hours_inv in Hh as [[-> ->]|[-> ->]];
      [by rewrite dst_hours_eq|by rewrite hour_labels_eq]. }
  rewrite (frame_of_lines n) by done. rewrite rbind_ok.
  unfold dtypes_of. rewrite dtypes_by_cell.
  erewrite convert_loop_ok.
  2: { apply convert_all_by_row; [|exact Hrows].
       unfold cell_steps.
       apply series_hours_inv in Hh as [[-> ->]|[-> ->]];
         rewrite ?dst_hours_eq, ?hour_labels_eq; cbn;
         repeat constructor; cbn; eauto. }
  assert (((n =? 27)%nat && agg) = false) as ->.
  { destruct (n =? 27)%nat eqn:E; [|done]. apply Nat.eqb_eq in E.
    by rewrite (Hagg E). }
  reflexivity.
Qed.


(** X7. The table read from a valid raw text, on a standard day or without
    aggregation: its columns are the segment, the date and the hours, and
    it has one row per data line, in order, with the values read from the
    tokens of the line. *)
Theorem get_lp_series_values (self : Delmarva) (dt : Date) (ldc : string)
    (agg : bool) (w w1 : World) (data : string) (n : nat) (hours : list string) :
  _retrieve_raw_data self dt ldc w = (Ok (Some data), w1) →
  series_hours n = Some hours → valid_input n data →
  (n = 27%nat → agg = false) →
  ∃ l w2 df,
    get_lp_series self dt ldc agg w = (Ok (Some l), w2)
    ∧ heap w2 !! l = Some df
    ∧ pd.columns df = ["segment"; "date"] ++ hours
    ∧ Forall2 (λ toks (r : pd.Row), line_values toks = Some r.2)
        (data_lines data) (pd.rows df).
Proof.
  intros Hfetch Hh Hvalid Hagg.
  destruct (get_lp_series_values_run self dt ldc agg w w1 data n hours)
    as [Hrun Hsome]; [done..|].
  eexists _, _, _. split; [exact Hrun|].
  split. { cbn [heap after_new]. apply list_lookup_middle. by rewrite warned_heap. }
  split; [done|]. cbn [pd.rows]. apply imap_Forall2. intros i toks Hin.
  rewrite Forall_forall in Hsome. destruct (Hsome toks Hin) as [vals ->]. done.
Qed.

End Values.

(** ** Concatenating the series *)

Lemma col_pos_lookup (cols : list string) (i : nat) (c : string) :
  NoDup cols → cols !! i = Some c → pd.col_pos c cols = Some i.
Proof.
  intros Hnd. revert i. induction Hnd as [|c' cols Hnin _ IH]; intros i; [done|].
  destruct i as [|i]; cbn.
  - intros [= ->]. by rewrite String.eqb_refl.
  - intros Hi. destruct (String.eqb_spec c c') as [->|_].
    + exfalso. apply Hnin. by eapply list_elem_of_lookup_2.
    + by rewrite (IH _ Hi).
Qed.

(** Aligning a row to the columns it already has changes nothing. *)
Lemma align_id (df : pd.DataFrame) (r : pd.Row) :
  NoDup (pd.columns df) → length r.2 = length (pd.columns df) →
  pd.align (pd.columns df) df r = r.
Proof.
  intros Hnd Hlen. unfold pd.align. destruct r as [lab vals]. cbn in *.
  f_equal. apply list_eq. intros i. rewrite list_lookup_fmap.
  destruct (pd.columns df !! i) as [c|] eqn:Hc; cbn.
  - rewrite (col_pos_lookup _ _ _ Hnd Hc). unfold pd.cell_at. cbn.
    destruct (vals !! i) as [v|] eqn:Hv; [done|].
    apply lookup_ge_None in Hv. apply lookup_lt_Some in Hc. lia.
  - symmetry. apply lookup_ge_None. apply lookup_ge_None in Hc. lia.
Qed.

Lemma series_columns_NoDup : NoDup series_columns.
Proof. apply (bool_decide_unpack _). vm_compute. exact I. Qed.

Lemma filter_known (acc cols : list string) :
  (∀ c, c ∈ cols → c ∈ acc) →
  List.filter (λ c, negb (bool_decide (c ∈ acc))) cols = [].
Proof.
  intros Hsub. apply filter_nil. intros c Hc.
  by rewrite bool_decide_eq_true_2 by (by apply Hsub).
Qed.

Lemma filter_new (cols : list string) :
  List.filter (λ c, negb (bool_decide (c ∈ @nil string))) cols = cols.
Proof.
  induction cols as [|c cols IH]; [done|]. cbn.
  rewrite bool_decide_eq_false_2 by apply not_elem_of_nil. cbn. by rewrite IH.
Qed.

Lemma union_columns_same (cols : list string) (frames : list pd.DataFrame) :
  frames ≠ [] → Forall (λ df, pd.columns df = cols) frames →
  pd.union_columns frames = cols.
Proof.
  intros Hne Hall. unfold pd.union_columns.
  destruct Hall as [|df frames Hdf Hall]; [done|]. cbn [foldl].
  rewrite filter_new, Hdf. cbn [app].
  clear Hne. induction Hall as [|df' frames Hdf' _ IH]; [done|]. cbn [foldl].
  rewrite Hdf', (filter_known cols cols) by done. by rewrite app_nil_r.
Qed.

(** The concatenation of series tables: the rows of the tables that are
    there, in order, numbered from 0. *)
Lemma concat_series (objs : list (option pd.DataFrame)) :
  Forall (λ o, ∀ df, o = Some df → series_table df) objs →
  pd.concat objs
  = match omap id objs with
    | [] => Raise (ValueError (match objs with
                               | [] => NoObjectsToConcatenate
                               | _ => AllObjectsNone
                               end))
    | frames => Ok (pd.mkFrame series_columns
                      (pd.RangeIndex (flat_map pd.rows frames)))
    end.
Proof.
  intros Hall. unfold pd.concat. destruct objs as [|o objs]; [done|].
  remember (o :: objs) as l eqn:Hl. clear Hl o objs.
  assert (Hfr : Forall series_table (omap id l)).
  { induction Hall as [|o l Ho _ IH]; [constructor|]. cbn.
    destruct o as [df|]; cbn; [constructor; [by apply Ho|done]|done]. }
  destruct (omap id l) as [|df frames] eqn:Hf; [done|].
  rewrite (union_columns_same series_columns) by
    (done || (eapply Forall_impl; [exact Hfr|]; by intros ? [? _])).
  do 3 f_equal. clear Hf.
  induction Hfr as [|d ds [Hc Hrect] _ IH]; [done|]. cbn [flat_map].
  rewrite IH. f_equal.
  rewrite <- (map_id (pd.rows d)) at 2. apply map_ext_in. intros r Hr.
  rewrite <- Hc. apply align_id; [rewrite Hc; apply series_columns_NoDup|].
  unfold rectangular in Hrect. rewrite Forall_forall in Hrect.
  apply Hrect. by apply list_elem_of_In.
Qed.

Section Data.
Context `{Platform}.

(** The outcomes of the calls of [get_lp_series] that [get_lp_data] makes:
    the store only grows, and every table returned is a series table in the
    store at the end. *)
Lemma map_M_series (self : Delmarva) (ps : list (Date * string))
    (w w1 : World) (series : list (option loc)) :
  map_M (λ p : Date * string, get_lp_series self p.1 p.2 true) ps w
  = (Ok series, w1) →
  (∃ made, heap w1 = heap w ++ made)
  ∧ Forall (λ o, ∀ l, o = Some l →
                 ∃ df, heap w1 !! l = Some df ∧ series_table df) series.
Proof.
  revert w series. induction ps as [|p ps IH]; intros w series.
  - cbn. intros [= <- <-]. split; [exists []; by rewrite app_nil_r|constructor].
  - cbn [map_M]. rewrite bind_run.
    destruct (get_lp_series self p.1 p.2 true w) as [[o|e] wa] eqn:E1; [|done].
    rewrite bind_run.
    destruct (map_M _ ps wa) as [[os|e] wb] eqn:E2; [|done].
    cbn. intros [= <- <-]. apply IH in E2 as [[made2 Hh2] Hos].
    pose proof (get_lp_series_effect self p.1 p.2 true w)
      as (urls & msgs & made1 & Hwa & _ & _).
    rewrite E1 in Hwa. cbn [snd] in Hwa.
    assert (Hh1 : heap wa = heap w ++ made1) by (by rewrite Hwa).
    split; [exists (made1 ++ made2); by rewrite Hh2, Hh1, app_assoc|].
    constructor; [|done]. intros l ->.
    apply get_lp_series_some in E1 as (data & w0 & df & _ & Hread & -> & ->).
    apply read_series_ok in Hread as (first & rest & hours & _ & _ & Hcols & Hrect & _).
    exists df. split; [|by split].
    rewrite Hh2. apply lookup_app_l_Some. cbn [heap after_new].
    apply list_lookup_middle. by rewrite warned_heap.
Qed.

Lemma load_series (series : list (option loc)) (w : World) :
  Forall (λ o : option loc, ∀ l, o = Some l → is_Some (heap w !! l)) series →
  map_M (λ o : option loc, match o with
                           | Some l => df ← load l; mret (Some df)
                           | None => mret None
                           end) series w
  = (Ok (map (λ o : option loc, o ≫= (heap w !!.)) series), w).
Proof.
  induction 1 as [|o series Ho _ IH]; [done|].
  cbn [map_M map]. rewrite bind_run.
  destruct o as [l|].
  - destruct (Ho l eq_refl) as [df Hl]. rewrite bind_run. unfold load at 1.
    rewrite Hl. cbn [mret M_ret]. rewrite bind_run, IH. cbn. by rewrite Hl.
  - cbn [mret M_ret]. rewrite bind_run, IH. reflexivity.
Qed.

Lemma omap_bind {A B} (f : A → option B) (l : list A) :
  omap id (map f l) = omap f l.
Proof. induction l as [|a l IH]; cbn; [done|]. rewrite IH. by destruct (f a). Qed.

(** X14. [get_lp_data] for a range from [a] to [b]: the series are read day by
    day, for each LDC of [self.ldcs] in turn ([CND], then [CNM]); an error
    of one of them is the error of the call. When none of them gives a table the concatenation raises
    [ValueError]; otherwise a new table holds the rows of the tables that
    are there, in the order they were read, numbered from 0, under the
    columns of a standard day. *)
Theorem get_lp_data_run (self : Delmarva) (from_dt to_dt : date_like)
    (a b : Date) (w : World) :
  as_date from_dt = Ok a → as_date to_dt = Ok b →
  get_lp_data self from_dt to_dt w
  = match map_M (λ p : Date * string, get_lp_series self p.1 p.2 true)
            (combinations self (date_range a b)) w with
    | (Raise e, w1) => (Raise e, w1)
    | (Ok series, w1) =>
        match available (heap w1) series with
        | [] => (Raise (ValueError (match series with
                                    | [] => NoObjectsToConcatenate
                                    | _ => AllObjectsNone
                                    end)), w1)
        | frames =>
            (Ok (length (heap w1)),
             after_new w1 [pd.mkFrame series_columns
                             (pd.RangeIndex (flat_map pd.rows frames))])
        end
    end.
Proof.
  intros Ha Hb. unfold get_lp_data.
  assert (Hrange : ∀ k : list Date → M loc,
    (range ← lift (match from_dt with
                   | AText _ => from_date ← as_date from_dt;
                                to_date ← as_date to_dt;
                                Ok (ADate from_date, ADate to_date)
                   | ADate _ => Ok (from_dt, to_dt)
                   end);
     rng ← lift (a ← as_date range.1; b ← as_date range.2; Ok (date_range a b));
     k rng) w = k (date_range a b) w).
  { intros k. rewrite bind_run, lift_run.
    destruct from_dt as [d|s].
    - injection Ha as ->. rewrite bind_run, lift_run. cbn [fst snd as_date].
      rewrite Hb. reflexivity.
    - rewrite Ha, Hb. cbn [mbind result_bind].
      rewrite bind_run, lift_run. reflexivity. }
  rewrite Hrange. fold (combinations self (date_range a b)).
  rewrite bind_run.
  destruct (map_M _ (combinations self (date_range a b)) w)
    as [[series|e] w1] eqn:Hrun; [|done].
  apply map_M_series in Hrun as [_ Hseries].
  rewrite bind_run, load_series.
  2: { eapply Forall_impl; [exact Hseries|]. intros o Ho l Hl.
       destruct (Ho l Hl) as (df & Hdf & _). eauto. }
  unfold new_frame. rewrite bind_run, lift_run, concat_series.
  2: { apply Forall_fmap. eapply Forall_impl; [exact Hseries|].
       intros o Ho df Hdf. destruct o as [l|]; [|done]. cbn in Hdf.
       destruct (Ho l eq_refl) as (df' & Hl & Ht). rewrite Hl in Hdf.
       by injection Hdf as <-. }
  rewrite omap_bind. fold (available (heap w1) series).
  destruct (available (heap w1) series) as [|df frames]; [|reflexivity].
  by destruct series.
Qed.

End Data.

(** ** The constructor, and ranges without days *)

Lemma col_pos_Some (c : string) (cols : list string) (j : nat) :
  pd.col_pos c cols = Some j → cols !! j = Some c.
Proof.
  revert j. induction cols as [|c' cols IH]; intros j; cbn; [done|].
  destruct (String.eqb_spec c c') as [->|_]; [by intros [= <-]|].
  destruct (pd.col_pos c cols) as [i|]; [|done]. cbn. intros [= <-].
  by apply IH.
Qed.

Lemma col_pos_delete (c c' : string) (cols : list string) (i k : nat) :
  pd.col_pos c' cols = Some i → pd.col_pos c cols = Some k → c ≠ c' →
  pd.col_pos c (delete i cols) = Some (pos_without i k).
Proof.
  intros Hi Hk Hne. revert i k Hi Hk.
  induction cols as [|x cols IH]; intros i k; cbn; [done|].
  destruct (String.eqb_spec c' x) as [->|Hx'].
  - intros [= <-]. destruct (String.eqb_spec c x) as [Heq|_]; [congruence|].
    destruct (pd.col_pos c cols) as [k'|] eqn:Hk'; [|done]. cbn.
    intros [= <-]. exact Hk'.
  - destruct (pd.col_pos c' cols) as [i'|] eqn:Hi'; [|done]. cbn. intros [= <-].
    destruct (String.eqb_spec c x) as [->|Hx].
    + intros [= <-]. cbn. by rewrite String.eqb_refl.
    + destruct (pd.col_pos c cols) as [k'|] eqn:Hk'; [|done]. cbn. intros [= <-].
      cbn. destruct (String.eqb_spec c x); [done|].
      change (S <$> pd.col_pos c (delete i' cols)
              = Some (pos_without (S i') (S k'))).
      rewrite (IH i' k' eq_refl eq_refl). cbn. unfold pos_without.
      change (S k' <? S i')%nat with (k' <? i')%nat.
      destruct (k' <? i')%nat eqn:E; [done|].
      apply Nat.ltb_ge in E. cbn.
      assert (k' ≠ i').
      { intros ->. apply col_pos_Some in Hi', Hk'. congruence. }
      f_equal. lia.
Qed.

Lemma cell_at_delete (i k : nat) (lab lab' : pd.cell) (vals : list pd.cell) :
  k ≠ i →
  pd.cell_at (pos_without i k) (lab', delete i vals) = pd.cell_at k (lab, vals).
Proof.
  intros Hne. unfold pd.cell_at, pos_without. cbn [snd]. f_equal.
  destruct (k <? i)%nat eqn:E.
  - apply Nat.ltb_lt in E. by apply list_lookup_delete_lt.
  - apply Nat.ltb_ge in E. rewrite list_lookup_delete_ge by lia.
    f_equal. lia.
Qed.

Section Constructor.
Context `{Platform}.

(** X4. Without a code mapping file the constructor still returns an object:
    it prints the warning, and the mapping is the empty frame. The paths
    default to the working directory. *)
Theorem init_without_codes_file (codes_path dest_path : option string)
    (w : World) :
  files w !! codes_file_path codes_path = None →
  codes_file_path codes_path ∉ dirs w →
  __init__ codes_path dest_path w
  = (Ok (mkDelmarva (py.or_else dest_path getcwd)
           [("CNM", "MD"); ("CND", "DE"); ("CNV", "VA")]
           (py.or_else codes_path getcwd) "delmarva_lp_code_mapping.csv"
           pd.empty_frame ["CND"; "CNM"]),
     after_print w [CodesFileNotFound (codes_file_path codes_path)]).
Proof.
  intros Hfile Hdir. unfold __init__. fold (codes_file_path codes_path).
  rewrite bind_run. unfold os_path_exists at 1.
  rewrite Hfile, bool_decide_eq_false_2 by done.
  rewrite bool_decide_eq_false_2 by (by intros [? ?]).
  reflexivity.
Qed.

(** X5. With a code mapping file that has the two columns, the constructor
    reads it and prints nothing; the mapping it keeps pairs, row by row of
    the file, the source identifier with its code. *)
Theorem init_reads_code_mapping (cp dp : option string)
    (w : World) (table : pd.DataFrame) (i k : nat) :
  files w !! codes_file_path cp = Some table →
  pd.col_pos "T_DMS_LOAD_PROFILE" (pd.columns table) = Some i →
  pd.col_pos "C_LOAD_PROFILE" (pd.columns table) = Some k →
  ∃ self,
    __init__ cp dp w = (Ok self, w)
    ∧ dest_path self = py.or_else dp getcwd
    ∧ pd.getattr (codes self) "C_LOAD_PROFILE"
      = Ok (pd.mkSeries "C_LOAD_PROFILE"
              (map (λ r, (pd.cell_at i r, pd.cell_at k r)) (pd.rows table))).
Proof.
  intros Hfile Hi Hk. unfold __init__. fold (codes_file_path cp).
  rewrite bind_run. unfold os_path_exists at 1.
  rewrite Hfile. rewrite (bool_decide_eq_true_2 (is_Some (Some table))) by eauto.
  rewrite orb_true_r, bind_run. unfold read_csv. rewrite Hfile, Hi.
  unfold pd.set_index. rewrite Hi. cbn [mret M_ret].
  eexists. split; [reflexivity|]. split; [reflexivity|].
  cbn [codes]. unfold pd.getattr. cbn [pd.columns pd.rows].
  rewrite (col_pos_delete _ _ _ _ _ Hi Hk) by done.
  do 2 f_equal. rewrite map_map. apply map_ext. intros [lab vals]. cbn [fst snd].
  f_equal. apply (cell_at_delete i k lab).
  intros ->. apply col_pos_Some in Hi, Hk. congruence.
Qed.

End Constructor.

Section Range.
Context `{Platform}.

Lemma get_lp_data_range (self : Delmarva) (from_dt to_dt : date_like)
    (a b : Date) (w : World) (k : list Date → M loc) :
  as_date from_dt = Ok a → as_date to_dt = Ok b →
  (range ← lift (match from_dt with
                 | AText _ => from_date ← as_date from_dt;
                              to_date ← as_date to_dt;
                              Ok (ADate from_date, ADate to_date)
                 | ADate _ => Ok (from_dt, to_dt)
                 end);
   rng ← lift (a ← as_date range.1; b ← as_date range.2; Ok (date_range a b));
   k rng) w = k (date_range a b) w.
Proof.
  intros Ha Hb. rewrite bind_run, lift_run.
  destruct from_dt as [d|s].
  - injection Ha as ->. rewrite bind_run, lift_run. cbn [fst snd as_date].
    rewrite Hb. reflexivity.
  - rewrite Ha, Hb. cbn [mbind result_bind].
    rewrite bind_run, lift_run. reflexivity.
Qed.

(** X15. A range that ends before it starts has no day: [get_lp_data] sends no
    request and fails with [ValueError] "No objects to concatenate". *)
Theorem get_lp_data_empty_range (self : Delmarva) (from_dt to_dt : date_like)
    (a b : Date) (w : World) :
  as_date from_dt = Ok a → as_date to_dt = Ok b →
  toordinal b < toordinal a →
  get_lp_data self from_dt to_dt w
  = (Raise (ValueError NoObjectsToConcatenate), w).
Proof.
  intros Ha Hb Hlt. unfold get_lp_data.
  rewrite (get_lp_data_range self from_dt to_dt a b w _ Ha Hb).
  unfold date_range. replace (Z.to_nat _) with O by lia. reflexivity.
Qed.

End Range.

(** ** The files of the exporter *)

Lemma then_call_raised (op : pd.DataFrame → result pd.DataFrame)
    (made : list pd.DataFrame) (e : exn) :
  then_call op (made, Raise e) = (made, Raise e).
Proof. reflexivity. Qed.

(** Without the column of codes the reshaping stops at the join. *)
Lemma export_trace_no_codes (codes df : pd.DataFrame) :
  pd.col_pos "C_LOAD_PROFILE" (pd.columns codes) = None →
  export_trace codes df
  = match pd.set_index "segment" df with
    | Ok d1 => ([d1], Raise (AttributeError "C_LOAD_PROFILE"))
    | Raise e => ([], Raise e)
    end.
Proof.
  intros Hc. unfold export_trace.
  assert (Hg : pd.getattr codes "C_LOAD_PROFILE"
               = Raise (AttributeError "C_LOAD_PROFILE"))
    by (unfold pd.getattr; by rewrite Hc).
  replace (then_join codes (then_call (pd.set_index "segment") ([], Ok df)))
    with (match pd.set_index "segment" df with
          | Ok d1 => ([d1], @Raise pd.DataFrame (AttributeError "C_LOAD_PROFILE"))
          | Raise e => ([], Raise e)
          end).
  2: { unfold then_call, then_join. destruct (pd.set_index "segment" df); [|done].
       by rewrite Hg. }
  by destruct (pd.set_index "segment" df).
Qed.

Lemma string_app_inv (p a b : string) : (p ++ a)%string = (p ++ b)%string → a = b.
Proof.
  induction p as [|c p IH]; [done|].
  change (String c (p ++ a) = String c (p ++ b) → a = b).
  intros [= E]. by apply IH.
Qed.

Lemma string_app_length (a b : string) :
  String.length (a ++ b) = (String.length a + String.length b)%nat.
Proof.
  induction a as [|c a IH]; [done|].
  change (S (String.length (a ++ b)) = S (String.length a + String.length b)).
  by rewrite IH.
Qed.

(** The output file is not the file the archive check looks for. *)
Lemma output_not_archive (p fn : string) :
  (p ++ fn)%string ≠ (p ++ "Archive\" ++ fn)%string.
Proof.
  intros E. apply string_app_inv in E.
  apply (f_equal String.length) in E. rewrite string_app_length in E. cbn in E. lia.
Qed.

Section Files.
Context `{Platform}.

(** X17. With a mapping that has no column of codes (the empty frame the
    constructor falls back to), the export never succeeds and writes no
    file; once the table has its file name and its segment column, the
    error is the attribute error on [self.codes.C_LOAD_PROFILE]. *)
Theorem export_needs_code_mapping (self : Delmarva) (lp_data : loc)
    (path file_name : option string) (w : World) :
  pd.col_pos "C_LOAD_PROFILE" (pd.columns (codes self)) = None →
  (∃ e, (export_for_oracle self lp_data path file_name w).1 = Raise e)
  ∧ files (export_for_oracle self lp_data path file_name w).2 = files w
  ∧ (∀ df plan,
       heap w !! lp_data = Some df → export_plan df file_name = Ok plan →
       archived w (py.or_else path (dest_path self)) plan.2 = false →
       is_Some (pd.col_pos "segment" (pd.columns df)) →
       (export_for_oracle self lp_data path file_name w).1
       = Raise (AttributeError "C_LOAD_PROFILE")).
Proof.
  intros Hc. rewrite export_unfold.
  destruct (heap w !! lp_data) as [df|].
  2: { split; [eauto|]. split; [done|]. by intros. }
  destruct (export_plan df file_name) as [[[from_date to_date] fn]|e] eqn:Hp.
  2: { split; [eauto|]. split; [done|]. intros df' plan [= <-] E.
       by rewrite Hp in E. }
  cbn zeta. destruct (archived w _ fn) eqn:Ha.
  { split; [eauto|]. split; [done|]. intros df' plan [= <-] E.
    rewrite Hp in E. injection E as <-. cbn. by rewrite Ha. }
  rewrite (export_trace_no_codes _ _ Hc).
  destruct (pd.set_index "segment" df) as [d1|e] eqn:Hs.
  - split; [eauto|]. split; [done|]. by intros.
  - split; [eauto|]. split; [done|]. intros df' plan [= <-] _ _ [j Hj].
    unfold pd.set_index in Hs. by rewrite Hj in Hs.
Qed.

(** X18. The export sends no request and makes no directory, and the only file
    it can change is the output file: the path followed by the file name. *)
Theorem export_touches_one_file (self : Delmarva) (lp_data : loc)
    (path file_name : option string) (w : World) :
  sent (export_for_oracle self lp_data path file_name w).2 = sent w
  ∧ dirs (export_for_oracle self lp_data path file_name w).2 = dirs w
  ∧ ∀ p, files (export_for_oracle self lp_data path file_name w).2 !! p
         = files w !! p
         ∨ ∃ df from_date to_date fn,
             heap w !! lp_data = Some df
             ∧ export_plan df file_name = Ok (from_date, to_date, fn)
             ∧ p = (py.or_else path (dest_path self) ++ fn)%string.
Proof.
  rewrite export_unfold.
  destruct (heap w !! lp_data) as [df|] eqn:Hl; [|by auto].
  destruct (export_plan df file_name) as [[[from_date to_date] fn]|e] eqn:Hp;
    [|by auto].
  cbn zeta. destruct (archived w _ fn); [by auto|].
  destruct (export_trace (codes self) df) as [made [table|e]]; [|by auto].
  unfold write_and_report. destruct (open_error _ _); [by auto|].
  assert (∀ p, <[(py.or_else path (dest_path self) ++ fn)%string := table]>
                 (files w) !! p = files w !! p
               ∨ ∃ df' from_date' to_date' fn',
                   Some df = Some df'
                   ∧ export_plan df' file_name = Ok (from_date', to_date', fn')
                   ∧ p = (py.or_else path (dest_path self) ++ fn')%string) as Hfiles.
  { intros p.
    destruct (decide (p = (py.or_else path (dest_path self) ++ fn)%string)) as [->|Hne].
    - right. by exists df, from_date, to_date, fn.
    - left. by rewrite lookup_insert_ne. }
  destruct from_date, to_date; cbn; by auto.
Qed.

(** X19. A successful export can be repeated: the same call in the world it
    leaves succeeds again and leaves the files as they are. *)
Theorem export_twice (self : Delmarva) (lp_data : loc)
    (path file_name : option string) (w w' : World) :
  export_for_oracle self lp_data path file_name w = (Ok tt, w') →
  ∃ w'', export_for_oracle self lp_data path file_name w' = (Ok tt, w'')
         ∧ files w'' = files w'.
Proof.
  rewrite !export_unfold.
  destruct (heap w !! lp_data) as [df|] eqn:Hl; [|done].
  destruct (export_plan df file_name) as [[[from_date to_date] fn]|e] eqn:Hp; [|done].
  cbn zeta. set (p := py.or_else path (dest_path self)).
  destruct (archived w p fn) eqn:Ha; [done|].
  destruct (export_trace (codes self) df) as [made [table|e]] eqn:Ht; [|done].
  unfold write_and_report. rewrite open_error_after_new.
  destruct (open_error w (p ++ fn)) eqn:Hd; [done|].
  destruct from_date as [| | | |a]; try done. destruct to_date as [| | | |b]; try done.
  intros [= <-]. cbn [heap after_print after_write after_new].
  rewrite (lookup_app_l_Some _ _ _ _ Hl), Hp. cbn zeta. fold p.
  assert (archived (after_print (after_write (after_new w made) (p ++ fn) table)
                      [Downloaded a b (p ++ fn)%string]) p fn = false) as ->.
  { unfold archived in *. cbn [dirs files after_print after_write after_new].
    rewrite lookup_insert_ne by apply output_not_archive. exact Ha. }
  rewrite Ht, (open_error_dirs w) by done. rewrite Hd.
  eexists. split; [reflexivity|]. cbn [files after_print after_write after_new].
  by rewrite insert_insert_eq.
Qed.

End Files.

(** ** The dates of the exporter *)

Lemma comparable_same_kind (vals : list pd.cell) :
  pd.comparable vals = true ↔ same_kind vals.
Proof.
  unfold pd.comparable, same_kind.
  destruct (List.filter _ vals) as [|c cs] eqn:Hf.
  - split; [|done]. intros _ a b Ha _ Hna _.
    assert (a ∈ List.filter (λ c, negb (pd.isna c)) vals) as Hin
      by (apply filter_elem; split; [done|by rewrite Hna]).
    rewrite Hf in Hin. by apply elem_of_nil in Hin.
  - assert (Hmem : ∀ a, a ∈ c :: cs ↔ a ∈ vals ∧ pd.isna a = false).
    { intros a. rewrite <- Hf, filter_elem. 
      destruct (pd.isna a); cbn; split; intros [? ?]; done. }
    split.
    + intros Hall a b Ha Hb Hna Hnb.
      assert (∀ x, x ∈ c :: cs → pd.kind x = pd.kind c) as Hk.
      { intros x. rewrite elem_of_cons. intros [->|Hx]; [done|].
        rewrite forallb_forall in Hall. apply Z.eqb_eq, Hall.
        by apply list_elem_of_In. }
      rewrite (Hk a), (Hk b); [done|by apply Hmem..].
    + intros Hsame. apply forallb_forall. intros x Hx. apply Z.eqb_eq.
      apply list_elem_of_In in Hx.
      assert (x ∈ c :: cs) as Hx' by (by right).
      assert (c ∈ c :: cs) as Hc by (by left).
      apply Hmem in Hx' as [? ?]. apply Hmem in Hc as [? ?]. by apply Hsame.
Qed.

(** The smallest (or largest) value that is not missing. *)
Lemma extreme_fold (better : pd.cell → pd.cell → bool) (vals : list pd.cell) :
  (∀ a b, better a b = false → better b a = true) →
  (∀ a b c, better a b = true → better b c = true → better a c = true) →
  let m := foldr (λ v acc, if pd.isna v then acc
                           else if pd.isna acc then v
                           else if better v acc then v else acc) pd.Null vals in
  (m = pd.Null ∧ Forall (λ v, pd.isna v = true) vals)
  ∨ (m ∈ vals ∧ pd.isna m = false
     ∧ ∀ v, v ∈ vals → pd.isna v = false → better m v = true).
Proof.
  intros Htot Htrans.
  assert (Hrefl : ∀ a, better a a = true).
  { intros a. destruct (better a a) eqn:E; [done|].
    pose proof (Htot a a E). congruence. }
  induction vals as [|v vals IH]; cbn zeta; [left; by split|].
  cbn [foldr]. cbn zeta in IH.
  set (acc := foldr _ pd.Null vals) in *.
  destruct (pd.isna v) eqn:Hv.
  { destruct IH as [[-> Hall]|(Hin & Hna & Hle)].
    - left. split; [done|by constructor].
    - right. split; [by right|]. split; [done|].
      intros u [->|Hu]%elem_of_cons Hnu; [congruence|by apply Hle]. }
  right. destruct (pd.isna acc) eqn:Hacc.
  { destruct IH as [[_ Hall]|(_ & Hna & _)]; [|congruence].
    split; [by left|]. split; [done|].
    intros u [->|Hu]%elem_of_cons Hnu; [done|].
    rewrite Forall_forall in Hall. rewrite (Hall u Hu) in Hnu. done. }
  destruct IH as [[Hnull _]|(Hin & _ & Hle)].
  { rewrite Hnull in Hacc. done. }
  destruct (better v acc) eqn:Hb.
  - split; [by left|]. split; [done|].
    intros u [->|Hu]%elem_of_cons Hnu; [done|].
    eapply Htrans; [exact Hb|by apply Hle].
  - split; [by right|]. split; [done|].
    intros u [->|Hu]%elem_of_cons Hnu; [by apply Htot|by apply Hle].
Qed.

Lemma cell_leb_dates (a b : Date) :
  pd.cell_leb (pd.Dt a) (pd.Dt b) = date_leb a b.
Proof.
  unfold pd.cell_leb, date_leb. cbn.
  destruct a as [y m d], b as [y' m' d']. cbn.
  repeat match goal with
         | |- context [?x <? ?y] => destruct (Z.ltb_spec x y)
         | |- context [?x =? ?y] => destruct (Z.eqb_spec x y)
         | |- context [?x <=? ?y] => destruct (Z.leb_spec x y)
         end; cbn; try reflexivity; lia.
Qed.

(** The first and the last date of a column of dates. *)
Lemma date_bounds (vals : list pd.cell) (a b : Date) :
  pd.extreme pd.cell_leb vals = Ok (pd.Dt a) →
  pd.extreme (λ x y, pd.cell_leb y x) vals = Ok (pd.Dt b) →
  pd.Dt a ∈ vals ∧ pd.Dt b ∈ vals
  ∧ ∀ d, pd.Dt d ∈ vals → date_leb a d = true ∧ date_leb d b = true.
Proof.
  unfold pd.extreme. destruct (pd.comparable vals); [|done].
  intros [= Hmin] [= Hmax].
  pose proof (extreme_fold pd.cell_leb vals cell_leb_total cell_leb_trans) as Hlo.
  pose proof (extreme_fold (λ x y, pd.cell_leb y x) vals) as Hhi.
  cbv beta zeta in Hlo, Hhi, Hmin, Hmax. rewrite Hmin in Hlo. rewrite Hmax in Hhi.
  destruct Hlo as [[[=] _]|(Ha & _ & Hlo)].
  destruct Hhi as [[[=] _]|(Hb & _ & Hhi)].
  { intros x y. apply cell_leb_total. }
  { intros x y z Hxy Hyz. by eapply cell_leb_trans. }
  split; [done|]. split; [done|]. intros d Hd.
  rewrite <- !cell_leb_dates. split; [by apply Hlo|by apply Hhi].
Qed.

Section Name.
Context `{Platform}.

(** X20. A successful export without a file name: the file is named after the
    earliest date of the table, [Conectiv_YYYYMMDD.txt], and the message
    printed at the end gives the earliest and the latest date with the
    path of the file. *)
Theorem export_default_file_name (self : Delmarva) (lp_data : loc)
    (path : option string) (w w' : World) :
  export_for_oracle self lp_data path None w = (Ok tt, w') →
  ∃ df dates a b,
    heap w !! lp_data = Some df
    ∧ pd.getitem df "date" = Ok dates
    ∧ pd.Dt a ∈ dates ∧ pd.Dt b ∈ dates
    ∧ (∀ d, pd.Dt d ∈ dates → date_leb a d = true ∧ date_leb d b = true)
    ∧ let out := (py.or_else path (dest_path self)
                  ++ "Conectiv_" ++ strftime_Ymd a ++ ".txt")%string in
      is_Some (files w' !! out)
      ∧ stdout w' = stdout w ++ [Downloaded a b out].
Proof.
  rewrite export_unfold.
  destruct (heap w !! lp_data) as [df|] eqn:Hl; [|done].
  unfold export_plan, pd.getattr, pd.getitem.
  destruct (pd.col_pos "date" (pd.columns df)) as [j|] eqn:Hj; [|done].
  rewrite rbind_ok. unfold pd.min, pd.max. cbn [pd.items]. rewrite map_map.
  cbn [snd].
  destruct (pd.extreme pd.cell_leb _) as [from_date|] eqn:Hmin; [|done].
  rewrite rbind_ok.
  destruct (pd.extreme (λ a b, pd.cell_leb b a) _) as [to_date|] eqn:Hmax; [|done].
  rewrite rbind_ok. unfold file_name_or_default, default_file_name.
  destruct from_date as [| | | |a]; try done. rewrite rbind_ok. cbn zeta.
  set (out := (py.or_else path (dest_path self)
               ++ "Conectiv_" ++ strftime_Ymd a ++ ".txt")%string).
  destruct (archived w _ _); [done|].
  destruct (export_trace (codes self) df) as [made [table|]]; [|done].
  unfold write_and_report. destruct (open_error _ _); [done|].
  destruct to_date as [| | | |b]; try done.
  intros [= <-].
  destruct (date_bounds _ a b Hmin Hmax) as (Ha & Hb & Hall).
  exists df, (map (pd.cell_at j) (pd.rows df)), a, b.
  split; [done|]. split; [by rewrite Hj|]. split; [done|]. split; [done|].
  split; [done|]. split; [|done].
  cbn [files after_print after_write]. rewrite lookup_insert_eq. eauto.
Qed.

End Name.

(** ** When the export succeeds *)

Lemma col_pos_app_l (c : string) (cols more : list string) (k : nat) :
  pd.col_pos c cols = Some k → pd.col_pos c (cols ++ more) = Some k.
Proof.
  revert k. induction cols as [|c' cols IH]; intros k; cbn; [done|].
  destruct (String.eqb c c'); [done|].
  destruct (pd.col_pos c cols) as [i|]; [|done]. cbn. intros [= <-].
  by rewrite (IH i eq_refl).
Qed.

Lemma cell_at_nulls (k n : nat) (lab : pd.cell) :
  pd.cell_at k (lab, repeat pd.Null n ++ [pd.Null]) = pd.Null.
Proof.
  unfold pd.cell_at. cbn [snd].
  change (repeat pd.Null n ++ [pd.Null]) with (repeat pd.Null n ++ repeat pd.Null 1).
  rewrite <- repeat_app.
  destruct (repeat pd.Null (n + 1) !! k) as [c|] eqn:E; [|done].
  apply list_elem_of_lookup_2, list_elem_of_In, repeat_spec in E. by subst.
Qed.

Lemma dates_same_kind (vals : list pd.cell) :
  Forall (λ c, c = pd.Null ∨ ∃ d, c = pd.Dt d) vals → same_kind vals.
Proof.
  intros Hall a b Ha Hb Hna Hnb. rewrite Forall_forall in Hall.
  destruct (Hall a Ha) as [->|[da ->]]; [done|].
  destruct (Hall b Hb) as [->|[db ->]]; done.
Qed.

Lemma extreme_dates (better : pd.cell → pd.cell → bool) (vals : list pd.cell) :
  (∀ a b, better a b = false → better b a = true) →
  (∀ a b c, better a b = true → better b c = true → better a c = true) →
  vals ≠ [] → Forall (λ c, ∃ d, c = pd.Dt d) vals →
  ∃ d, pd.extreme better vals = Ok (pd.Dt d).
Proof.
  intros Htot Htrans Hne Hall. unfold pd.extreme.
  rewrite (proj2 (comparable_same_kind vals)).
  2: { apply dates_same_kind. eapply Forall_impl; [exact Hall|]. eauto. }
  destruct (extreme_fold better vals Htot Htrans) as [[_ Hna]|(Hin & _ & _)].
  - destruct Hall as [|c vals [d ->] _]; [done|].
    apply Forall_cons in Hna as [Hna _]. done.
  - cbv zeta in Hin. rewrite Forall_forall in Hall.
    destruct (Hall _ Hin) as [d Hd]. exists d. by rewrite <- Hd.
Qed.

Section Succeeds.
Context `{Platform}.

Lemma export_plan_dates (df : pd.DataFrame) (file_name : option string) (jd : nat) :
  pd.col_pos "date" (pd.columns df) = Some jd → pd.rows df ≠ [] → dated jd df →
  ∃ a b fn, export_plan df file_name = Ok (pd.Dt a, pd.Dt b, fn).
Proof.
  intros Hjd Hne Hdates. unfold export_plan, pd.getattr. rewrite Hjd, rbind_ok.
  unfold pd.min, pd.max. cbn [pd.items]. rewrite map_map. cbn [snd].
  match goal with
  | |- context [pd.extreme pd.cell_leb ?v] => set (vals := v)
  end.
  assert (Hvals : Forall (λ c, ∃ d, c = pd.Dt d) vals)
    by (by apply Forall_fmap).
  assert (Hne' : vals ≠ [])
    by (subst vals; destruct (pd.rows df); done).
  destruct (extreme_dates pd.cell_leb _ cell_leb_total cell_leb_trans Hne' Hvals)
    as [a ->].
  destruct (extreme_dates (λ x y, pd.cell_leb y x) vals)
    as [b ->]; [intros x y; apply cell_leb_total
               |intros x y z ? ?; by eapply cell_leb_trans|done..|].
  rewrite !rbind_ok.
  exists a, b. unfold file_name_or_default, default_file_name.
  destruct file_name as [f|]; [destruct (String.eqb f "")|]; by eexists.
Qed.

(** The date of a line of a mapping entry is the date of its row, or
    missing. *)
Lemma entry_rows_dates (j jd : nat) (df : pd.DataFrame) (kv : pd.cell * pd.cell)
    (row : pd.Row) :
  rectangular df → (jd < length (pd.columns df))%nat → jd ≠ j → dated jd df →
  row ∈ entry_rows j df kv →
  row.1 = kv.2
  ∧ (pd.cell_at (pos_without j jd) row = pd.Null
     ∨ ∃ d, pd.cell_at (pos_without j jd) row = pd.Dt d).
Proof.
  intros Hrect Hlt Hne Hdates. unfold entry_rows.
  destruct (List.filter _ (pd.rows df)) as [|m ms] eqn:Hf.
  - intros ->%list_elem_of_singleton. split; [done|]. left. apply cell_at_nulls.
  - rewrite <- Hf. intros (r & -> & Hr)%list_elem_of_fmap.
    apply filter_elem in Hr as [Hr _]. split; [done|]. right.
    unfold dated in Hdates. unfold rectangular in Hrect.
    rewrite Forall_forall in Hdates, Hrect.
    destruct (Hdates r Hr) as [d Hd]. exists d. rewrite <- Hd.
    destruct r as [lab vals]. specialize (Hrect _ Hr). cbn [snd] in *.
    rewrite <- (cell_at_delete j jd lab kv.2 vals) by done.
    unfold pd.cell_at. cbn [snd]. rewrite lookup_app_l; [done|].
    destruct (decide (j < length vals)%nat).
    + rewrite length_delete_lt by done. unfold pos_without.
      destruct (Nat.ltb_spec jd j); lia.
    + unfold pos_without. destruct (Nat.ltb_spec jd j); [|lia].
      assert (is_Some (vals !! jd)) as [c Hc] by (apply lookup_lt_is_Some_2; lia).
      apply lookup_lt_is_Some_1. exists c.
      by rewrite list_lookup_delete_lt.
Qed.

Lemma export_table_succeeds (codes df : pd.DataFrame) (j jd : nat)
    (mapping : pd.Series) :
  rectangular df →
  pd.col_pos "segment" (pd.columns df) = Some j →
  pd.col_pos "date" (pd.columns df) = Some jd →
  "EMPTY" ∉ pd.columns df → "C_LOAD_PROFILE" ∉ pd.columns df →
  dated jd df →
  pd.getattr codes "C_LOAD_PROFILE" = Ok mapping →
  pd.comparable (map snd (pd.items mapping)) = true →
  ∃ table, export_table codes df = Ok table.
Proof.
  intros Hrect Hj Hjd Hempty Hcode Hdates Hm Hcmp.
  rewrite (export_table_eq _ _ j mapping) by
    (done || (intros Hin; by apply elem_of_delete in Hin)).
  assert (Hne : jd ≠ j).
  { intros ->. apply col_pos_Some in Hj, Hjd. congruence. }
  set (R := flat_map (entry_rows j df) (pd.items mapping)).
  assert (HR : ∀ row, row ∈ R →
            (∃ kv, kv ∈ pd.items mapping ∧ row.1 = kv.2)
            ∧ (pd.cell_at (pos_without j jd) row = pd.Null
               ∨ ∃ d, pd.cell_at (pos_without j jd) row = pd.Dt d)).
  { intros row Hrow. apply list_elem_of_In, in_flat_map in Hrow as (kv & Hkv & Hrow).
    apply list_elem_of_In in Hkv, Hrow.
    destruct (entry_rows_dates j jd df kv row) as [H1 H2];
      [done|by eapply col_pos_lt|done..|].
    split; [by exists kv|done]. }
  unfold pd.sort_values. cbn [pd.columns pd.rows].
  rewrite (col_pos_app_l _ _ _ _ (col_pos_delete _ _ _ _ _ Hj Hjd ltac:(done))).
  rewrite (proj2 (comparable_same_kind _)).
  2: { apply dates_same_kind, Forall_fmap, Forall_forall. intros row Hrow.
       by apply HR. }
  rewrite rbind_ok. unfold pd.sort_index. cbn [pd.columns pd.rows].
  rewrite (proj2 (comparable_same_kind _)); [by eexists|].
  apply comparable_same_kind in Hcmp.
  intros a b Ha Hb. apply list_elem_of_fmap in Ha as (ra & -> & Ha).
  apply list_elem_of_fmap in Hb as (rb & -> & Hb).
  apply sort_rows_elem, HR in Ha as [(kva & Hkva & ->) _].
  apply sort_rows_elem, HR in Hb as [(kvb & Hkvb & ->) _].
  apply Hcmp; apply list_elem_of_fmap; eauto.
Qed.


End Succeeds.

(** ** Tokens *)

Lemma lstrip_no_blank (s : string) : no_blank s → py.lstrip s = s.
Proof.
  destruct s as [|a s]; [done|]. intros [Ha _]%Forall_cons. cbn. by rewrite Ha.
Qed.

Lemma strip_no_blank (s : string) : no_blank s → py.strip s = s.
Proof.
  intros Hs. unfold py.strip, py.rstrip. rewrite (lstrip_no_blank s Hs).
  rewrite lstrip_no_blank.
  - rewrite list_ascii_of_string_of_list_ascii, rev_involutive.
    apply string_of_list_ascii_of_string.
  - unfold no_blank. rewrite list_ascii_of_string_of_list_ascii.
    apply Forall_forall. intros c Hc. apply list_elem_of_In, in_rev in Hc.
    unfold no_blank in Hs. rewrite Forall_forall in Hs. apply Hs.
    by apply list_elem_of_In.
Qed.

(** The tokens of [s.split()] are not empty and hold no blank. *)
Lemma split_ws_go_tokens (cur : list ascii) (s : string) (tok : string) :
  Forall (λ c, py.isspace c = false) cur →
  tok ∈ py.split_ws_go cur s → tok ≠ "" ∧ no_blank tok.
Proof.
  revert cur. induction s as [|a s IH]; intros cur Hcur; cbn.
  - destruct cur as [|c cur]; [by intros ?%elem_of_nil|].
    intros ->%list_elem_of_singleton. split.
    + intros E. apply (f_equal list_ascii_of_string) in E.
      rewrite list_ascii_of_string_of_list_ascii in E. cbn in E.
      by destruct (rev cur).
    + unfold no_blank. rewrite list_ascii_of_string_of_list_ascii.
      apply Forall_forall. intros x Hx. apply list_elem_of_In, in_rev in Hx.
      rewrite Forall_forall in Hcur. apply Hcur. by apply list_elem_of_In.
  - destruct (py.isspace a) eqn:Ha.
    + destruct cur as [|c cur]; [by apply IH|].
      rewrite elem_of_cons. intros [->|Hin]; [|by apply (IH [])].
      split.
      * intros E. apply (f_equal list_ascii_of_string) in E.
        rewrite list_ascii_of_string_of_list_ascii in E. cbn in E.
        by destruct (rev cur).
      * unfold no_blank. rewrite list_ascii_of_string_of_list_ascii.
        apply Forall_forall. intros x Hx. apply list_elem_of_In, in_rev in Hx.
        rewrite Forall_forall in Hcur. apply Hcur. by apply list_elem_of_In.
    + apply IH. by constructor.
Qed.

Lemma data_lines_token (data : string) (toks : list string) (tok : string) :
  toks ∈ data_lines data → tok ∈ toks → tok ≠ "".
Proof.
  unfold data_lines. intros (p & -> & _)%list_elem_of_fmap Htok.
  by apply (split_ws_go_tokens [] p.2 tok) in Htok as [Hne _]; [|constructor].
Qed.

(** X13. The segment of a row is the first token of its line without its first
    eight characters: a token of a data line is not empty and holds no
    blank, so that stripping it changes nothing. *)
Theorem segment_of_token (data : string) (toks : list string) (tok : string) :
  toks ∈ data_lines data → tok ∈ toks →
  tok ≠ "" ∧ py.strip tok = tok
  ∧ segment_of_cell (pd.Str tok) = Ok (pd.Str (py.slice_from 8 tok)).
Proof.
  unfold data_lines. intros (p & -> & _)%list_elem_of_fmap Htok.
  apply (split_ws_go_tokens [] p.2 tok) in Htok as [Hne Hnb]; [|constructor].
  split; [done|]. split; [by apply strip_no_blank|].
  cbn. by rewrite strip_no_blank.
Qed.

(** ** Requests, conflicts and written rows *)

Lemma insert_row_perm (key : pd.Row → pd.cell) (x : pd.Row) (l : list pd.Row) :
  pd.insert_row key x l ≡ₚ x :: l.
Proof.
  induction l as [|y l IH]; cbn; [done|].
  destruct (pd.cell_leb (key x) (key y)); [done|].
  rewrite IH. apply Permutation_swap.
Qed.

Lemma sort_rows_perm (key : pd.Row → pd.cell) (l : list pd.Row) :
  pd.sort_rows key l ≡ₚ l.
Proof.
  induction l as [|x l IH]; cbn; [done|].
  unfold pd.sort_rows in IH. by rewrite insert_row_perm, IH.
Qed.

Section More.
Context `{Platform}.

(** X12. [get_lp_series] returns [None] only when the fetcher raised an HTTP
    error; the warning is then the only thing it adds to the world the
    fetcher left. *)
Theorem get_lp_series_none_inv (self : Delmarva) (dt : Date) (ldc : string)
    (agg : bool) (w w' : World) :
  get_lp_series self dt ldc agg w = (Ok None, w') →
  ∃ status w1,
    _retrieve_raw_data self dt ldc w = (Raise (HTTPError status), w1)
    ∧ w' = after_print w1 [NoDataAvailable ldc dt].
Proof.
  rewrite get_lp_series_unfold. unfold series_outcome.
  destruct (_retrieve_raw_data self dt ldc w) as [[[data|]|e] w1]; [|done|].
  - by destruct (read_series agg (data_lines data)) as [[df [[]|e]]|e].
  - destruct e; try done. cbn. intros [= <-]. eauto.
Qed.

Lemma map_M_series_world (self : Delmarva) (ps : list (Date * string))
    (w : World) :
  let run := map_M (λ p : Date * string, get_lp_series self p.1 p.2 true) ps w in
  files run.2 = files w
  ∧ ∃ urls, sent run.2 = sent w ++ urls ∧ (length urls ≤ 2 * length ps)%nat.
Proof.
  revert w. induction ps as [|p ps IH]; intros w; cbn zeta.
  - split; [done|]. exists []. by rewrite app_nil_r.
  - cbn [map_M]. rewrite bind_run.
    destruct (get_lp_series_effect self p.1 p.2 true w)
      as (urls & msgs & made & Hw1 & Hurls & _).
    destruct (get_lp_series self p.1 p.2 true w) as [[o|e] w1]; cbn [snd] in Hw1.
    2: { subst w1. split; [done|]. exists urls. split; [done|]. cbn. lia. }
    rewrite bind_run. destruct (IH w1) as (Hfiles & urls2 & Hsent & Hlen).
    destruct (map_M _ ps w1) as [[os|e] w2]; cbn [fst snd mret M_ret] in *.
    + rewrite Hfiles, Hsent, Hw1. split; [done|]. exists (urls ++ urls2).
      cbn [sent after_new after_print after_requests].
      rewrite app_assoc, length_app. split; [done|]. cbn. lia.
    + rewrite Hfiles, Hsent, Hw1. split; [done|]. exists (urls ++ urls2).
      cbn [sent after_new after_print after_requests].
      rewrite app_assoc, length_app. split; [done|]. cbn. lia.
Qed.

Lemma load_all_world (series : list (option loc)) (w : World) :
  (map_M (λ o : option loc, match o with
                            | Some l => df ← load l; mret (Some df)
                            | None => mret None
                            end) series w).2 = w.
Proof.
  induction series as [|o series IH]; [done|].
  cbn [map_M]. rewrite bind_run. destruct o as [l|].
  - rewrite bind_run. unfold load at 1. destruct (heap w !! l); [|done].
    cbn [mret M_ret]. rewrite bind_run.
    destruct (map_M _ series w) as [[fs|e] w1]; cbn in *; done.
  - cbn [mret M_ret]. rewrite bind_run.
    destruct (map_M _ series w) as [[fs|e] w1]; cbn in *; done.
Qed.

(** X16. [get_lp_data] writes no file, and sends at most two requests for each
    day of the range and each LDC. *)
Theorem get_lp_data_requests (self : Delmarva) (from_dt to_dt : date_like)
    (a b : Date) (w : World) :
  as_date from_dt = Ok a → as_date to_dt = Ok b →
  files (get_lp_data self from_dt to_dt w).2 = files w
  ∧ ∃ urls, sent (get_lp_data self from_dt to_dt w).2 = sent w ++ urls
            ∧ (length urls
               ≤ 2 * length (combinations self (date_range a b)))%nat.
Proof.
  intros Ha Hb. unfold get_lp_data.
  rewrite (get_lp_data_range self from_dt to_dt a b w _ Ha Hb).
  fold (combinations self (date_range a b)).
  destruct (map_M_series_world self (combinations self (date_range a b)) w)
    as (Hfiles & urls & Hsent & Hlen).
  rewrite bind_run.
  destruct (map_M _ (combinations self (date_range a b)) w) as [[series|e] w1];
    cbn [fst snd] in *; [|split; [done|by exists urls]].
  rewrite bind_run. pose proof (load_all_world series w1) as Hload.
  destruct (map_M _ series w1) as [[frames|e] w2]; cbn [snd] in Hload; subst w2.
  2: { split; [done|by exists urls]. }
  unfold new_frame. rewrite bind_run, lift_run.
  destruct (pd.concat frames); cbn; (split; [done|by exists urls]).
Qed.

(** X26. A returned table comes with the warning about missing load
    profiles exactly when the text has a single data line; nothing else is
    printed. *)
Theorem get_lp_series_warns_single_line (self : Delmarva) (dt : Date)
    (ldc : string) (agg : bool) (w w' : World) (l : loc) :
  get_lp_series self dt ldc agg w = (Ok (Some l), w') →
  ∃ data w1,
    _retrieve_raw_data self dt ldc w = (Ok (Some data), w1)
    ∧ stdout w' = stdout w ++ match data_lines data with
                              | [_] => [PartialData dt]
                              | _ => []
                              end.
Proof.
  intros Hrun.
  apply get_lp_series_some in Hrun as (data & w1 & df & Hfetch & _ & _ & ->).
  exists data, w1. split; [done|].
  destruct (retrieve_world self dt ldc w) as (urls & Hw1 & _).
  rewrite Hfetch in Hw1. cbn [snd] in Hw1. subst w1.
  cbn [stdout after_new]. unfold warned.
  destruct (data_lines data) as [|first [|second rest]]; cbn;
    by rewrite ?app_nil_r.
Qed.

(** X22. The archive-conflict error is raised only by the archive check: the
    file named in it is the output file name, the check found it, and the
    world is as before the call. *)
Theorem export_conflict_only_when_archived (self : Delmarva) (lp_data : loc)
    (path file_name : option string) (w : World) (f : string) :
  (export_for_oracle self lp_data path file_name w).1
  = Raise (FileExistsError f) →
  (export_for_oracle self lp_data path file_name w).2 = w
  ∧ ∃ df from_date to_date,
      heap w !! lp_data = Some df
      ∧ export_plan df file_name = Ok (from_date, to_date, f)
      ∧ archived w (py.or_else path (dest_path self)) f = true.
Proof.
  rewrite export_unfold.
  destruct (heap w !! lp_data) as [df|]; [|done].
  destruct (export_plan df file_name) as [[[from_date to_date] fn]|e] eqn:Hp.
  2: { intros [= ->]. by apply export_plan_raises in Hp. }
  cbn zeta. destruct (archived w _ fn) eqn:Ha.
  { intros [= <-]. split; [done|]. by exists df, from_date, to_date. }
  destruct (export_trace (codes self) df) as [made [table|e]] eqn:Ht.
  2: { intros [= ->].
       assert (Hr : (export_trace (codes self) df).2 = Raise (FileExistsError f))
         by (by rewrite Ht).
       by apply export_trace_raises in Hr. }
  unfold write_and_report.
  destruct (open_error _ _) as [e|] eqn:He.
  { intros [= ->]. by eapply open_error_not_exists in He. }
  destruct from_date, to_date; done.
Qed.

(** X27. An output file that cannot be opened stops the export: when the
    table has its file name and its reshaped form and the archive check
    passes, but the folder of the output file does not exist (or a
    directory has the name of the file), the call raises the error of the
    open, writes no file and prints no message. *)
Theorem export_cannot_open (self : Delmarva) (lp_data : loc)
    (path file_name : option string) (w : World) (df table : pd.DataFrame)
    (from_date to_date : pd.cell) (fn : string) (e : exn) :
  heap w !! lp_data = Some df →
  export_plan df file_name = Ok (from_date, to_date, fn) →
  archived w (py.or_else path (dest_path self)) fn = false →
  export_table (codes self) df = Ok table →
  open_error w (py.or_else path (dest_path self) ++ fn)%string = Some e →
  (export_for_oracle self lp_data path file_name w).1 = Raise e
  ∧ files (export_for_oracle self lp_data path file_name w).2 = files w
  ∧ stdout (export_for_oracle self lp_data path file_name w).2 = stdout w.
Proof.
  intros Hl Hp Ha Ht He. rewrite export_unfold, Hl, Hp. cbn zeta. rewrite Ha.
  unfold export_table in Ht.
  destruct (export_trace (codes self) df) as [made r]. cbn [snd] in Ht. subst r.
  unfold write_and_report. by rewrite open_error_after_new, He.
Qed.

(** X23. The rows a successful export writes are, up to their order, the lines
    of the mapping entries, each as often as it occurs: a row of a mapped
    segment is written once for every entry of its segment, and nothing
    else is. *)
Theorem export_lines_permutation (self : Delmarva) (lp_data : loc)
    (path file_name : option string) (w w' : World) (df : pd.DataFrame) :
  heap w !! lp_data = Some df →
  rectangular df → "EMPTY" ∉ pd.columns df →
  export_for_oracle self lp_data path file_name w = (Ok tt, w') →
  ∃ from_date to_date fn table j mapping,
    export_plan df file_name = Ok (from_date, to_date, fn)
    ∧ files w' !! (py.or_else path (dest_path self) ++ fn)%string = Some table
    ∧ pd.col_pos "segment" (pd.columns df) = Some j
    ∧ pd.getattr (codes self) "C_LOAD_PROFILE" = Ok mapping
    ∧ pd.rows table ≡ₚ flat_map (entry_rows j df) (pd.items mapping).
Proof.
  intros Hl Hrect Hempty Hrun.
  apply export_ok_inv in Hrun as (df' & from_date & to_date & fn & table
                                  & Hl' & Hp & _ & Ht & Hfiles).
  rewrite Hl in Hl'. injection Hl' as <-.
  destruct (export_table_ok _ _ _ Ht) as (j & mapping & Hj & Hm & Hover).
  exists from_date, to_date, fn, table, j, mapping.
  split; [done|]. split; [by rewrite Hfiles, lookup_insert_eq|].
  split; [done|]. split; [done|].
  rewrite (export_table_eq _ _ j mapping) in Ht by done.
  unfold pd.sort_values in Ht. cbn [pd.columns pd.rows] in Ht.
  destruct (pd.col_pos "date" _); [|done].
  destruct (pd.comparable _); [|done]. rewrite rbind_ok in Ht.
  unfold pd.sort_index in Ht. cbn [pd.columns pd.rows] in Ht.
  destruct (pd.comparable _); [|done]. injection Ht as <-. cbn [pd.rows].
  by rewrite !sort_rows_perm.
Qed.

Lemma line_values_date (toks : list string) (vals : list pd.cell) :
  line_values toks = Some vals →
  ∃ s d xs, vals = pd.Str s :: pd.Dt d :: map pd.Num xs.
Proof.
  unfold line_values.
  destruct (toks !! 0%nat) as [seg|]; [|done]. cbn.
  destruct (toks !! 1%nat ≫= to_datetime (Some "%m/%d/%Y")) as [d|]; [|done]. cbn.
  destruct (mapM to_float (drop 2 toks)) as [xs|]; [|done]. cbn.
  intros [= <-]. eauto.
Qed.

(** X24. A table read from a valid raw text of a standard day can be
    exported: with a mapping whose codes compare with each other, the
    export of the table [get_lp_series] returns succeeds for every path and
    file name for which the archive check passes and the output file can
    be opened for writing (its folder exists and no directory has its
    name). *)
Theorem series_can_be_exported (self : Delmarva) (dt : Date) (ldc : string)
    (w w1 : World) (data : string) (mapping : pd.Series) :
  _retrieve_raw_data self dt ldc w = (Ok (Some data), w1) →
  valid_input 26 data →
  pd.getattr (codes self) "C_LOAD_PROFILE" = Ok mapping →
  pd.comparable (map snd (pd.items mapping)) = true →
  ∃ l w2 df,
    get_lp_series self dt ldc true w = (Ok (Some l), w2)
    ∧ heap w2 !! l = Some df
    ∧ ∀ path file_name,
        (∀ from_date to_date fn,
           export_plan df file_name = Ok (from_date, to_date, fn) →
           archived w2 (py.or_else path (dest_path self)) fn = false
           ∧ open_error w2 (py.or_else path (dest_path self) ++ fn)%string
             = None) →
        ∃ w3, export_for_oracle self l path file_name w2 = (Ok tt, w3).
Proof.
  intros Hfetch Hvalid Hm Hcmp.
  destruct (get_lp_series_values_run self dt ldc true w w1 data 26 hour_labels)
    as [Hrun Hsome]; [done..|].
  set (F := pd.mkFrame _ _) in Hrun. set (w2 := after_new _ [F]) in Hrun.
  exists (length (heap w1)), w2, F.
  assert (Hl : heap w2 !! (length (heap w1) : loc) = Some F).
  { subst w2. cbn [heap after_new]. apply list_lookup_middle. by rewrite warned_heap. }
  assert (Hshape : rectangular F).
  { pose proof Hrun as Hrun'.
    apply get_lp_series_some in Hrun' as (data' & w1' & df' & Hf' & Hread & _ & Hw2).
    rewrite Hfetch in Hf'. injection Hf' as <- <-.
    apply read_series_ok in Hread as (_ & _ & _ & _ & _ & _ & Hrect & _).
    subst w2. apply (f_equal heap) in Hw2. cbn [heap after_new] in Hw2.
    apply app_inv_head in Hw2. injection Hw2 as <-. done. }
  assert (Hrows : pd.rows F ≠ []).
  { destruct Hvalid as [Hne _]. subst F. cbn [pd.rows].
    destruct (data_lines data); done. }
  assert (Hdated : dated 1 F).
  { unfold dated. subst F. cbn [pd.rows]. apply Forall_forall. intros r Hr.
    apply elem_of_lookup_imap in Hr as (i & toks & -> & Hi).
    rewrite Forall_forall in Hsome.
    destruct (Hsome toks) as [vals Hvals]; [by eapply list_elem_of_lookup_2|].
    rewrite Hvals. apply line_values_date in Hvals as (s & d & xs & ->).
    by exists d. }
  assert (Hcols : pd.columns F = ["segment"; "date"] ++ hour_labels) by done.
  destruct (export_table_succeeds (codes self) F 0 1 mapping) as [table Ht];
    try done; try (by rewrite Hcols, hour_labels_eq);
    try (rewrite Hcols, hour_labels_eq; apply (bool_decide_unpack _);
         vm_compute; exact I).
  unfold export_table in Ht.
  destruct (export_trace (codes self) F) as [made r] eqn:Htrace.
  cbn [snd] in Ht. subst r.
  split; [exact Hrun|]. split; [exact Hl|]. intros path file_name Hfree.
  destruct (export_plan_dates F file_name 1) as (a & b & fn & Hp);
    [by rewrite Hcols, hour_labels_eq|done..|].
  destruct (Hfree _ _ _ Hp) as [Ha Hdir].
  rewrite export_unfold, Hl, Hp. cbn zeta. rewrite Ha, Htrace.
  unfold write_and_report. rewrite open_error_after_new, Hdir. by eexists.
Qed.

End More.

(** ** Unreadable tokens *)

Lemma map_result_elem {A B} (f : A → result B) (l : list A) (l' : list B) (a : A) :
  map_result f l = Ok l' → a ∈ l → ∃ b, f a = Ok b.
Proof.
  revert l'. induction l as [|x l IH]; intros l'; [by intros _ ?%elem_of_nil|].
  rewrite map_result_cons. destruct (f x) as [b|] eqn:Ex; [|done].
  rewrite rbind_ok. destruct (map_result f l) as [bs|]; [|done].
  intros _ [->|Hin]%elem_of_cons; [eauto|]. by eapply IH.
Qed.

(** When the conversion loop ends without error, every conversion has
    succeeded on every value of its column as it was before the loop. *)
Lemma convert_loop_cells (steps : list (string * (pd.cell → result pd.cell)))
    (df df' : pd.DataFrame) :
  NoDup (map fst steps) →
  convert_loop df (map (λ cg : string * (pd.cell → result pd.cell),
                          (cg.1, map_result cg.2)) steps) = (df', Ok tt) →
  ∀ c g j r, (c, g) ∈ steps → pd.col_pos c (pd.columns df) = Some j →
             r ∈ pd.rows df → ∃ v, g (pd.cell_at j r) = Ok v.
Proof.
  intros Hnd. revert df.
  induction steps as [|[c0 g0] rest IH]; intros df Hloop c g j r Hin Hj Hr;
    [by apply elem_of_nil in Hin|].
  cbn [map fst] in Hnd. apply NoDup_cons in Hnd as [Hc0 Hnd].
  cbn [map convert_loop fst snd] in Hloop.
  destruct (convert df (c0, map_result g0)) as [d1|] eqn:Hconv; [|done].
  unfold convert in Hconv. cbn [fst snd] in Hconv. unfold pd.getitem in Hconv.
  destruct (pd.col_pos c0 (pd.columns df)) as [j0|] eqn:Hj0; [|done].
  rewrite rbind_ok in Hconv.
  destruct (map_result g0 _) as [col'|] eqn:Hcol; [|done].
  rewrite rbind_ok in Hconv. unfold pd.setitem in Hconv. rewrite Hj0 in Hconv.
  destruct (Nat.eqb (length col') (length (pd.rows df))) eqn:Hlen; [|done].
  apply Nat.eqb_eq in Hlen. cbn [negb] in Hconv. injection Hconv as <-.
  apply elem_of_cons in Hin as [[= -> ->]|Hin].
  - rewrite Hj0 in Hj. injection Hj as <-.
    eapply (map_result_elem g0 _ _ (pd.cell_at j0 r)); [exact Hcol|].
    apply list_elem_of_fmap. eauto.
  - assert (Hne : j ≠ j0).
    { intros ->. apply col_pos_Some in Hj, Hj0. rewrite Hj in Hj0.
      injection Hj0 as ->. apply Hc0. apply list_elem_of_fmap. by exists (c0, g). }
    apply list_elem_of_lookup in Hr as [i Hi].
    destruct (lookup_lt_is_Some_2 col' i) as [v Hv].
    { rewrite Hlen. by eapply lookup_lt_Some. }
    destruct (IH Hnd _ Hloop c g j (r.1, <[j0 := v]> r.2) Hin Hj) as [x Hx].
    { cbn [pd.rows]. apply list_elem_of_lookup. exists i.
      rewrite lookup_zip_with, Hi. cbn. by rewrite Hv. }
    exists x. rewrite <- Hx. f_equal. unfold pd.cell_at. cbn [snd].
    by rewrite list_lookup_insert_ne.
Qed.

Lemma cell_at_token (lab : pd.cell) (n j : nat) (toks : list string) (tok : string) :
  toks !! j = Some tok → pd.cell_at j (lab, pd.pad n (map pd.Str toks)) = pd.Str tok.
Proof.
  intros Hj. unfold pd.cell_at, pd.pad. cbn [snd].
  rewrite lookup_app_l by (rewrite length_map; by eapply lookup_lt_Some).
  by rewrite list_lookup_fmap, Hj.
Qed.

Section Readable.
Context `{Platform}.

(** X25. A table is returned only when every token could be read: in the
    text behind a table that [get_lp_series] returns, the third and later
    tokens of every data line read as numbers, and the second token reads
    as a date of the format or is one of the spellings of a missing date
    ([NaT], [nan] and the like), which give a row without date. Any other
    token stops the call with an error. *)
Theorem get_lp_series_tokens_read (self : Delmarva) (dt : Date) (ldc : string)
    (agg : bool) (w w' : World) (l : loc) :
  get_lp_series self dt ldc agg w = (Ok (Some l), w') →
  ∃ data w1,
    _retrieve_raw_data self dt ldc w = (Ok (Some data), w1)
    ∧ Forall readable (data_lines data).
Proof.
  intros Hrun.
  apply get_lp_series_some in Hrun as (data & w1 & df & Hfetch & Hread & _ & _).
  exists data, w1. split; [done|].
  unfold read_series in Hread.
  destruct (data_lines data) as [|first rest] eqn:Hp; [done|].
  rewrite <- Hp in *. clear Hp.
  destruct (series_hours (length first)) as [hours|] eqn:Hh; [|done].
  rewrite rbind_ok in Hread.
  destruct (pd.frame _ _) as [df0|] eqn:Hf; [|done]. rewrite rbind_ok in Hread.
  apply frame_inv in Hf as (Hc0 & Hr0 & _ & Hle).
  destruct (convert_loop df0 (dtypes_of hours)) as [df1 [[]|e]] eqn:Hloop.
  2: { by injection Hread. }
  clear Hread. unfold dtypes_of in Hloop. rewrite dtypes_by_cell in Hloop.
  set (n := length (["segment"; "date"] ++ hours)) in *.
  assert (Hnd : NoDup (["segment"; "date"] ++ hours)
                ∧ NoDup (map fst (cell_steps hours))).
  { apply series_hours_inv in Hh as [[_ ->]|[_ ->]];
      rewrite ?dst_hours_eq, ?hour_labels_eq; split;
      apply (bool_decide_unpack _); vm_compute; exact I. }
  destruct Hnd as [Hcols Hsteps].
  pose proof (convert_loop_cells _ _ _ Hsteps Hloop) as Hcells.
  rewrite Hc0 in Hcells.
  apply Forall_lookup. intros i toks Hi.
  assert (Hrow : (pd.Int (Z.of_nat i), pd.pad n (map pd.Str toks)) ∈ pd.rows df0).
  { rewrite Hr0. by apply (elem_of_lookup_imap_2
                             (λ i toks, (pd.Int (Z.of_nat i),
                                         pd.pad n (map pd.Str toks)))). }
  split.
  - intros tok Htok.
    assert (Hin : ("date", date_of_cell) ∈ cell_steps hours).
    { unfold cell_steps. apply elem_of_app. right. by left. }
    destruct (Hcells _ _ 1%nat _ Hin eq_refl Hrow) as [v Hv].
    rewrite (cell_at_token _ _ _ _ _ Htok) in Hv. unfold date_of_cell in Hv.
    destruct (to_datetime _ tok); [by eauto|].
    right. apply dec_stable. intros Hn.
    rewrite bool_decide_eq_false_2 in Hv by done.
    assert (Hne : tok ≠ "").
    { eapply data_lines_token; by eapply list_elem_of_lookup_2. }
    apply String.eqb_neq in Hne. by rewrite Hne in Hv.
  - apply Forall_lookup. intros k tok Hk. rewrite lookup_drop in Hk.
    assert (Hlt : (2 + k < n)%nat).
    { rewrite Forall_forall in Hle.
      pose proof (Hle toks (list_elem_of_lookup_2 _ _ _ Hi)).
      apply lookup_lt_Some in Hk. subst n. lia. }
    destruct (lookup_lt_is_Some_2 hours k) as [h Hh'].
    { subst n. cbn in Hlt. lia. }
    assert (Hin : (h, float_of_cell) ∈ cell_steps hours).
    { unfold cell_steps. apply elem_of_app. left. apply list_elem_of_fmap.
      exists h. split; [done|]. by eapply list_elem_of_lookup_2. }
    assert (Hpos : pd.col_pos h (["segment"; "date"] ++ hours) = Some (2 + k)%nat)
      by (by apply col_pos_lookup).
    destruct (Hcells _ _ _ _ Hin Hpos Hrow) as [v Hv].
    rewrite (cell_at_token _ _ _ _ _ Hk) in Hv. cbn in Hv.
    destruct (to_float tok); [eauto|done].
Qed.

End Readable.

(** * The properties on sample inputs *)

(** ** The fetcher and the aggregator *)

Lemma sample_constructor :
  @__init__ (Sample.offline 404) None None Sample.with_codes_file
  = (Ok Sample.mapped, Sample.with_codes_file).
Proof. vm_compute. reflexivity. Qed.

(** C7 for [CNV], which has a state but is not supported. *)
Lemma retrieve_rejects_unsupported_ldc_witness :
  @_retrieve_raw_data (Sample.offline 404) Sample.mapped (mkDate 2017 1 1) "CNV"
     Sample.empty_world
  = (Raise AssertionError, Sample.empty_world)
  ∧ sent (@_retrieve_raw_data (Sample.offline 404) Sample.mapped
            (mkDate 2017 1 1) "CNV" Sample.empty_world).2
    = sent Sample.empty_world.
Proof.
  apply (@retrieve_rejects_unsupported_ldc (Sample.offline 404) None None
           Sample.with_codes_file Sample.with_codes_file Sample.mapped
           (mkDate 2017 1 1) "CNV" Sample.empty_world).
  - vm_compute. reflexivity.
  - discriminate.
  - discriminate.
Defined.

(** C5, at the failing input. The archive answers both requests with 204
    (no content): neither is a success, yet the fetcher raises nothing and
    returns [None], after which the parser fails on [data.replace] with an
    attribute error instead of skipping the day. *)
Theorem retrieve_returns_none_on_204 :
  @_retrieve_raw_data (Sample.offline 204) Sample.mapped (mkDate 2017 1 1) "CND"
     Sample.empty_world
  = (Ok None,
     after_requests Sample.empty_world
       ["http://www2.conectiv.com/cpd/tps/archives/de/2017/01/20170101DEA2.txt";
        "http://www2.conectiv.com/cpd/tps/archives/de/2017/01/20170101DEA1.txt"])
  ∧ (@get_lp_series (Sample.offline 204) Sample.mapped (mkDate 2017 1 1) "CND"
       true Sample.empty_world).1
    = Raise (AttributeError "replace").
Proof. split; vm_compute; reflexivity. Qed.

(** C6, as amended, on a page that holds the four header lines only. *)
Lemma no_data_line_is_value_error_witness :
  @get_lp_series (Sample.platform [(Sample.url_md "20170101" "2017" "01" 2,
                                    Sample.unlines Sample.header)]
                    404 "\" "C:\data")
     Sample.mapped (mkDate 2017 1 1) "CNM" true Sample.empty_world
  = (Raise (ValueError NoValidData),
     after_requests Sample.empty_world [Sample.url_md "20170101" "2017" "01" 2]).
Proof.
  apply (@no_data_line_is_value_error _ Sample.mapped (mkDate 2017 1 1) "CNM" true
           Sample.empty_world _ (Sample.unlines Sample.header)).
  - vm_compute. reflexivity.
  - vm_compute. repeat constructor.
Defined.

(** C6 as stated fails: one non-empty line, the fifth of the text, is a
    data line, and the parser returns a table. *)
Lemma blank_header_is_parsed :
  (length (nonempty_lines Sample.page_blank_header) < 5)%nat
  ∧ (@_retrieve_raw_data Sample.online Sample.mapped (mkDate 2017 1 2) "CNM"
       Sample.empty_world).1 = Ok (Some Sample.page_blank_header)
  ∧ (@get_lp_series Sample.online Sample.mapped (mkDate 2017 1 2) "CNM" true
       Sample.empty_world).1 = Ok (Some 0%nat)
  ∧ (@get_lp_series Sample.online Sample.mapped (mkDate 2017 1 2) "CNM" true
       Sample.empty_world).1 ≠ Raise (ValueError NoValidData).
Proof.
  split; [vm_compute; lia|]. split; [vm_compute; reflexivity|].
  split; [vm_compute; reflexivity|]. vm_compute. discriminate.
Qed.

Lemma offline_skips (status : Z) (dt : Date) (ldc : string) (w : World) :
  400 ≤ status < 600 → ldc ∈ ldcs Sample.mapped →
  ∃ w', @get_lp_series (Sample.offline status) Sample.mapped dt ldc true w
        = (Ok None, w').
Proof.
  intros Hs Hldc.
  assert (∃ state, dict_get (ldc_state Sample.mapped) ldc = Ok state) as [st Hst].
  { cbn in Hldc. rewrite !elem_of_cons, elem_of_nil in Hldc.
    destruct Hldc as [->|[->|[]]]; eexists; reflexivity. }
  eexists. unfold get_lp_series, try_except, _retrieve_raw_data.
  rewrite bool_decide_eq_true_2 by done. cbn [negb].
  rewrite (retrieve_loop_run _ _ _ _ _ Hst). cbn.
  assert ((status =? 200) = false) as -> by lia.
  assert (((400 <=? status) && (status <? 600)) = true) as -> by lia.
  reflexivity.
Qed.

(** The same over two days of an archive that answers 404. *)
Lemma get_lp_data_all_missing_witness :
  ∃ w', @get_lp_data (Sample.offline 404) Sample.mapped
          (AText "1/1/2017") (ADate (mkDate 2017 1 2)) Sample.empty_world
        = (Raise (ValueError AllObjectsNone), w').
Proof.
  apply (@get_lp_data_all_missing (Sample.offline 404) Sample.mapped
           (AText "1/1/2017") (ADate (mkDate 2017 1 2))
           (mkDate 2017 1 1) (mkDate 2017 1 2) Sample.empty_world).
  - vm_compute. reflexivity.
  - reflexivity.
  - intros [dt ldc] w Hin. apply offline_skips; [lia|].
    apply list_elem_of_In, in_flat_map in Hin as (dt' & _ & Hin).
    apply in_map_iff in Hin as (ldc' & [= _ <-] & Hin).
    by apply list_elem_of_In.
Defined.

(** C4, at the failing input. The archive answers every request with 404,
    so over two days the four combinations are all skipped, each with its
    warning, as [get_lp_series] means them to be. [get_lp_data] then hands
    four [None]s to [pd.concat], which raises [ValueError]: the call
    returns no table, where the skipped days call for an empty one. *)
Lemma all_missing_raises :
  stdout (@get_lp_data (Sample.offline 404) Sample.mapped
            (ADate (mkDate 2017 1 1)) (ADate (mkDate 2017 1 2))
            Sample.empty_world).2
  = [NoDataAvailable "CND" (mkDate 2017 1 1);
     NoDataAvailable "CNM" (mkDate 2017 1 1);
     NoDataAvailable "CND" (mkDate 2017 1 2);
     NoDataAvailable "CNM" (mkDate 2017 1 2)]
  ∧ (@get_lp_data (Sample.offline 404) Sample.mapped
       (ADate (mkDate 2017 1 1)) (ADate (mkDate 2017 1 2))
       Sample.empty_world).1
    = Raise (ValueError AllObjectsNone)
  ∧ ¬ (∃ l, (@get_lp_data (Sample.offline 404) Sample.mapped
               (ADate (mkDate 2017 1 1)) (ADate (mkDate 2017 1 2))
               Sample.empty_world).1 = Ok l).
Proof.
  split; [vm_compute; reflexivity|]. split; [vm_compute; reflexivity|].
  intros [l E]. vm_compute in E. discriminate.
Qed.

(** ** The parser and the exporter *)

(** C1 on the sample page of a daylight-saving day. *)
Lemma dst_hour2_columns_witness :
  (∃ l w2 df h02,
      @get_lp_series Sample.online Sample.mapped (mkDate 2016 11 6) "CNM" true
        Sample.empty_world = (Ok (Some l), w2)
      ∧ heap w2 !! l = Some df
      ∧ ("H02X" ∉ pd.columns df)
      ∧ pd.getitem df "H02" = Ok h02
      ∧ Forall2 (@hour2_total Sample.online) (data_lines Sample.page27) h02)
  ∧ (∃ l w2 df h02 h02x,
      @get_lp_series Sample.online Sample.mapped (mkDate 2016 11 6) "CNM" false
        Sample.empty_world = (Ok (Some l), w2)
      ∧ heap w2 !! l = Some df
      ∧ pd.getitem df "H02" = Ok h02
      ∧ pd.getitem df "H02X" = Ok h02x
      ∧ Forall2 (λ toks c, ∃ x, @hour_token Sample.online 3 toks = Some x
                                ∧ c = pd.Num x)
          (data_lines Sample.page27) h02
      ∧ Forall2 (λ toks c, ∃ y, @hour_token Sample.online 4 toks = Some y
                                ∧ c = pd.Num y)
          (data_lines Sample.page27) h02x).
Proof.
  apply (@dst_hour2_columns Sample.online Sample.mapped (mkDate 2016 11 6) "CNM"
           Sample.empty_world
           (after_requests Sample.empty_world
              [Sample.url_md "20161106" "2016" "11" 2])
           Sample.page27).
  - vm_compute. reflexivity.
  - split; [vm_compute; discriminate|].
    set (parsed := data_lines Sample.page27). vm_compute in parsed. subst parsed.
    repeat constructor;
      try (eexists; split; [reflexivity|]); eexists; vm_compute; reflexivity.
Defined.

(** C2 as stated fails: three mapped segments on three days are written in
    the order of their codes 7, 12, 98, which is the reverse of the order
    of their dates. *)
Lemma export_not_sorted_by_date :
  ∃ table,
    (@export_for_oracle (Sample.offline 404)
       Sample.mapped 0%nat (Some "C:\out\") None
       Sample.with_combined).1 = Ok tt
    ∧ files (@export_for_oracle (Sample.offline 404)
               Sample.mapped 0%nat (Some "C:\out\") None
               Sample.with_combined).2 !! "C:\out\Conectiv_20170101.txt"
      = Some table
    ∧ map (λ line, (code_of line, date_of line)) (pd.records table)
      = [(pd.Int 7, pd.Dt (mkDate 2017 1 3));
         (pd.Int 12, pd.Dt (mkDate 2017 1 2));
         (pd.Int 98, pd.Dt (mkDate 2017 1 1))]
    ∧ ¬ sorted_by_date_then_code (pd.records table).
Proof.
  eexists. split; [vm_compute; reflexivity|].
  split; [vm_compute; reflexivity|]. split; [vm_compute; reflexivity|].
  intros Hs. apply StronglySorted_inv in Hs as [_ Hall].
  apply Forall_inv in Hall. vm_compute in Hall. discriminate.
Qed.

(** C2, as amended, on the same export. *)
Lemma export_sorted_by_code_witness :
  ∃ df from_date to_date fn table,
    heap Sample.with_combined !! 0%nat = Some df
    ∧ export_plan df None = Ok (from_date, to_date, fn)
    ∧ files (@export_for_oracle (Sample.offline 404)
               Sample.mapped 0%nat (Some "C:\out\") None
               Sample.with_combined).2
        !! (py.or_else (Some "C:\out\") (dest_path Sample.mapped) ++ fn)%string
      = Some table
    ∧ sorted_by_code (pd.records table).
Proof.
  apply (@export_sorted_by_code (Sample.offline 404)
           Sample.mapped 0%nat (Some "C:\out\") None
           Sample.with_combined).
  vm_compute. reflexivity.
Defined.

(** C3 on a table with one mapped segment and one segment without entry. *)
Lemma export_join_lines_witness :
  ∃ from_date to_date fn table j mapping,
    export_plan Sample.partial None = Ok (from_date, to_date, fn)
    ∧ files (@export_for_oracle (Sample.offline 404)
               Sample.mapped 0%nat (Some "C:\out\") None
               Sample.with_partial).2
        !! (py.or_else (Some "C:\out\") (dest_path Sample.mapped) ++ fn)%string
      = Some table
    ∧ pd.col_pos "segment" (pd.columns Sample.partial) = Some j
    ∧ pd.getattr (codes Sample.mapped) "C_LOAD_PROFILE" = Ok mapping
    ∧ (∀ line, line ∈ pd.records table
               ↔ ∃ kv, kv ∈ pd.items mapping
                       ∧ line_of_entry j Sample.partial kv line)
    ∧ export_table (codes Sample.mapped) (without_unmapped j mapping Sample.partial)
      = Ok table
    ∧ (∀ kv, kv ∈ pd.items mapping →
             (∀ r, r ∈ pd.rows Sample.partial →
                   pd.key_eqb (pd.cell_at j r) kv.1 = false) →
             null_line (length (pd.columns Sample.partial) - 1) kv.2
             ∈ pd.records table).
Proof.
  apply (@export_join_lines (Sample.offline 404)
           Sample.mapped 0%nat (Some "C:\out\") None
           Sample.with_partial).
  - reflexivity.
  - repeat constructor.
  - apply (bool_decide_unpack _). vm_compute. exact I.
  - vm_compute. reflexivity.
Defined.

(** The lines of that file: the two entries without a row have their line
    of missing values, the mapped row has its line, and the row of the
    segment without entry has none. *)
Example export_partial_lines :
  pd.records <$> files (@export_for_oracle (Sample.offline 404)
                          Sample.mapped 0%nat (Some "C:\out\")
                          None Sample.with_partial).2
                   !! "C:\out\Conectiv_20170101.txt"
  = Some [null_line 25 (pd.Int 7);
          null_line 25 (pd.Int 12);
          mapped_line 0 (pd.Int 98)
            (Sample.day_row 0 "MDRES" (mkDate 2017 1 1) 1.5)].
Proof. vm_compute. reflexivity. Qed.

(** C8, at the failing input. The export runs with the default path, the
    working directory [C:\data], whose [Archive] subdirectory holds a file
    with the name of the output file. The check looks for the directory
    [C:\dataArchive] instead, finds none, and the export goes on: it raises
    nothing and writes [C:\dataConectiv_20170101.txt], beside the working
    directory. *)
Theorem export_misses_archive_subdirectory :
  @__init__ (Sample.offline 404) None None Sample.with_codes_file
  = (Ok Sample.mapped, Sample.with_codes_file)
  ∧ (∃ from_date to_date,
        export_plan Sample.combined None
        = Ok (from_date, to_date, "Conectiv_20170101.txt"))
  ∧ @in_archive (Sample.offline 404) Sample.with_archive
      (py.or_else None (dest_path Sample.mapped)) "Conectiv_20170101.txt" = true
  ∧ archived Sample.with_archive (py.or_else None (dest_path Sample.mapped))
      "Conectiv_20170101.txt" = false
  ∧ (@export_for_oracle (Sample.offline 404)
       Sample.mapped 0%nat None None Sample.with_archive).1
    = Ok tt
  ∧ is_Some (files (@export_for_oracle (Sample.offline 404)
                      Sample.mapped 0%nat None None
                      Sample.with_archive).2
               !! "C:\dataConectiv_20170101.txt").
Proof.
  split; [vm_compute; reflexivity|].
  split; [eexists _, _; vm_compute; reflexivity|].
  split; [vm_compute; reflexivity|]. split; [vm_compute; reflexivity|].
  split; [vm_compute; reflexivity|]. vm_compute. eauto.
Qed.

(** C9 on the same export: no directory [C:\dataArchive], so no conflict is
    raised and the file is written although the archived file exists. *)
Lemma export_without_archive_directory_witness :
  (∀ f, (@export_for_oracle (Sample.offline 404)
           Sample.mapped 0%nat None None Sample.with_archive).1
        ≠ Raise (FileExistsError f))
  ∧ ∃ table,
      export_table (codes Sample.mapped) Sample.combined = Ok table
      ∧ files (@export_for_oracle (Sample.offline 404)
                 Sample.mapped 0%nat None None
                 Sample.with_archive).2 !! "C:\dataConectiv_20170101.txt"
        = Some table.
Proof.
  destruct (@export_without_archive_directory (Sample.offline 404)
              Sample.mapped 0%nat None None
              Sample.with_archive) as [Hnone Hwritten].
  { apply (bool_decide_unpack _). vm_compute. exact I. }
  split; [exact Hnone|]. eexists. split; [vm_compute; reflexivity|].
  eapply (Hwritten Sample.combined _ _ "Conectiv_20170101.txt").
  - reflexivity.
  - vm_compute. reflexivity.
  - vm_compute. reflexivity.
  - vm_compute. reflexivity.
Defined.

(** ** More sample runs *)

(** X2 with an output path that ends with the separator. *)
Lemma export_archived_raises_witness :
  @export_for_oracle (Sample.offline 404)
    Sample.mapped 0%nat (Some "C:\out\") None
    Sample.with_archive_out
  = (Raise (FileExistsError "Conectiv_20170101.txt"), Sample.with_archive_out).
Proof.
  apply (@export_archived_raises (Sample.offline 404)
           Sample.mapped 0%nat (Some "C:\out\") None
           Sample.with_archive_out Sample.combined
           (pd.Dt (mkDate 2017 1 1)) (pd.Dt (mkDate 2017 1 3))).
  - reflexivity.
  - vm_compute. reflexivity.
  - vm_compute. reflexivity.
Defined.

(** X1 on a day whose revised file is missing and whose original file is
    served. *)
Lemma retrieve_run_witness :
  @_retrieve_raw_data Sample.online Sample.mapped (mkDate 2017 1 1) "CNM"
     Sample.empty_world
  = (Ok (Some Sample.page26),
     after_requests Sample.empty_world
       [Sample.url_md "20170101" "2017" "01" 2;
        Sample.url_md "20170101" "2017" "01" 1]).
Proof.
  exact (@retrieve_run Sample.online Sample.mapped (mkDate 2017 1 1) "CNM" "MD"
           Sample.empty_world
           ltac:(apply (bool_decide_unpack _); vm_compute; exact I) eq_refl).
Defined.

(** X3 on an archive that answers 404. *)
Lemma get_lp_series_skips_witness :
  @get_lp_series (Sample.offline 404) Sample.mapped (mkDate 2017 1 1) "CNM" true
     Sample.empty_world
  = (Ok None,
     after_print
       (after_requests Sample.empty_world
          [Sample.url_md "20170101" "2017" "01" 2;
           Sample.url_md "20170101" "2017" "01" 1])
       [NoDataAvailable "CNM" (mkDate 2017 1 1)]).
Proof.
  apply (@get_lp_series_skips (Sample.offline 404) Sample.mapped (mkDate 2017 1 1)
           "CNM" true Sample.empty_world _ 404).
  vm_compute. reflexivity.
Defined.

(** ** Sample runs: constructor, parser, aggregator and exporter *)

(** X4 in a world without files. *)
Lemma init_without_codes_file_witness :
  @__init__ (Sample.offline 404) None (Some "C:\out\") Sample.empty_world
  = (Ok (mkDelmarva "C:\out\" [("CNM", "MD"); ("CND", "DE"); ("CNV", "VA")]
           "C:\data" "delmarva_lp_code_mapping.csv" pd.empty_frame ["CND"; "CNM"]),
     after_print Sample.empty_world
       [CodesFileNotFound "C:\data\delmarva_lp_code_mapping.csv"]).
Proof.
  apply (@init_without_codes_file (Sample.offline 404) None (Some "C:\out\")
           Sample.empty_world).
  - vm_compute. reflexivity.
  - apply (bool_decide_unpack _). vm_compute. exact I.
Defined.

(** X5 with the sample mapping file. *)
Lemma init_reads_code_mapping_witness :
  ∃ self,
    @__init__ (Sample.offline 404) None None Sample.with_codes_file
    = (Ok self, Sample.with_codes_file)
    ∧ dest_path self = "C:\data"
    ∧ pd.getattr (codes self) "C_LOAD_PROFILE"
      = Ok (pd.mkSeries "C_LOAD_PROFILE"
              [(pd.Str "MDRES", pd.Int 98); (pd.Str "MDGSL", pd.Int 12);
               (pd.Str "MDXXX", pd.Int 7)]).
Proof.
  apply (@init_reads_code_mapping (Sample.offline 404) None None
           Sample.with_codes_file Sample.codes_table 0 1).
  - vm_compute. reflexivity.
  - reflexivity.
  - reflexivity.
Defined.

(** X7 on the sample page of a standard day. *)
Lemma get_lp_series_values_witness :
  ∃ l w2 df,
    @get_lp_series Sample.online Sample.mapped (mkDate 2017 1 1) "CNM" true
      Sample.empty_world = (Ok (Some l), w2)
    ∧ heap w2 !! l = Some df
    ∧ pd.columns df = ["segment"; "date"] ++ hour_labels
    ∧ Forall2 (λ toks (r : pd.Row), @line_values Sample.online toks = Some r.2)
        (data_lines Sample.page26) (pd.rows df).
Proof.
  apply (@get_lp_series_values Sample.online Sample.mapped (mkDate 2017 1 1) "CNM"
           true Sample.empty_world
           (after_requests Sample.empty_world
              [Sample.url_md "20170101" "2017" "01" 2;
               Sample.url_md "20170101" "2017" "01" 1])
           Sample.page26 26 hour_labels).
  - vm_compute. reflexivity.
  - reflexivity.
  - split; [vm_compute; discriminate|].
    set (parsed := data_lines Sample.page26). vm_compute in parsed. subst parsed.
    repeat constructor;
      try (eexists; split; [reflexivity|]); eexists; vm_compute; reflexivity.
  - discriminate.
Defined.

(** X8 on the sample page of a daylight-saving day, read without
    aggregation. *)
Lemma get_lp_series_shape_witness :
  ∃ data w1 first rest df,
    @_retrieve_raw_data Sample.online Sample.mapped (mkDate 2016 11 6) "CNM"
      Sample.empty_world = (Ok (Some data), w1)
    ∧ data_lines data = first :: rest
    ∧ heap (@get_lp_series Sample.online Sample.mapped (mkDate 2016 11 6) "CNM"
              false Sample.empty_world).2 !! 0%nat = Some df
    ∧ pd.columns df
      = ["segment"; "date"]
        ++ (if (length first =? 27)%nat && negb false
            then list_insert_at 2 "H02X" hour_labels else hour_labels)
    ∧ rectangular df
    ∧ map fst (pd.rows df) = imap (λ i _, pd.Int (Z.of_nat i)) (data_lines data).
Proof.
  apply (@get_lp_series_shape Sample.online Sample.mapped (mkDate 2016 11 6) "CNM"
           false Sample.empty_world).
  vm_compute. reflexivity.
Defined.

(** X9 on a page whose only data line has three tokens. *)
Lemma get_lp_series_bad_width_witness :
  @get_lp_series (Sample.serving Sample.page_narrow) Sample.mapped
     (mkDate 2017 1 1) "CNM" true Sample.empty_world
  = (Raise (ValueError InvalidDataStructure),
     after_print
       (after_requests Sample.empty_world [Sample.url_md "20170101" "2017" "01" 2])
       [PartialData (mkDate 2017 1 1)]).
Proof.
  apply (@get_lp_series_bad_width (Sample.serving Sample.page_narrow)
           Sample.mapped (mkDate 2017 1 1) "CNM" true Sample.empty_world
           (after_requests Sample.empty_world
              [Sample.url_md "20170101" "2017" "01" 2])
           Sample.page_narrow ["20170101MDRES"; "01/01/2017"; "1.000"] []).
  - vm_compute. reflexivity.
  - vm_compute. reflexivity.
  - discriminate.
  - discriminate.
Defined.

(** X10 on a page whose second data line has 27 tokens after a first one
    of 26. *)
Lemma get_lp_series_wider_line_witness :
  @get_lp_series (Sample.serving Sample.page_ragged) Sample.mapped
     (mkDate 2017 1 1) "CNM" true Sample.empty_world
  = (Raise (ValueError ShapeMismatch),
     after_requests Sample.empty_world [Sample.url_md "20170101" "2017" "01" 2]).
Proof.
  apply (@get_lp_series_wider_line (Sample.serving Sample.page_ragged)
           Sample.mapped (mkDate 2017 1 1) "CNM" true Sample.empty_world
           (after_requests Sample.empty_world
              [Sample.url_md "20170101" "2017" "01" 2])
           Sample.page_ragged
           (py.split_ws (Sample.row26 "MDRES" "01/01/2017"))
           (py.split_ws (Sample.row27 "MDGSL" "01/01/2017"))
           [py.split_ws (Sample.row27 "MDGSL" "01/01/2017")]).
  - vm_compute. reflexivity.
  - vm_compute. reflexivity.
  - left. vm_compute. reflexivity.
  - apply list_elem_of_singleton. reflexivity.
  - apply Nat.ltb_lt. vm_compute. reflexivity.
Defined.

(** X12 on an archive that answers 404. *)
Lemma get_lp_series_none_inv_witness :
  ∃ status w1,
    @_retrieve_raw_data (Sample.offline 404) Sample.mapped (mkDate 2017 1 1) "CND"
      Sample.empty_world = (Raise (HTTPError status), w1)
    ∧ (@get_lp_series (Sample.offline 404) Sample.mapped (mkDate 2017 1 1) "CND"
         true Sample.empty_world).2
      = after_print w1 [NoDataAvailable "CND" (mkDate 2017 1 1)].
Proof.
  apply (@get_lp_series_none_inv (Sample.offline 404) Sample.mapped
           (mkDate 2017 1 1) "CND" true Sample.empty_world).
  vm_compute. reflexivity.
Defined.

(** X13 for the first token of the first data line of the sample page. *)
Lemma segment_of_token_witness :
  "20170101MDRES" ≠ "" ∧ py.strip "20170101MDRES" = "20170101MDRES"
  ∧ segment_of_cell (pd.Str "20170101MDRES") = Ok (pd.Str "MDRES").
Proof.
  apply (segment_of_token Sample.page26
           (py.split_ws (Sample.row26 "MDRES" "01/01/2017")) "20170101MDRES").
  - apply (bool_decide_unpack _). vm_compute. exact I.
  - apply (bool_decide_unpack _). vm_compute. exact I.
Defined.

(** X14 for 1 January 2017: nothing for Delaware, the sample page for
    Maryland. *)
Lemma get_lp_data_run_witness :
  @get_lp_data Sample.online Sample.mapped (AText "1/1/2017")
     (ADate (mkDate 2017 1 1)) Sample.empty_world
  = match map_M (λ p : Date * string,
                   @get_lp_series Sample.online Sample.mapped p.1 p.2 true)
            (combinations Sample.mapped
               (date_range (mkDate 2017 1 1) (mkDate 2017 1 1)))
            Sample.empty_world with
    | (Raise e, w1) => (Raise e, w1)
    | (Ok series, w1) =>
        match available (heap w1) series with
        | [] => (Raise (ValueError (match series with
                                    | [] => NoObjectsToConcatenate
                                    | _ => AllObjectsNone
                                    end)), w1)
        | frames =>
            (Ok (length (heap w1)),
             after_new w1 [pd.mkFrame series_columns
                             (pd.RangeIndex (flat_map pd.rows frames))])
        end
    end.
Proof.
  apply (@get_lp_data_run Sample.online Sample.mapped (AText "1/1/2017")
           (ADate (mkDate 2017 1 1)) (mkDate 2017 1 1) (mkDate 2017 1 1)
           Sample.empty_world).
  - vm_compute. reflexivity.
  - reflexivity.
Defined.

(** X15 for a range from 2 January back to 1 January. *)
Lemma get_lp_data_empty_range_witness :
  @get_lp_data (Sample.offline 404) Sample.mapped (ADate (mkDate 2017 1 2))
     (ADate (mkDate 2017 1 1)) Sample.empty_world
  = (Raise (ValueError NoObjectsToConcatenate), Sample.empty_world).
Proof.
  apply (@get_lp_data_empty_range (Sample.offline 404) Sample.mapped
           (ADate (mkDate 2017 1 2)) (ADate (mkDate 2017 1 1))
           (mkDate 2017 1 2) (mkDate 2017 1 1) Sample.empty_world).
  - reflexivity.
  - reflexivity.
  - vm_compute. reflexivity.
Defined.

(** X16 over two days of an archive that answers 404: eight requests at
    most. *)
Lemma get_lp_data_requests_witness :
  files (@get_lp_data (Sample.offline 404) Sample.mapped (ADate (mkDate 2017 1 1))
           (ADate (mkDate 2017 1 2)) Sample.empty_world).2
  = files Sample.empty_world
  ∧ ∃ urls,
      sent (@get_lp_data (Sample.offline 404) Sample.mapped
              (ADate (mkDate 2017 1 1)) (ADate (mkDate 2017 1 2))
              Sample.empty_world).2
      = sent Sample.empty_world ++ urls
      ∧ (length urls
         ≤ 2 * length (combinations Sample.mapped
                         (date_range (mkDate 2017 1 1) (mkDate 2017 1 2))))%nat.
Proof.
  apply (@get_lp_data_requests (Sample.offline 404) Sample.mapped
           (ADate (mkDate 2017 1 1)) (ADate (mkDate 2017 1 2))
           (mkDate 2017 1 1) (mkDate 2017 1 2) Sample.empty_world).
  - reflexivity.
  - reflexivity.
Defined.

(** X17 for the object built without a mapping file. *)
Lemma export_needs_code_mapping_witness :
  (∃ e, (@export_for_oracle (Sample.offline 404)
           Sample.unmapped 0%nat (Some "C:\out\") None
           Sample.with_combined).1 = Raise e)
  ∧ files (@export_for_oracle (Sample.offline 404)
             Sample.unmapped 0%nat (Some "C:\out\") None
             Sample.with_combined).2 = files Sample.with_combined
  ∧ (∀ df plan,
       heap Sample.with_combined !! 0%nat = Some df →
       export_plan df None = Ok plan →
       archived Sample.with_combined
         (py.or_else (Some "C:\out\") (dest_path Sample.unmapped)) plan.2 = false →
       is_Some (pd.col_pos "segment" (pd.columns df)) →
       (@export_for_oracle (Sample.offline 404)
          Sample.unmapped 0%nat (Some "C:\out\") None
          Sample.with_combined).1
       = Raise (AttributeError "C_LOAD_PROFILE")).
Proof.
  apply (@export_needs_code_mapping (Sample.offline 404)
           Sample.unmapped 0%nat (Some "C:\out\") None
           Sample.with_combined).
  reflexivity.
Defined.

(** X19 on the export of the combined table. *)
Lemma export_twice_witness :
  ∃ w'',
    @export_for_oracle (Sample.offline 404)
      Sample.mapped 0%nat (Some "C:\out\") None
      (@export_for_oracle (Sample.offline 404)
         Sample.mapped 0%nat (Some "C:\out\") None
         Sample.with_combined).2
    = (Ok tt, w'')
    ∧ files w''
      = files (@export_for_oracle (Sample.offline 404)
                 Sample.mapped 0%nat (Some "C:\out\") None
                 Sample.with_combined).2.
Proof.
  apply (@export_twice (Sample.offline 404)
           Sample.mapped 0%nat (Some "C:\out\") None
           Sample.with_combined).
  vm_compute. reflexivity.
Defined.

(** X20 on the same export: the earliest date is 1 January 2017, the
    latest 3 January. *)
Lemma export_default_file_name_witness :
  ∃ df dates a b,
    heap Sample.with_combined !! 0%nat = Some df
    ∧ pd.getitem df "date" = Ok dates
    ∧ pd.Dt a ∈ dates ∧ pd.Dt b ∈ dates
    ∧ (∀ d, pd.Dt d ∈ dates → date_leb a d = true ∧ date_leb d b = true)
    ∧ let out := (py.or_else (Some "C:\out\") (dest_path Sample.mapped)
                  ++ "Conectiv_" ++ strftime_Ymd a ++ ".txt")%string in
      is_Some (files (@export_for_oracle (Sample.offline 404)
                        Sample.mapped 0%nat (Some "C:\out\") None
                        Sample.with_combined).2 !! out)
      ∧ stdout (@export_for_oracle (Sample.offline 404)
                  Sample.mapped 0%nat (Some "C:\out\") None
                  Sample.with_combined).2
        = stdout Sample.with_combined ++ [Downloaded a b out].
Proof.
  apply (@export_default_file_name (Sample.offline 404)
           Sample.mapped 0%nat (Some "C:\out\")
           Sample.with_combined).
  vm_compute. reflexivity.
Defined.


(** X27 on an output path whose directory does not exist. *)
Lemma export_cannot_open_witness :
  (@export_for_oracle (Sample.offline 404)
     Sample.mapped 0%nat (Some "C:\nowhere\") None Sample.with_combined).1
  = Raise (OSError "C:\nowhere\Conectiv_20170101.txt")
  ∧ files (@export_for_oracle (Sample.offline 404)
             Sample.mapped 0%nat (Some "C:\nowhere\") None
             Sample.with_combined).2 = files Sample.with_combined
  ∧ stdout (@export_for_oracle (Sample.offline 404)
              Sample.mapped 0%nat (Some "C:\nowhere\") None
              Sample.with_combined).2 = stdout Sample.with_combined.
Proof.
  eapply (@export_cannot_open (Sample.offline 404) Sample.mapped 0%nat
            (Some "C:\nowhere\") None Sample.with_combined Sample.combined).
  - reflexivity.
  - vm_compute. reflexivity.
  - vm_compute. reflexivity.
  - vm_compute. reflexivity.
  - vm_compute. reflexivity.
Defined.

(** X22 with an output path that ends with the separator. *)
Lemma export_conflict_only_when_archived_witness :
  (@export_for_oracle (Sample.offline 404)
     Sample.mapped 0%nat (Some "C:\out\") None
     Sample.with_archive_out).2 = Sample.with_archive_out
  ∧ ∃ df from_date to_date,
      heap Sample.with_archive_out !! 0%nat = Some df
      ∧ export_plan df None = Ok (from_date, to_date, "Conectiv_20170101.txt")
      ∧ archived Sample.with_archive_out
          (py.or_else (Some "C:\out\") (dest_path Sample.mapped))
          "Conectiv_20170101.txt" = true.
Proof.
  apply (@export_conflict_only_when_archived (Sample.offline 404)
           Sample.mapped 0%nat (Some "C:\out\")
           None Sample.with_archive_out "Conectiv_20170101.txt").
  vm_compute. reflexivity.
Defined.

(** X23 on a table with one mapped segment and one segment without
    entry. *)
Lemma export_lines_permutation_witness :
  ∃ from_date to_date fn table j mapping,
    export_plan Sample.partial None = Ok (from_date, to_date, fn)
    ∧ files (@export_for_oracle (Sample.offline 404)
               Sample.mapped 0%nat (Some "C:\out\") None
               Sample.with_partial).2
        !! (py.or_else (Some "C:\out\") (dest_path Sample.mapped) ++ fn)%string
      = Some table
    ∧ pd.col_pos "segment" (pd.columns Sample.partial) = Some j
    ∧ pd.getattr (codes Sample.mapped) "C_LOAD_PROFILE" = Ok mapping
    ∧ pd.rows table ≡ₚ flat_map (entry_rows j Sample.partial) (pd.items mapping).
Proof.
  apply (@export_lines_permutation (Sample.offline 404)
           Sample.mapped 0%nat (Some "C:\out\") None
           Sample.with_partial).
  - reflexivity.
  - repeat constructor.
  - apply (bool_decide_unpack _). vm_compute. exact I.
  - vm_compute. reflexivity.
Defined.

(** X24 on the sample page of a standard day, exported to a directory
    with an archive that does not hold the file. *)
Lemma series_can_be_exported_witness :
  ∃ l w2 w3,
    @get_lp_series Sample.online Sample.mapped (mkDate 2017 1 1) "CNM" true
      Sample.with_out_dir = (Ok (Some l), w2)
    ∧ @export_for_oracle Sample.online Sample.mapped l (Some "C:\out\") None w2
      = (Ok tt, w3).
Proof.
  destruct (@series_can_be_exported Sample.online Sample.mapped (mkDate 2017 1 1)
              "CNM" Sample.with_out_dir
              (after_requests Sample.with_out_dir
                 [Sample.url_md "20170101" "2017" "01" 2;
                  Sample.url_md "20170101" "2017" "01" 1])
              Sample.page26
              (pd.mkSeries "C_LOAD_PROFILE"
                 [(pd.Str "MDRES", pd.Int 98); (pd.Str "MDGSL", pd.Int 12);
                  (pd.Str "MDXXX", pd.Int 7)]))
    as (l & w2 & df & Hrun & Hl & Hexport).
  - vm_compute. reflexivity.
  - split; [vm_compute; discriminate|].
    set (parsed := data_lines Sample.page26). vm_compute in parsed. subst parsed.
    repeat constructor;
      try (eexists; split; [reflexivity|]); eexists; vm_compute; reflexivity.
  - reflexivity.
  - reflexivity.
  - destruct (Hexport (Some "C:\out\") None) as [w3 Hw3].
    + vm_compute in Hrun. injection Hrun as <- <-.
      vm_compute in Hl. injection Hl as <-.
      intros from_date to_date fn Hp. vm_compute in Hp. injection Hp as <- <- <-.
      split; vm_compute; reflexivity.
    + exists l, w2, w3. split; [exact Hrun|exact Hw3].
Defined.

(** X26 on a page with a single data line. *)
Lemma get_lp_series_warns_single_line_witness :
  ∃ data w1,
    @_retrieve_raw_data Sample.online Sample.mapped (mkDate 2017 1 2) "CNM"
      Sample.empty_world = (Ok (Some data), w1)
    ∧ stdout (@get_lp_series Sample.online Sample.mapped (mkDate 2017 1 2) "CNM"
                true Sample.empty_world).2
      = stdout Sample.empty_world ++ match data_lines data with
                                    | [_] => [PartialData (mkDate 2017 1 2)]
                                    | _ => []
                                    end.
Proof.
  apply (@get_lp_series_warns_single_line Sample.online Sample.mapped
           (mkDate 2017 1 2) "CNM" true Sample.empty_world
           (@get_lp_series Sample.online Sample.mapped (mkDate 2017 1 2) "CNM" true
              Sample.empty_world).2 0%nat).
  vm_compute. reflexivity.
Defined.

(** X25 on the sample page of a standard day. *)
Lemma get_lp_series_tokens_read_witness :
  ∃ data w1,
    @_retrieve_raw_data Sample.online Sample.mapped (mkDate 2017 1 1) "CNM"
      Sample.empty_world = (Ok (Some data), w1)
    ∧ Forall (@readable Sample.online) (data_lines data).
Proof.
  apply (@get_lp_series_tokens_read Sample.online Sample.mapped (mkDate 2017 1 1)
           "CNM" true Sample.empty_world
           (@get_lp_series Sample.online Sample.mapped (mkDate 2017 1 1) "CNM" true
              Sample.empty_world).2 0%nat).
  vm_compute. reflexivity.
Defined.

(** ** Examples *)

Example split_lines_example :
  py.split "010"%char (py.remove_char "013"%char
     (String "a" (String "013" (String "010" (String "010" "b")))))
  = ["a"; ""; "b"].
Proof. reflexivity. Qed.

Example split_ws_example :
  py.split_ws (String "009" " ab  c d ") = ["ab"; "c"; "d"].
Proof. reflexivity. Qed.

Example zfill_example : py.zfill 2 (py.str_of_int 7) = "07".
Proof. reflexivity. Qed.

Example date_range_example :
  date_range (mkDate 2016 2 28) (mkDate 2016 3 1)
  = [mkDate 2016 2 28; mkDate 2016 2 29; mkDate 2016 3 1].
Proof. reflexivity. Qed.

Example strftime_example : strftime_Ymd (mkDate 2017 1 5) = "20170105".
Proof. reflexivity. Qed.

(** On the daylight-saving page the two Hour-2 tokens are [2.250] and
    [0.125]. *)
Example hour2_example :
  (l ← (@get_lp_series Sample.online Sample.mapped (mkDate 2016 11 6) "CNM" true
          ≫= λ o, mret (default 0%nat o));
   df_getitem l "H02") Sample.empty_world
  = (Ok [pd.Num 2.375; pd.Num 2.375],
     (@get_lp_series Sample.online Sample.mapped (mkDate 2016 11 6) "CNM" true
        Sample.empty_world).2).
Proof. vm_compute. reflexivity. Qed.

(** The folder of an output file, and what opening it raises: a file of
    an existing folder can be created, whether the folder is listed with
    its final separator or without; a file of the working directory too; a
    file of a folder that does not exist cannot, nor can a directory be
    opened as a file. *)
Example folder_example :
  @folder (Sample.offline 404) "C:\out\Conectiv_20170101.txt" = "C:\out\"
  ∧ @folder (Sample.offline 404) "C:\dataConectiv_20170101.txt" = "C:\"
  ∧ @folder (Sample.offline 404) "C:/out/sub\x.txt" = "C:/out/sub\"
  ∧ @folder (Sample.offline 404) "x.txt" = "".
Proof. repeat split; reflexivity. Qed.

Example open_error_example :
  @open_error (Sample.offline 404) Sample.with_archive_out "C:\out\x.txt" = None
  ∧ @open_error (Sample.offline 404) Sample.with_archive "C:\data\x.txt" = None
  ∧ @open_error (Sample.offline 404) Sample.empty_world "x.txt" = None
  ∧ @open_error (Sample.offline 404) Sample.empty_world "C:\out\x.txt"
    = Some (OSError "C:\out\x.txt")
  ∧ @open_error (Sample.offline 404) Sample.with_archive_out "C:\out\"
    = Some (IsADirectoryError "C:\out\")
  ∧ @open_error (Sample.offline 404) Sample.with_archive "C:\data\"
    = Some (OSError "C:\data\").
Proof. repeat split; vm_compute; reflexivity. Qed.

(** The spellings of a missing date give a row without date; any other
    text that is no date is an error. *)
Example date_of_cell_example :
  @date_of_cell (Sample.offline 404) (pd.Str "01/02/2017")
  = Ok (pd.Dt (mkDate 2017 1 2))
  ∧ @date_of_cell (Sample.offline 404) (pd.Str "NaT") = Ok pd.Null
  ∧ @date_of_cell (Sample.offline 404) (pd.Str "nan") = Ok pd.Null
  ∧ @date_of_cell (Sample.offline 404) (pd.Str "") = Ok pd.Null
  ∧ @date_of_cell (Sample.offline 404) (pd.Str "n/a") = Raise (ValueError NotADate).
Proof. repeat split; vm_compute; reflexivity. Qed.

(** A line whose date token is [NaT] gives a row without date: the table
    is returned. *)
Example missing_date_example :
  (l ← (@get_lp_series
          (Sample.serving (Sample.unlines (Sample.header
                                           ++ [Sample.row26 "MDRES" "NaT"])))
          Sample.mapped (mkDate 2017 1 1) "CNM" true
          ≫= λ o, mret (default 0%nat o));
   df_getitem l "date") Sample.empty_world
  = (Ok [pd.Null],
     (@get_lp_series
        (Sample.serving (Sample.unlines (Sample.header
                                         ++ [Sample.row26 "MDRES" "NaT"])))
        Sample.mapped (mkDate 2017 1 1) "CNM" true Sample.empty_world).2).
Proof. vm_compute. reflexivity. Qed.

(** Without a mapping file the export fails on [self.codes.C_LOAD_PROFILE]. *)
Example export_without_mapping :
  (@export_for_oracle (Sample.offline 404)
     Sample.unmapped 0%nat (Some "C:\out\") None
     Sample.with_combined).1
  = Raise (AttributeError "C_LOAD_PROFILE").
Proof. vm_compute. reflexivity. Qed.

(** A standard day: 24 hour columns after the segment and the date. *)
Example standard_day_example :
  (l ← (@get_lp_series Sample.online Sample.mapped (mkDate 2017 1 1) "CNM" true
          ≫= λ o, mret (default 0%nat o));
   df ← load l; mret (pd.columns df, pd.getitem df "segment"))
    Sample.empty_world
  = (Ok (["segment"; "date"] ++ hour_labels, Ok [pd.Str "MDRES"; pd.Str "MDGSL"]),
     (@get_lp_series Sample.online Sample.mapped (mkDate 2017 1 1) "CNM" true
        Sample.empty_world).2).
Proof. vm_compute. reflexivity. Qed.
